(** * simAI / circadian: resampling of wearable streams and the ESRI driver

    A shallow embedding of [core/utils/external/circadian/readers.py] and
    [core/utils/external/circadian/metrics.py], and the properties of the
    specification checked against it.

    Conventions of the embedding.
    - A pandas [Timestamp] is its number of nanoseconds since the epoch, a
      [Timedelta] a number of nanoseconds (both [Z]); [NaT] is a separate
      constructor where the code can meet it.
    - A float64 is an extended rational ([fval]): a finite value, the two
      infinities or NaN.  Finite arithmetic is exact; the statements below
      rest on comparisons and on counts of grid points that come out the
      same in float64 on the inputs they are about.
    - A [Series] is the list of its values in row order; every Series the
      code combines comes from one frame, so index alignment is positional.
    - A Python call either returns or raises: [outcome]. *)

From Stdlib Require Import ZArith QArith Qround Qabs Lqa Lia List String Bool.
From Stdlib Require Import Ascii.
From Stdlib Require Import Sorting.Sorted.
Import ListNotations.
Open Scope Z_scope.

Set Implicit Arguments.

(* ------------------------------------------------------------------ *)
(** ** Python outcomes *)

Module Py.

Inductive exn : Type :=
| TypeError | ValueError | AttributeError | IndexError | KeyError
| ZeroDivisionError.

Inductive outcome (A : Type) : Type :=
| Returned (a : A)
| Raised (e : exn).
Arguments Returned {A} a.
Arguments Raised {A} e.

Definition bind {A B} (m : outcome A) (k : A -> outcome B) : outcome B :=
  match m with
  | Returned a => k a
  | Raised e => Raised e
  end.

Definition raises {A} (m : outcome A) : Prop := exists e, m = Raised e.
Definition returns {A} (m : outcome A) : Prop := exists a, m = Returned a.

(** [if cond: raise e]. *)
Definition raise_if (cond : bool) (e : exn) : outcome unit :=
  if cond then Raised e else Returned tt.

(** [for x in xs: f x], collecting the results, stopping at the first
    exception. *)
Fixpoint mapM {A B} (f : A -> outcome B) (xs : list A) : outcome (list B) :=
  match xs with
  | [] => Returned []
  | x :: xs' =>
      bind (f x) (fun y => bind (mapM f xs') (fun ys => Returned (y :: ys)))
  end.

End Py.
Import Py.

Declare Scope py_scope.
Notation "x <- m ;; k" := (Py.bind m (fun x => k))
  (at level 61, m at next level, right associativity) : py_scope.
Notation "m ;;; k" := (Py.bind m (fun _ => k))
  (at level 61, right associativity) : py_scope.
Open Scope py_scope.

(* ------------------------------------------------------------------ *)
(** ** float64 values *)

Module Float.

Inductive fval : Type :=
| Fin (q : Q)
| PInf
| NInf
| NaN.

Definition zero : fval := Fin 0.

Definition isnan (v : fval) : bool :=
  match v with NaN => true | _ => false end.

(** [v < 0] as numpy evaluates it: false on NaN. *)
Definition ltb0 (v : fval) : bool :=
  match v with
  | Fin q => negb (Qle_bool 0 q)
  | NInf => true
  | PInf | NaN => false
  end.

Definition nonneg (v : fval) : Prop :=
  match v with
  | Fin q => (0 <= q)%Q
  | PInf => True
  | NInf | NaN => False
  end.

Definition in_unit (v : fval) : Prop :=
  match v with
  | Fin q => (0 <= q <= 1)%Q
  | _ => False
  end.

(** Value equality: numeric on finite values, NaN matched with NaN. *)
Definition feq (a b : fval) : Prop :=
  match a, b with
  | Fin x, Fin y => (x == y)%Q
  | PInf, PInf | NInf, NInf | NaN, NaN => True
  | _, _ => False
  end.

Definition sign (q : Q) : Z := Z.sgn (Qnum q).

Definition add (a b : fval) : fval :=
  match a, b with
  | NaN, _ | _, NaN => NaN
  | Fin x, Fin y => Fin (x + y)
  | PInf, NInf | NInf, PInf => NaN
  | PInf, _ | _, PInf => PInf
  | NInf, _ | _, NInf => NInf
  end.

Definition inf_of_sign (s : Z) : fval :=
  match s with
  | Z0 => NaN
  | Zpos _ => PInf
  | Zneg _ => NInf
  end.

Definition fsign (a : fval) : Z :=
  match a with
  | Fin x => sign x
  | PInf => 1
  | NInf => -1
  | NaN => 0
  end.

Definition mul (a b : fval) : fval :=
  match a, b with
  | NaN, _ | _, NaN => NaN
  | Fin x, Fin y => Fin (x * y)
  | _, _ => inf_of_sign (fsign a * fsign b)
  end.

(** True division of two int64 values, as numpy performs it on Series:
    no exception; [x/0] is an infinity of the sign of [x], [0/0] is NaN. *)
Definition int_truediv (a b : Z) : fval :=
  if b =? 0 then inf_of_sign (Z.sgn a)
  else Fin (inject_Z a / inject_Z b).

Definition div_nat (a : fval) (n : nat) : fval :=
  match a with
  | Fin x => Fin (x / inject_Z (Z.of_nat n))
  | other => other
  end.

Definition leb (a b : fval) : bool :=
  match a, b with
  | NaN, _ | _, NaN => false
  | NInf, _ | _, PInf => true
  | Fin x, Fin y => Qle_bool x y
  | _, _ => false
  end.

Definition fmax (a b : fval) : fval := if leb a b then b else a.
Definition fmin (a b : fval) : fval := if leb a b then a else b.

End Float.
Import Float.

(* ------------------------------------------------------------------ *)
(** ** readers.py *)

Module Readers.

(** Nanoseconds since the epoch, and nanosecond durations. *)
Abbreviation Timestamp := Z (only parsing).
Abbreviation Timedelta := Z (only parsing).

(** A timestamp as Python code can hold it: [pd.NaT] or a [pd.Timestamp]. *)
Inductive datetime : Type :=
| NaT
| Ts (t : Timestamp).

Definition NS_PER_SECOND : Z := 1000000000.
Definition SECONDS_PER_DAY : Z := 86400.

(** [Timedelta.seconds]: the seconds component of the normalised
    (days, seconds, sub-second) decomposition, always in [0, 86399];
    the days and the sub-second part are dropped. *)
Definition seconds (d : Timedelta) : Z :=
  (d / NS_PER_SECOND) mod SECONDS_PER_DAY.

Inductive Series : Type :=
| TimeSeries (ts : list Timestamp)
| NumSeries (vs : list fval).

(** A metadata value: a [str], or an object of another type. *)
Inductive attr : Type :=
| AStr (s : string)
| AOther.

Definition Metadata := list (string * attr).

Record DataFrame : Type := mkDataFrame {
  columns : list (string * Series);
  attrs : Metadata
}.

Definition VALID_WEARABLE_STREAMS : list string :=
  ["steps"; "heartrate"; "wake"; "light_estimate"; "activity"]%string.

Definition WEARABLE_RESAMPLE_METHOD : list (string * string) :=
  [("steps", "sum"); ("wake", "max"); ("heartrate", "mean");
   ("light_estimate", "mean"); ("activity", "mean")]%string.

(** [x in xs] on strings. *)
Definition str_in (x : string) (xs : list string) : bool :=
  existsb (String.eqb x) xs.

Definition column_names (df : DataFrame) : list string :=
  map fst (columns df).

Definition has_column (df : DataFrame) (c : string) : bool :=
  str_in c (column_names df).

Fixpoint lookup {A} (k : string) (d : list (string * A)) : option A :=
  match d with
  | [] => None
  | (k', v) :: d' => if String.eqb k k' then Some v else lookup k d'
  end.

(** [d[k] = v] on a dict kept in insertion order. *)
Fixpoint dict_set {A} (k : string) (v : A) (d : list (string * A))
  : list (string * A) :=
  match d with
  | [] => [(k, v)]
  | (k', v') :: d' =>
      if String.eqb k k' then (k, v) :: d' else (k', v') :: dict_set k v d'
  end.

(** *** WearableData *)

(** readers.py, lines 26-33. *)
Definition _validate_columns (obj : DataFrame) : outcome unit :=
  (if negb (has_column obj "datetime") then
     if negb (has_column obj "start") && negb (has_column obj "end")
     then Raised AttributeError
     else Returned tt
   else Returned tt) ;;;
  if negb (existsb (fun col => has_column obj col) VALID_WEARABLE_STREAMS)
  then Raised AttributeError
  else Returned tt.

Definition is_str (a : attr) : bool :=
  match a with AStr _ => true | AOther => false end.

(** readers.py, lines 35-43: [if metadata:] holds for a non-empty dict. *)
Definition _validate_metadata (metadata : Metadata) : outcome unit :=
  match metadata with
  | [] => Returned tt
  | _ =>
      if negb (existsb (fun key => str_in key ["data_id"; "subject_id"]%string)
                 (map fst metadata))
      then Raised AttributeError
      else if negb (forallb is_str (map snd metadata))
      then Raised AttributeError
      else Returned tt
  end.

(** [df.wearable]: building the accessor validates the columns. *)
Record WearableData : Type := mkWearable { _obj : DataFrame }.

Definition wearable (df : DataFrame) : outcome WearableData :=
  _validate_columns df ;;; Returned (mkWearable df).

(** readers.py, lines 58-61. *)
Definition is_valid (self : WearableData) : outcome bool :=
  _validate_columns (_obj self) ;;;
  _validate_metadata (attrs (_obj self)) ;;;
  Returned true.

(** readers.py, lines 63-75, [add_metadata(metadata, inplace=True)]: the
    frame with its attrs updated. *)
Definition add_metadata (self : WearableData) (metadata : Metadata)
  : outcome DataFrame :=
  _validate_metadata metadata ;;;
  Returned (mkDataFrame (columns (_obj self))
              (fold_left (fun a kv => dict_set (fst kv) (snd kv) a)
                 metadata (attrs (_obj self)))).

(** *** Series operations *)

(** An elementwise binary operation on two Series of one frame. *)
Definition zip_with {A B C} (f : A -> B -> C) (xs : list A) (ys : list B)
  : list C :=
  map (fun p => f (fst p) (snd p)) (combine xs ys).

(** Boolean indexing, [xs[mask]]. *)
Fixpoint select {A} (mask : list bool) (xs : list A) : list A :=
  match mask, xs with
  | b :: mask', x :: xs' => if b then x :: select mask' xs' else select mask' xs'
  | _, _ => []
  end.

(** [Series.min()] and [Series.max()] of a datetime column: [NaT] when
    there is no row. *)
Definition series_min (ts : list Timestamp) : datetime :=
  match ts with
  | [] => NaT
  | t :: ts' => Ts (fold_left Z.min ts' t)
  end.

Definition series_max (ts : list Timestamp) : datetime :=
  match ts with
  | [] => NaT
  | t :: ts' => Ts (fold_left Z.max ts' t)
  end.

(** [a < b] on datetimes: false as soon as one side is [NaT]. *)
Definition dt_ltb (a b : datetime) : bool :=
  match a, b with
  | Ts x, Ts y => x <? y
  | _, _ => false
  end.

(** Python's builtin [min] and [max] over a list: the first element is
    kept unless a later one compares strictly below (above) it. *)
Definition py_min (xs : list datetime) : outcome datetime :=
  match xs with
  | [] => Raised ValueError
  | x :: xs' => Returned (fold_left (fun cur y => if dt_ltb y cur then y else cur) xs' x)
  end.

Definition py_max (xs : list datetime) : outcome datetime :=
  match xs with
  | [] => Raised ValueError
  | x :: xs' => Returned (fold_left (fun cur y => if dt_ltb cur y then y else cur) xs' x)
  end.

Definition dropna (vs : list fval) : list fval :=
  filter (fun v => negb (isnan v)) vs.

Definition series_sum (vs : list fval) : fval :=
  fold_left Float.add (dropna vs) Float.zero.

Definition series_mean (vs : list fval) : fval :=
  match dropna vs with
  | [] => NaN
  | l => Float.div_nat (fold_left Float.add l Float.zero) (List.length l)
  end.

Definition series_max_num (vs : list fval) : fval :=
  match dropna vs with
  | [] => NaN
  | v :: l => fold_left Float.fmax l v
  end.

Definition series_min_num (vs : list fval) : fval :=
  match dropna vs with
  | [] => NaN
  | v :: l => fold_left Float.fmin l v
  end.

(** [Series.agg(method)] for the four reductions resample_df admits
    (NaN skipped, as pandas does by default). *)
Definition agg (method : string) (vs : list fval) : outcome fval :=
  if String.eqb method "sum" then Returned (series_sum vs)
  else if String.eqb method "mean" then Returned (series_mean vs)
  else if String.eqb method "max" then Returned (series_max_num vs)
  else if String.eqb method "min" then Returned (series_min_num vs)
  else Raised AttributeError.

(** [pd.date_range(start, end, freq=freq)] for a fixed positive
    frequency: [start + k*freq] for every [k >= 0] that stays [<= end]. *)
Definition date_range (start stop : Timestamp) (freq : positive)
  : list Timestamp :=
  map (fun k => start + Z.of_nat k * Zpos freq)
    (seq 0 (Z.to_nat ((stop - start) / Zpos freq + 1))).

(** *** interval_fraction

    readers.py, lines 182-193.  The Series division is numpy's true
    division: it raises nothing. *)

Definition interval_fraction (starts stops : list Timestamp)
    (ref_start ref_stop : Timestamp) : outcome (list fval) :=
  let max_starts := map (fun x => Z.max x ref_start) starts in
  let min_ends := map (fun x => Z.min x ref_stop) stops in
  let contained_intervals := map seconds (zip_with Z.sub min_ends max_starts) in
  let full_intervals := map seconds (zip_with Z.sub stops starts) in
  Returned (zip_with Float.int_truediv contained_intervals full_intervals).

(** *** resample_df *)

(** [df.c] for a datetime column.  A column of another dtype is outside
    the model and counted as a failure. *)
Definition time_column (df : DataFrame) (c : string)
  : outcome (list Timestamp) :=
  match lookup c (columns df) with
  | None => Raised AttributeError
  | Some (TimeSeries ts) => Returned ts
  | Some (NumSeries _) => Raised TypeError
  end.

(** [df[name]] for a numeric column. *)
Definition num_column (df : DataFrame) (name : string)
  : outcome (list fval) :=
  match lookup name (columns df) with
  | None => Raised KeyError
  | Some (NumSeries vs) => Returned vs
  | Some (TimeSeries _) => Raised TypeError
  end.

(** [b is not None and not isinstance(b, pd.Timestamp)]: [NaT] is not a
    [pd.Timestamp]. *)
Definition bad_bound (b : option datetime) : bool :=
  match b with
  | Some NaT => true
  | _ => false
  end.

Definition bound_or (b : option datetime) (dflt : datetime) : datetime :=
  match b with
  | None => dflt
  | Some d => d
  end.

(** [pd.date_range] refuses [NaT] bounds. *)
Definition date_range_dt (a b : datetime) (freq : positive)
  : outcome (list Timestamp) :=
  match a, b with
  | Ts x, Ts y => Returned (date_range x y freq)
  | _, _ => Raised ValueError
  end.

Definition AGG_METHODS : list string := ["sum"; "mean"; "max"; "min"]%string.

(** The body of the loop of the interval branch: the value of the bucket
    that starts at [datetime]. *)
Definition interval_bucket (values : list fval) (starts stops : list Timestamp)
    (freq : positive) (agg_method : string) (datetime : Timestamp)
  : outcome fval :=
  let next_datetime := datetime + Zpos freq in
  let mask := zip_with andb (map (fun s => s <=? next_datetime) starts)
                            (map (fun e => e >? datetime) stops) in
  if (0 <? List.length (select mask values))%nat then
    value_fraction <- interval_fraction (select mask starts) (select mask stops)
                        datetime next_datetime ;;
    agg agg_method (zip_with Float.mul (select mask values) value_fraction)
  else Returned Float.zero.

(** The body of the loop of the per-datetime branch. *)
Definition instant_bucket (values : list fval) (data_datetimes : list Timestamp)
    (freq : positive) (agg_method : string) (datetime : Timestamp)
  : outcome fval :=
  let next_datetime := datetime + Zpos freq in
  let mask := zip_with andb (map (fun d => d <=? next_datetime) data_datetimes)
                            (map (fun d => d >=? datetime) data_datetimes) in
  if (0 <? List.length (select mask values))%nat then
    agg agg_method (select mask values)
  else Returned Float.zero.

(** readers.py, lines 196-255.  [freq] is the fixed duration the frequency
    string denotes, in nanoseconds; the [isinstance] checks on [df] and
    [freq] are the types of the arguments. *)
Definition resample_df (df : DataFrame) (name : string) (freq : positive)
    (agg_method : string) (initial_datetime final_datetime : option datetime)
  : outcome DataFrame :=
  (* validate inputs *)
  w <- wearable df ;;
  ok <- is_valid w ;;
  raise_if (negb ok) AttributeError ;;;
  raise_if (negb (str_in name VALID_WEARABLE_STREAMS)) AttributeError ;;;
  raise_if (negb (has_column df name)) AttributeError ;;;
  raise_if (negb (str_in agg_method AGG_METHODS)) AttributeError ;;;
  raise_if (bad_bound initial_datetime) AttributeError ;;;
  raise_if (bad_bound final_datetime) AttributeError ;;;
  (* resample *)
  values <- num_column df name ;;
  if has_column df "start" && has_column df "end" then
    starts <- time_column df "start" ;;
    stops <- time_column df "end" ;;
    let initial_datetime := bound_or initial_datetime (series_min starts) in
    let final_datetime := bound_or final_datetime (series_max stops) in
    new_datetime <- date_range_dt initial_datetime final_datetime freq ;;
    new_values <- mapM (interval_bucket values starts stops freq agg_method)
                    new_datetime ;;
    Returned (mkDataFrame [("datetime"%string, TimeSeries new_datetime);
                           (name, NumSeries new_values)] [])
  else
    data_datetimes <- time_column df "datetime" ;;
    let initial_datetime := bound_or initial_datetime (series_min data_datetimes) in
    let final_datetime := bound_or final_datetime (series_max data_datetimes) in
    new_datetime <- date_range_dt initial_datetime final_datetime freq ;;
    new_values <- mapM (instant_bucket values data_datetimes freq agg_method)
                    new_datetime ;;
    Returned (mkDataFrame [("datetime"%string, TimeSeries new_datetime);
                           (name, NumSeries new_values)] []).

(** *** DataFrame.merge(on='datetime', how='outer') and sort_values *)

(** Row numbers of the rows of key [k]. *)
Definition positions (k : Timestamp) (keys : list Timestamp) : list nat :=
  map snd (filter (fun p => fst p =? k) (combine keys (seq 0 (List.length keys)))).

Fixpoint insert_key (k : Timestamp) (l : list Timestamp) : list Timestamp :=
  match l with
  | [] => [k]
  | x :: l' =>
      if k <? x then k :: l
      else if k =? x then l
      else x :: insert_key k l'
  end.

(** The distinct keys, ascending. *)
Definition sorted_keys (l : list Timestamp) : list Timestamp :=
  fold_left (fun acc k => insert_key k acc) l [].

(** The rows of the outer join: for every key in ascending order, every
    pair of a left row and a right row of that key; a key one side lacks
    pairs with no row ([None]) of that side. *)
Definition join_rows (keys_l keys_r : list Timestamp)
  : list (Timestamp * option nat * option nat) :=
  flat_map
    (fun k =>
       match positions k keys_l, positions k keys_r with
       | [], rj => map (fun j => (k, None, Some j)) rj
       | li, [] => map (fun i => (k, Some i, None)) li
       | li, rj => map (fun ij => (k, Some (fst ij), Some (snd ij))) (list_prod li rj)
       end)
    (sorted_keys (keys_l ++ keys_r)).

(** A column read at the joined rows; a missing row reads NaN.  A
    datetime column with a missing row would hold NaT, which [TimeSeries]
    does not carry: no frame merged by this module has one. *)
Definition take_series (idx : list (option nat)) (s : Series) : outcome Series :=
  match s with
  | NumSeries vs =>
      Returned (NumSeries (map (fun oi => match oi with
                                          | Some i => nth i vs NaN
                                          | None => NaN
                                          end) idx))
  | TimeSeries ts =>
      if forallb (fun oi => match oi with Some _ => true | None => false end) idx
      then Returned (TimeSeries (map (fun oi => match oi with
                                                | Some i => nth i ts 0
                                                | None => 0
                                                end) idx))
      else Raised TypeError
  end.

Definition non_key (df : DataFrame) : list (string * Series) :=
  filter (fun c => negb (String.eqb (fst c) "datetime")) (columns df).

(** A column name both frames carry gets the suffix of its side. *)
Definition suffixed (c : string) (others : list string) (suffix : string) : string :=
  if str_in c others then (c ++ suffix)%string else c.

(** The merged frame: the left columns in their order, the key among
    them, then the right columns but the key.  The frames merged here
    carry no attrs, and neither does the result. *)
Definition merge (left right : DataFrame) : outcome DataFrame :=
  keys_l <- match lookup "datetime"%string (columns left) with
            | Some (TimeSeries ts) => Returned ts
            | _ => Raised KeyError
            end ;;
  keys_r <- match lookup "datetime"%string (columns right) with
            | Some (TimeSeries ts) => Returned ts
            | _ => Raised KeyError
            end ;;
  let rows := join_rows keys_l keys_r in
  let idx_l := map (fun r => snd (fst r)) rows in
  let idx_r := map snd rows in
  let names_l := map fst (non_key left) in
  let names_r := map fst (non_key right) in
  cols_l <- mapM (fun c =>
              if String.eqb (fst c) "datetime"
              then Returned (fst c, TimeSeries (map (fun r => fst (fst r)) rows))
              else s <- take_series idx_l (snd c) ;;
                   Returned (suffixed (fst c) names_r "_x", s))
            (columns left) ;;
  cols_r <- mapM (fun c =>
              s <- take_series idx_r (snd c) ;;
              Returned (suffixed (fst c) names_l "_y", s))
            (non_key right) ;;
  Returned (mkDataFrame (cols_l ++ cols_r) []).

Fixpoint insert_row (p : Timestamp * nat) (l : list (Timestamp * nat))
  : list (Timestamp * nat) :=
  match l with
  | [] => [p]
  | q :: l' => if fst p <? fst q then p :: l else q :: insert_row p l'
  end.

(** The row order after sorting by key (rows of equal key keep their
    order). *)
Definition sort_perm (keys : list Timestamp) : list nat :=
  map snd (fold_left (fun acc p => insert_row p acc)
             (combine keys (seq 0 (List.length keys))) []).

Definition reorder (perm : list nat) (s : Series) : Series :=
  match s with
  | TimeSeries ts => TimeSeries (map (fun i => nth i ts 0) perm)
  | NumSeries vs => NumSeries (map (fun i => nth i vs NaN) perm)
  end.

(** [df.sort_values(by=by, inplace=True)] on a datetime column. *)
Definition sort_values (df : DataFrame) (by_ : string) : outcome DataFrame :=
  match lookup by_ (columns df) with
  | Some (TimeSeries keys) =>
      let perm := sort_perm keys in
      Returned (mkDataFrame
                  (map (fun c => (fst c, reorder perm (snd c))) (columns df))
                  (attrs df))
  | Some (NumSeries _) => Raised TypeError
  | None => Raised KeyError
  end.

(** *** combine_wearable_dataframes *)

Fixpoint foldM {A B} (f : A -> B -> outcome A) (xs : list B) (acc : A)
  : outcome A :=
  match xs with
  | [] => Returned acc
  | x :: xs' => acc' <- f acc x ;; foldM f xs' acc'
  end.

(** The first loop body: the bounds one stream contributes. *)
Definition stream_bounds (df : DataFrame) : outcome (datetime * datetime) :=
  w <- wearable df ;;
  _ <- is_valid w ;;
  if has_column df "start" then
    starts <- time_column df "start" ;;
    stops <- time_column df "end" ;;
    Returned (series_min starts, series_max stops)
  else
    data_datetimes <- time_column df "datetime" ;;
    Returned (series_min data_datetimes, series_max data_datetimes).

(** readers.py, lines 267-306.  The dict is the list of its items in
    insertion order. *)
Definition combine_wearable_dataframes (df_dict : list (string * DataFrame))
    (resample_freq : positive) (metadata : option Metadata)
  : outcome DataFrame :=
  (* find common initial and final datetimes *)
  bounds <- mapM (fun kv => stream_bounds (snd kv)) df_dict ;;
  initial_datetime <- py_min (map fst bounds) ;;
  final_datetime <- py_max (map snd bounds) ;;
  (* resample each df *)
  df_list <- mapM (fun kv =>
               let name := fst kv in
               let df := snd kv in
               method <- match lookup name WEARABLE_RESAMPLE_METHOD with
                         | Some m => Returned m
                         | None => Raised KeyError
                         end ;;
               resample_df df name resample_freq method
                 (Some initial_datetime) (Some final_datetime))
             df_dict ;;
  (* merge all dfs by datetime *)
  match df_list with
  | [] => Raised IndexError
  | df0 :: rest =>
      df <- foldM merge rest df0 ;;
      (* sort by datetime *)
      df <- sort_values df "datetime" ;;
      (* add metadata *)
      w <- wearable df ;;
      match metadata with
      | Some m => add_metadata w m
      | None => add_metadata w [("data_id"%string, AStr "combined_dataframe")]
      end
  end.

(** *** rename_columns

    readers.py, lines 45-56.  Column names are ASCII strings, on which
    [str.lower] turns the letters A-Z into a-z and leaves every other
    character.  With [inplace=True] the frame given is the one renamed,
    otherwise a copy of it is: in both cases the frame below. *)
Definition is_upper (c : ascii) : bool :=
  (65 <=? nat_of_ascii c)%nat && (nat_of_ascii c <=? 90)%nat.

Definition lower_char (c : ascii) : ascii :=
  if is_upper c then ascii_of_nat (nat_of_ascii c + 32) else c.

Fixpoint string_map (f : ascii -> ascii) (s : string) : string :=
  match s with
  | EmptyString => EmptyString
  | String c s' => String (f c) (string_map f s')
  end.

(** [s.lower()] and [s.replace(' ', '_')]. *)
Definition lower (s : string) : string := string_map lower_char s.
Definition replace_space (s : string) : string :=
  string_map (fun c => if Ascii.eqb c " " then "_"%char else c) s.

Definition rename_columns (df : DataFrame) : DataFrame :=
  let columns' := map (fun col => replace_space (lower col)) (column_names df) in
  mkDataFrame (combine columns' (map snd (columns df))) (attrs df).

End Readers.

(* ------------------------------------------------------------------ *)
(** ** metrics.py *)

Module Metrics.

Local Open Scope Q_scope.

(** *** The numpy functions esri uses *)

(** [np.pi], the float64 nearest to pi. *)
Definition np_pi : Q := 884279719003555 # 281474976710656.

(** [a[0]] and [a[-1]]. *)
Definition first_item {A} (a : list A) : outcome A :=
  match a with
  | [] => Raised IndexError
  | x :: _ => Returned x
  end.

Fixpoint last_item {A} (a : list A) : outcome A :=
  match a with
  | [] => Raised IndexError
  | [x] => Returned x
  | _ :: a' => last_item a'
  end.

(** [np.diff(a)]. *)
Fixpoint diff (a : list Q) : list Q :=
  match a with
  | x :: ((y :: _) as a') => (y - x) :: diff a'
  | _ => []
  end.

(** [np.isclose(a, b)] with its default tolerances. *)
Definition rtol : Q := 1 # 100000.
Definition atol : Q := 1 # 100000000.

Definition isclose (a b : Q) : bool :=
  Qle_bool (Qabs (a - b)) (atol + rtol * Qabs b).

(** [np.arange(start, stop, step)] on floats: [ceil((stop - start)/step)]
    values [start + i*step]; a zero step is refused.  numpy computes the
    count and the values in float64: they are the ones below where that
    arithmetic is exact, as it is on whole numbers of moderate size;
    elsewhere rounding can add or drop the last point and move a value by
    an ulp. *)
Definition arange (start stop step : Q) : outcome (list Q) :=
  if Qeq_bool step 0 then Raised ValueError
  else Returned (map (fun i => start + inject_Z (Z.of_nat i) * step)
                   (seq 0 (Z.to_nat (Qceiling ((stop - start) / step))))).

(** [np.mod(t, m)]: the remainder of the floored division. *)
Definition mod_ (t m : Q) : Q := t - m * inject_Z (Qfloor (t / m)).

(** [np.interp] at one point, for increasing sample points [x0 :: xp]:
    the value is held before the first and after the last sample point
    and linear in between. *)
Fixpoint interp_from (x x0 f0 : Q) (xp fp : list Q) : Q :=
  match xp, fp with
  | x1 :: xp', f1 :: fp' =>
      if Qle_bool x1 x then interp_from x x1 f1 xp' fp'
      else (f1 - f0) / (x1 - x0) * (x - x0) + f0
  | _, _ => f0
  end.

Definition interp (x xp fp : list Q) : outcome (list Q) :=
  if negb (List.length xp =? List.length fp)%nat then Raised ValueError
  else match xp, fp with
       | x0 :: xp', f0 :: fp' =>
           Returned (map (fun v => if Qle_bool v x0 then f0
                                   else interp_from v x0 f0 xp' fp') x)
       | _, _ => Raised ValueError
       end.

(** *** The oscillator model (module [models], not part of these files)

    [Hannay19(params)] builds a model; calling it with the simulation
    times, the initial condition (amplitude, phase, drift) and the light
    sampled at those times yields a trajectory, of which esri reads
    [states[-1, 0]]: the amplitude of the last state. *)
Definition Params := list (string * Q).
Definition State : Type := fval * fval * fval.
Definition Oscillator : Type :=
  list Q -> Q * Q * Q -> list Q -> outcome (list State).

Definition final_amplitude (states : list State) : outcome fval :=
  s <- last_item states ;; Returned (fst (fst s)).

(** *** esri *)

Inductive warning : Type :=
| NaNValues.   (* 'ESRI calculation failed for certain timepoints ...' *)

(** What a call that returns leaves behind: the returned pair and the
    warnings issued. *)
Record esri_result : Type := mkResult {
  esri_time : list Q;
  esri_array : list fval;
  warnings : list warning
}.

(** metrics.py, lines 24-44: the checks at the head of esri (the
    [isinstance] checks are the types of the arguments). *)
Definition validate (time light_schedule : list Q) (analysis_days : Z)
    (esri_dt initial_amplitude : Q) : outcome unit :=
  raise_if (negb (List.length time =? List.length light_schedule)%nat) ValueError ;;;
  d0 <- first_item (diff time) ;;
  raise_if (negb (forallb (fun d => isclose d d0) (diff time))) ValueError ;;;
  raise_if (analysis_days <? 1)%Z ValueError ;;;
  raise_if (Qle_bool esri_dt 0) ValueError ;;;
  raise_if (negb (Qle_bool 0 initial_amplitude)) ValueError.

(** metrics.py, lines 51-56, the body of the loop: the amplitude the model
    ends with when started at [t]. *)
Definition simulate (model : Oscillator) (time light_schedule : list Q)
    (analysis_days : Z) (simulation_dt initial_amplitude phase_at_midnight : Q)
    (t : Q) : outcome fval :=
  let initial_phase := phase_at_midnight + mod_ t 24 * np_pi / 12 in
  let initial_condition := (initial_amplitude, initial_phase, 0) in
  simulation_time <- arange t (t + inject_Z (analysis_days * 24)) simulation_dt ;;
  simulation_light <- interp simulation_time time light_schedule ;;
  trajectory <- model simulation_time initial_condition simulation_light ;;
  final_amplitude trajectory.

(** [esri_array[esri_array < 0] = np.nan]. *)
Definition clean_negative (a : list fval) : list fval :=
  map (fun v => if Float.ltb0 v then NaN else v) a.

(** metrics.py, lines 16-63. *)
Definition esri (Hannay19 : Params -> Oscillator)
    (time light_schedule : list Q) (analysis_days : Z)
    (esri_dt initial_amplitude phase_at_midnight : Q)
  : outcome esri_result :=
  (* validate inputs *)
  validate time light_schedule analysis_days esri_dt initial_amplitude ;;;
  (* calculate ESRI *)
  let model := Hannay19 [("K"%string, 0); ("gamma"%string, 0)] in
  simulation_dt <- first_item (diff time) ;;
  time_0 <- first_item time ;;
  time_last <- last_item time ;;
  esri_time <- arange time_0 (time_last - inject_Z (analysis_days * 24)) esri_dt ;;
  esri_array <- mapM (simulate model time light_schedule analysis_days
                        simulation_dt initial_amplitude phase_at_midnight)
                  esri_time ;;
  (* clean up any negative values *)
  let esri_array := clean_negative esri_array in
  (* if there's any NaNs, throw a warning *)
  let warnings := if existsb Float.isnan esri_array then [NaNValues] else [] in
  Returned (mkResult esri_time esri_array warnings).

(** Default arguments of esri. *)
Definition default_analysis_days : Z := 4.
Definition default_esri_dt : Q := 1.
Definition default_initial_amplitude : Q := 1 # 10.
Definition default_phase_at_midnight : Q := 165238233 # 100000000.

(** A stand-in oscillator for running esri on examples: the amplitude
    stays at its initial value, which is what the model configured with
    zero gain and coupling does in the absence of light. *)
Definition constant_oscillator (_ : Params) : Oscillator :=
  fun simulation_time initial_condition _ =>
    let '(a, p, d) := initial_condition in
    Returned (map (fun _ => (Fin a, Fin p, Fin d)) simulation_time).

(** A second stand-in, whose amplitude sinks with the time at which the
    simulation starts: it ends below zero for a start after the initial
    amplitude. *)
Definition sinking_oscillator (_ : Params) : Oscillator :=
  fun simulation_time initial_condition _ =>
    let '(a, p, d) := initial_condition in
    Returned (map (fun _ => (Fin (a - hd 0 simulation_time), Fin p, Fin d))
                simulation_time).

End Metrics.

(* ------------------------------------------------------------------ *)
(** ** Vocabulary of the statements *)

Module Vocabulary.
Import Readers Metrics.

(** [n] seconds, [n] minutes, [n] hours and [n] days in nanoseconds. *)
Definition sec (n : Z) : Z := n * NS_PER_SECOND.
Definition minute (n : Z) : Z := sec (60 * n).
Definition hour (n : Z) : Z := sec (3600 * n).
Definition day (n : Z) : Z := sec (SECONDS_PER_DAY * n).

(** A source interval is well formed when it starts strictly before it
    ends; it is contained in the reference interval, or disjoint from
    it, in the usual sense for half-open intervals. *)
Definition well_formed (start stop : Timestamp) : Prop := start < stop.
Definition contained (start stop ref_start ref_stop : Timestamp) : Prop :=
  ref_start <= start /\ stop <= ref_stop.
Definition disjoint (start stop ref_start ref_stop : Timestamp) : Prop :=
  stop <= ref_start \/ ref_stop <= start.

(** A frame has a recognized stream column, and a time column of either
    shape. *)
Definition has_stream_column (df : DataFrame) : Prop :=
  exists col, In col VALID_WEARABLE_STREAMS /\ has_column df col = true.
Definition has_time_column (df : DataFrame) : Prop :=
  has_column df "datetime" = true \/ has_column df "start" = true \/
  has_column df "end" = true.

(** Example frames: a stream with a start column only, a stream of
    mixed shape, and three steps counts one minute apart. *)
Definition start_only : DataFrame :=
  mkDataFrame [("start"%string, TimeSeries [minute 0; minute 1]);
               ("steps"%string, NumSeries [Fin 4; Fin 6])] [].
Definition mixed_shape : DataFrame :=
  mkDataFrame [("datetime"%string, TimeSeries [minute 0; minute 1]);
               ("start"%string, TimeSeries [minute 0; minute 1]);
               ("end"%string, TimeSeries [minute 1; minute 2]);
               ("heartrate"%string, NumSeries [Fin 60; Fin 62])] [].
Definition three_minutes : DataFrame :=
  mkDataFrame [("datetime"%string, TimeSeries [minute 0; minute 1; minute 2]);
               ("steps"%string, NumSeries [Fin 1; Fin 2; Fin 3])] [].
Definition one_minute : positive := 60000000000.

(** The same counts held over the three minutes that follow one another. *)
Definition three_intervals : DataFrame :=
  mkDataFrame [("start"%string, TimeSeries [minute 0; minute 1; minute 2]);
               ("end"%string, TimeSeries [minute 1; minute 2; minute 3]);
               ("steps"%string, NumSeries [Fin 1; Fin 2; Fin 3])] [].

(** The time span of a series: last time minus first time. *)
Definition span (time : list Q) : Q := (last time 0 - hd 0 time)%Q.

(** An input esri accepts: one that passes every check at its head. *)
Definition valid_input (time light_schedule : list Q) (analysis_days : Z)
    (esri_dt initial_amplitude : Q) : Prop :=
  validate time light_schedule analysis_days esri_dt initial_amplitude
    = Returned tt.

(** A time step that is the same, exactly, between all timepoints. *)
Definition uniform_step (time : list Q) : Prop :=
  exists d0 ds, diff time = d0 :: ds /\ Forall (fun d => d == d0)%Q ds.

(** Time runs forward: the simulation step is positive. *)
Definition forward (time : list Q) : Prop :=
  exists d0 ds, diff time = d0 :: ds /\ (0 < d0)%Q.

(** What esri relies on from the oscillator model: run on a non-empty
    list of times with as many light values, it returns one state per
    time. *)
Definition oscillator_contract (model : Oscillator) : Prop :=
  forall simulation_time initial_condition simulation_light,
    simulation_time <> [] ->
    List.length simulation_light = List.length simulation_time ->
    exists states,
      model simulation_time initial_condition simulation_light = Returned states /\
      List.length states = List.length simulation_time.

(** [n] timepoints one hour apart from 0, and [n] readings of no light. *)
Definition hourly (n : nat) : list Q :=
  map (fun i => inject_Z (Z.of_nat i)) (seq 0 n).
Definition dark (n : nat) : list Q := repeat 0%Q n.

(** A value numpy finds below zero. *)
Definition negative (v : fval) : Prop := Float.ltb0 v = true.

(** Some time step differs from the first by more than [np.isclose]
    tolerates. *)
Definition beyond_tolerance (time : list Q) : Prop :=
  exists d0 ds d,
    diff time = d0 :: ds /\ In d (diff time) /\
    (atol + rtol * Qabs d0 < Qabs (d - d0))%Q.

(** The parameter errors of esri. *)
Inductive parameter_error (time light_schedule : list Q) (analysis_days : Z)
    (esri_dt initial_amplitude : Q) : Prop :=
| LengthMismatch :
    List.length time <> List.length light_schedule ->
    parameter_error time light_schedule analysis_days esri_dt initial_amplitude
| NonUniformStep :
    beyond_tolerance time ->
    parameter_error time light_schedule analysis_days esri_dt initial_amplitude
| DaysBelowOne :
    analysis_days < 1 ->
    parameter_error time light_schedule analysis_days esri_dt initial_amplitude
| StepNotPositive :
    (esri_dt <= 0)%Q ->
    parameter_error time light_schedule analysis_days esri_dt initial_amplitude
| NegativeAmplitude :
    (initial_amplitude < 0)%Q ->
    parameter_error time light_schedule analysis_days esri_dt initial_amplitude.

(** Twenty-seven timepoints, hourly but for the last, which comes 2^-20
    hours late. *)
Definition nearly_hourly : list Q := hourly 26 ++ [27262977 # 1048576]%Q.

(** A column of a resampled frame on the grid [g]: numeric, one value
    per grid point. *)
Definition aligned (g : list Timestamp) (c : string * Series) : Prop :=
  exists vs, snd c = NumSeries vs /\ List.length vs = List.length g.

(** The two shapes of a stream: one timestamp per record, or a start and
    an end per record. *)
Inductive shape : Type :=
| Instant (data_datetimes : list Timestamp)
| Interval (starts stops : list Timestamp).

Definition time_series (df : DataFrame) (c : string) : option (list Timestamp) :=
  match lookup c (columns df) with
  | Some (TimeSeries ts) => Some ts
  | _ => None
  end.

(** The shape of a frame that is in exactly one of the two shapes. *)
Definition stream_shape (df : DataFrame) : option shape :=
  if has_column df "datetime" then
    if has_column df "start" || has_column df "end" then None
    else option_map Instant (time_series df "datetime")
  else
    match time_series df "start", time_series df "end" with
    | Some starts, Some stops => Some (Interval starts stops)
    | _, _ => None
    end.

(** What [stream_shape] tells about the columns of the frame. *)
Inductive shape_view (df : DataFrame) : option shape -> Prop :=
| ViewInstant ds :
    lookup "datetime"%string (columns df) = Some (TimeSeries ds) ->
    has_column df "start" = false -> has_column df "end" = false ->
    shape_view df (Some (Instant ds))
| ViewInterval starts stops :
    lookup "start"%string (columns df) = Some (TimeSeries starts) ->
    lookup "end"%string (columns df) = Some (TimeSeries stops) ->
    shape_view df (Some (Interval starts stops))
| ViewNone : shape_view df None.

(** The timestamps that bound a stream below and above. *)
Definition lower_times (df : DataFrame) : list Timestamp :=
  match stream_shape df with
  | Some (Instant ds) => ds
  | Some (Interval starts _) => starts
  | None => []
  end.

Definition upper_times (df : DataFrame) : list Timestamp :=
  match stream_shape df with
  | Some (Instant ds) => ds
  | Some (Interval _ stops) => stops
  | None => []
  end.

(** A valid input stream under the key [name]: a recognized stream name,
    a numeric column of that name, exactly one shape with at least one
    record, and metadata the accessor accepts. *)
Record valid_stream (name : string) (df : DataFrame) : Prop := mkValid {
  valid_name : In name VALID_WEARABLE_STREAMS;
  valid_values : exists values, lookup name (columns df) = Some (NumSeries values);
  valid_lower : lower_times df <> [];
  valid_upper : upper_times df <> [];
  valid_attrs : _validate_metadata (attrs df) = Returned tt
}.

(** No record of the stream falls in the bucket of the grid point [g]:
    no timestamp in [g, g + freq], no interval that starts by [g + freq]
    and ends after [g]. *)
Definition bucket_empty (df : DataFrame) (freq : positive) (g : Timestamp) : Prop :=
  match stream_shape df with
  | Some (Instant ds) => Forall (fun d => d < g \/ g + Zpos freq < d) ds
  | Some (Interval starts stops) =>
      Forall (fun p => g + Zpos freq < fst p \/ snd p <= g) (combine starts stops)
  | None => False
  end.

Definition is_min (m : Timestamp) (l : list Timestamp) : Prop :=
  In m l /\ Forall (fun x => m <= x) l.
Definition is_max (m : Timestamp) (l : list Timestamp) : Prop :=
  In m l /\ Forall (fun x => x <= m) l.

Definition least (l : list Timestamp) : Timestamp := fold_left Z.min (tl l) (hd 0 l).
Definition greatest (l : list Timestamp) : Timestamp := fold_left Z.max (tl l) (hd 0 l).

(** Metadata combine_wearable_dataframes can attach: none given, or
    metadata the accessor accepts. *)
Definition metadata_ok (metadata : option Metadata) : Prop :=
  match metadata with
  | None => True
  | Some m => _validate_metadata m = Returned tt
  end.

(** The frame resample_df builds. *)
Definition resampled (g : list Timestamp) (c : string * Series) : DataFrame :=
  mkDataFrame [("datetime"%string, TimeSeries g); c] [].

(** What a list of bucket values is to a stream: one value per grid
    point, zero where the bucket is empty. *)
Definition bucket_values (df : DataFrame) (freq : positive)
    (g : list Timestamp) (vals : list fval) : Prop :=
  List.length vals = List.length g /\
  forall i t, nth_error g i = Some t -> bucket_empty df freq t ->
              nth_error vals i = Some Float.zero.

(** How a column of the combined table stands to the stream it comes
    from. *)
Definition column_of (freq : positive) (g : list Timestamp)
    (kv : string * DataFrame) (c : string * Series) : Prop :=
  fst c = fst kv /\
  exists vals, snd c = NumSeries vals /\ bucket_values (snd kv) freq g vals.

(** Two streams whose spans overlap in part: steps at 0 and 10 minutes,
    heart rate at 5 and 20 minutes. *)
Definition steps_stream : DataFrame :=
  mkDataFrame [("datetime"%string, TimeSeries [minute 0; minute 10]);
               ("steps"%string, NumSeries [Fin 1; Fin 2])] [].
Definition heartrate_stream : DataFrame :=
  mkDataFrame [("datetime"%string, TimeSeries [minute 5; minute 20]);
               ("heartrate"%string, NumSeries [Fin 7; Fin 9])] [].
Definition two_streams : list (string * DataFrame) :=
  [("steps"%string, steps_stream); ("heartrate"%string, heartrate_stream)].
Definition ten_minutes : positive := 600000000000.

(** A steps stream with one record per point of the uniform grid that
    starts at [t0] with step [step]. *)
Definition uniform_times (t0 : Timestamp) (step : positive) (n : nat) : list Timestamp :=
  map (fun k => t0 + Z.of_nat k * Zpos step) (seq 0 n).

Definition uniform_stream (t0 : Timestamp) (step : positive) (vs : list fval) : DataFrame :=
  mkDataFrame [("datetime"%string, TimeSeries (uniform_times t0 step (List.length vs)));
               ("steps"%string, NumSeries vs)] [].

(** Metadata the accessor accepts: none, or metadata with one of the keys
    data_id, subject_id and only strings as values. *)
Definition acceptable_metadata (m : Metadata) : Prop :=
  m = [] \/
  ((exists key, In key (map fst m) /\ In key ["data_id"; "subject_id"]%string) /\
   Forall (fun v => is_str v = true) (map snd m)).

(** The attrs after [attrs[key] = value] for every item of [m]. *)
Definition updated (m a : Metadata) : Metadata :=
  fold_left (fun a kv => dict_set (fst kv) (snd kv) a) m a.

(** Example metadata and intervals. *)
Definition subject_7 : Metadata :=
  [("subject_id"%string, AStr "7"); ("device"%string, AStr "watch")].

(** A name as rename_columns leaves it: no space, no letter A-Z. *)
Fixpoint standard_name (s : string) : Prop :=
  match s with
  | EmptyString => True
  | String c s' => c <> " "%char /\ is_upper c = false /\ standard_name s'
  end.

(** A frame as a device export names its columns. *)
Definition actiwatch_like : DataFrame :=
  mkDataFrame [("Date Time"%string, TimeSeries [minute 0; minute 1]);
               ("White Light"%string, NumSeries [Fin 10; Fin 12]);
               ("Activity"%string, NumSeries [Fin 3; Fin 0])]
              [("data_id"%string, AStr "a1")].

(** A frame resample_df takes under the name [name], rows or not: a
    recognized stream name, a numeric column of that name, exactly one
    shape, accepted metadata. *)
Record stream_frame (name : string) (df : DataFrame) : Prop := mkStreamFrame {
  frame_name : In name VALID_WEARABLE_STREAMS;
  frame_values : exists values, lookup name (columns df) = Some (NumSeries values);
  frame_shape : stream_shape df <> None;
  frame_attrs : _validate_metadata (attrs df) = Returned tt
}.

(** What makes resample_df refuse its arguments. *)
Inductive refused (df : DataFrame) (name agg_method : string)
    (initial_datetime final_datetime : option datetime) : Prop :=
| NoTimeOrStreamColumn :
    ~ (has_stream_column df /\ has_time_column df) ->
    refused df name agg_method initial_datetime final_datetime
| BadMetadata :
    ~ acceptable_metadata (attrs df) ->
    refused df name agg_method initial_datetime final_datetime
| UnknownName :
    ~ In name VALID_WEARABLE_STREAMS ->
    refused df name agg_method initial_datetime final_datetime
| NoSuchColumn :
    has_column df name = false ->
    refused df name agg_method initial_datetime final_datetime
| UnknownAggregation :
    ~ In agg_method AGG_METHODS ->
    refused df name agg_method initial_datetime final_datetime
| NaTBound :
    initial_datetime = Some NaT \/ final_datetime = Some NaT ->
    refused df name agg_method initial_datetime final_datetime.

(** A steps stream that has no row, and one with a start column only. *)
Definition no_rows : DataFrame :=
  mkDataFrame [("datetime"%string, TimeSeries []); ("steps"%string, NumSeries [])] [].

(** The metadata combine_wearable_dataframes attaches. *)
Definition combined_metadata (metadata : option Metadata) : Metadata :=
  match metadata with
  | Some m => m
  | None => [("data_id"%string, AStr "combined_dataframe")]
  end.

(** A whole number of hours, of moderate size.  On such numbers float64
    places the points of a range where exact arithmetic does: their sums,
    differences and products come without rounding, and the quotient of
    two of them is rounded across no integer. *)
Definition whole (x : Q) : Prop :=
  exists z : Z, (x == inject_Z z)%Q /\ Z.abs z <= 16777216.

(** The time columns resample_df takes its bounds from: start and end on
    a frame that has both, the datetime column otherwise. *)
Inductive bounding_times (df : DataFrame)
  : list Timestamp -> list Timestamp -> Prop :=
| BoundedByIntervals starts stops :
    lookup "start"%string (columns df) = Some (TimeSeries starts) ->
    lookup "end"%string (columns df) = Some (TimeSeries stops) ->
    bounding_times df starts stops
| BoundedByInstants data_datetimes :
    has_column df "start" = false \/ has_column df "end" = false ->
    lookup "datetime"%string (columns df) = Some (TimeSeries data_datetimes) ->
    bounding_times df data_datetimes data_datetimes.

(** The mask of the bucket of the grid point [g] over the timestamps of an
    instant-indexed stream, as the loop of resample_df builds it. *)
Definition bucket_mask (data_datetimes : list Timestamp) (freq : positive)
    (g : Timestamp) : list bool :=
  zip_with andb (map (fun d => d <=? g + Zpos freq) data_datetimes)
                (map (fun d => d >=? g) data_datetimes).

End Vocabulary.

(* ------------------------------------------------------------------ *)
(** ** Facts about outcomes and lists *)

Module PyFacts.

Lemma raises_not_returns {A} (m : outcome A) : raises m -> ~ returns m.
Proof. intros [e He] [a Ha]; congruence. Qed.

Lemma returned_not_raises {A} (m : outcome A) (a : A) :
  m = Returned a -> ~ raises m.
Proof. intros -> [e He]; discriminate. Qed.

Lemma mapM_total {A B} (f : A -> outcome B) (g : A -> B) xs :
  (forall x, In x xs -> f x = Returned (g x)) ->
  mapM f xs = Returned (map g xs).
Proof.
  induction xs as [|x xs IH]; intros H; [reflexivity|]; simpl.
  rewrite (H x (or_introl eq_refl)); simpl.
  rewrite IH by (intros y Hy; apply H; right; exact Hy).
  reflexivity.
Qed.

Lemma mapM_length {A B} (f : A -> outcome B) xs ys :
  mapM f xs = Returned ys -> List.length ys = List.length xs.
Proof.
  revert ys; induction xs as [|x xs IH]; intros ys; simpl.
  - intros [= <-]; reflexivity.
  - destruct (f x); simpl; [|discriminate].
    destruct (mapM f xs) as [zs|]; simpl; [|discriminate].
    intros [= <-]; simpl; f_equal; apply IH; reflexivity.
Qed.

Lemma mapM_nth_error {A B} (f : A -> outcome B) xs ys i x :
  mapM f xs = Returned ys -> nth_error xs i = Some x ->
  exists y, f x = Returned y /\ nth_error ys i = Some y.
Proof.
  revert ys i; induction xs as [|x0 xs IH]; intros ys i; simpl.
  - destruct i; discriminate.
  - destruct (f x0) as [y0|] eqn:E0; simpl; [|discriminate].
    destruct (mapM f xs) as [zs|]; simpl; [|discriminate].
    intros [= <-]; destruct i as [|i]; simpl.
    + intros [= <-]; exists y0; split; [exact E0|reflexivity].
    + intros Hx; apply (IH zs i eq_refl Hx).
Qed.

Lemma mapM_returns {A B} (f : A -> outcome B) xs :
  (forall x, In x xs -> exists y, f x = Returned y) ->
  exists ys, mapM f xs = Returned ys.
Proof.
  induction xs as [|x xs IH]; intros H; [exists []; reflexivity|]; simpl.
  destruct (H x (or_introl eq_refl)) as [y ->]; simpl.
  destruct IH as [ys ->]; [intros z Hz; apply H; right; exact Hz|].
  eexists; reflexivity.
Qed.

Lemma nth_error_zip_with {A B C} (f : A -> B -> C) xs ys i a b :
  nth_error xs i = Some a -> nth_error ys i = Some b ->
  nth_error (Readers.zip_with f xs ys) i = Some (f a b).
Proof.
  unfold Readers.zip_with; revert ys i.
  induction xs as [|x xs IH]; intros [|y ys] [|i]; simpl; try discriminate.
  - intros [= ->] [= ->]; reflexivity.
  - apply IH.
Qed.

End PyFacts.

(* ------------------------------------------------------------------ *)
(** ** readers.py: interval_fraction *)

Module IntervalFraction.
Import Readers Vocabulary PyFacts.

Lemma seconds_nonneg d : 0 <= seconds d.
Proof.
  unfold seconds, SECONDS_PER_DAY.
  pose proof (Z.mod_pos_bound (d / NS_PER_SECOND) 86400); lia.
Qed.

Lemma seconds_below_day d :
  0 <= d < day 1 -> seconds d = d / NS_PER_SECOND.
Proof.
  unfold seconds, day, sec, SECONDS_PER_DAY, NS_PER_SECOND; intros H.
  apply Z.mod_small; split.
  - apply Z.div_pos; lia.
  - apply Z.div_lt_upper_bound; lia.
Qed.

Lemma int_truediv_unit a b :
  0 <= a <= b -> 0 < b -> Float.in_unit (Float.int_truediv a b).
Proof.
  intros Ha Hb; unfold Float.int_truediv.
  destruct (Z.eqb_spec b 0) as [->|_]; [lia|]; simpl.
  assert (Hb' : (0 < inject_Z b)%Q) by (unfold Qlt; simpl; lia).
  assert (Ha0 : (0 <= inject_Z a)%Q) by (unfold Qle; simpl; lia).
  assert (Hab : (inject_Z a <= inject_Z b)%Q) by (unfold Qle; simpl; lia).
  split.
  - apply Qle_shift_div_l; [exact Hb'|lra].
  - apply Qle_shift_div_r; [exact Hb'|lra].
Qed.

(** What the function computes for the interval of row [i]. *)
Lemma interval_fraction_nth starts stops ref_start ref_stop i s e :
  nth_error starts i = Some s -> nth_error stops i = Some e ->
  exists l,
    interval_fraction starts stops ref_start ref_stop = Returned l /\
    nth_error l i =
      Some (Float.int_truediv
              (seconds (Z.min e ref_stop - Z.max s ref_start))
              (seconds (e - s))).
Proof.
  intros Hs He; unfold interval_fraction; eexists; split; [reflexivity|].
  apply nth_error_zip_with.
  - apply map_nth_error, nth_error_zip_with.
    + apply map_nth_error with (f := fun x => Z.min x ref_stop); exact He.
    + apply map_nth_error with (f := fun x => Z.max x ref_start); exact Hs.
  - apply map_nth_error, nth_error_zip_with; assumption.
Qed.

(** Where the function is right: for a source interval that lasts at
    least a second and less than a day and that meets the reference
    interval (the intervals resample_df passes all meet their bucket),
    the value is a fraction in [0, 1]. *)
Lemma interval_fraction_unit starts stops ref_start ref_stop i s e :
  nth_error starts i = Some s -> nth_error stops i = Some e ->
  sec 1 <= e - s < day 1 ->
  ref_start < ref_stop -> s <= ref_stop -> ref_start <= e ->
  exists l v,
    interval_fraction starts stops ref_start ref_stop = Returned l /\
    nth_error l i = Some v /\ Float.in_unit v.
Proof.
  intros Hs He Hd Href H1 H2.
  destruct (interval_fraction_nth starts stops ref_start ref_stop i Hs He)
    as [l [Hl Hi]].
  exists l; eexists; split; [exact Hl|]; split; [exact Hi|].
  assert (Hpos : 0 < e - s) by (unfold sec, NS_PER_SECOND in Hd; lia).
  assert (Hc : 0 <= Z.min e ref_stop - Z.max s ref_start <= e - s) by lia.
  assert (Hfull : 0 <= e - s < day 1) by lia.
  assert (Hpart : 0 <= Z.min e ref_stop - Z.max s ref_start < day 1) by lia.
  rewrite (seconds_below_day Hfull), (seconds_below_day Hpart).
  unfold sec, NS_PER_SECOND in Hd.
  apply int_truediv_unit.
  - split; [apply Z.div_pos; [lia|reflexivity]|].
    apply Z.div_le_mono; [reflexivity|lia].
  - unfold NS_PER_SECOND.
    apply Z.lt_le_trans with (1 := Z.lt_0_1).
    apply Z.div_le_lower_bound; lia.
Qed.

(** C1 (the code departs from the claim).  A well-formed source interval
    [0 s, 10 s) that is disjoint from the well-formed reference interval
    [20 s, 30 s) does not get the fraction 0: the overlap is the negative
    duration -10 s, whose [seconds] component is 86390, and the value
    returned is 86390/10 = 8639, outside [0, 1]. *)
Theorem interval_fraction_disjoint_wraps :
  well_formed (sec 0) (sec 10) /\
  well_formed (sec 20) (sec 30) /\
  disjoint (sec 0) (sec 10) (sec 20) (sec 30) /\
  interval_fraction [sec 0] [sec 10] (sec 20) (sec 30)
    = Returned [Fin (86390 # 10)] /\
  ~ Float.in_unit (Fin (86390 # 10)) /\
  ~ Float.feq (Fin (86390 # 10)) (Fin 0).
Proof.
  repeat split; try (vm_compute; congruence).
  - left; vm_compute; congruence.
  - intros [_ H]; vm_compute in H; apply H; reflexivity.
Qed.

(** Also on contained intervals: an interval of exactly one day inside
    the reference interval gets NaN (0/0) and not 1. *)
Lemma interval_fraction_contained_day :
  contained (sec 0) (day 1) (sec 0) (day 2) /\
  interval_fraction [sec 0] [day 1] (sec 0) (day 2) = Returned [NaN].
Proof. split; [split; vm_compute; congruence|reflexivity]. Qed.

(** C4 (as the claim states it, refuted).  The zero-duration source
    interval [0 s, 0 s) against the reference interval [10 s, 20 s): the
    call raises nothing and returns +infinity for it. *)
Lemma interval_fraction_zero_duration_returns_inf :
  interval_fraction [sec 0] [sec 0] (sec 10) (sec 20) = Returned [PInf] /\
  ~ Py.raises (interval_fraction [sec 0] [sec 0] (sec 10) (sec 20)).
Proof.
  split; [reflexivity|].
  apply returned_not_raises with (a := [PInf]); reflexivity.
Qed.

(** Division by a zero count of seconds never fails: it gives NaN or an
    infinity. *)
Lemma int_truediv_by_zero a :
  Float.int_truediv a 0 = NaN \/ Float.int_truediv a 0 = PInf \/
  Float.int_truediv a 0 = NInf.
Proof. unfold Float.int_truediv; destruct a; simpl; auto. Qed.

(** C4 (amended).  A call in which the source interval of some row has
    zero duration does not fail: it returns, and its value for that row
    is NaN or an infinity; it is NaN when the instant lies in the closed
    reference interval. *)
Theorem interval_fraction_zero_duration starts stops ref_start ref_stop i t :
  nth_error starts i = Some t -> nth_error stops i = Some t ->
  exists l v,
    interval_fraction starts stops ref_start ref_stop = Returned l /\
    nth_error l i = Some v /\
    (v = NaN \/ v = PInf \/ v = NInf) /\
    (ref_start <= t <= ref_stop -> v = NaN).
Proof.
  intros Hs He.
  destruct (interval_fraction_nth starts stops ref_start ref_stop i Hs He)
    as [l [Hl Hi]].
  exists l; eexists; split; [exact Hl|]; split; [exact Hi|].
  replace (t - t) with 0 by lia.
  change (seconds 0) with 0.
  split.
  - apply int_truediv_by_zero.
  - intros Ht.
    replace (Z.min t ref_stop - Z.max t ref_start) with 0 by lia.
    reflexivity.
Qed.

Lemma interval_fraction_zero_duration_witness :
  exists l v,
    interval_fraction [sec 3; sec 5] [sec 4; sec 5] (sec 0) (sec 10) = Returned l /\
    nth_error l 1 = Some v /\
    (v = NaN \/ v = PInf \/ v = NInf) /\
    (sec 0 <= sec 5 <= sec 10 -> v = NaN).
Proof.
  apply (@interval_fraction_zero_duration
           [sec 3; sec 5] [sec 4; sec 5] (sec 0) (sec 10) 1%nat (sec 5));
    reflexivity.
Defined.

End IntervalFraction.

(* ------------------------------------------------------------------ *)
(** ** readers.py: WearableData *)

Module Validation.
Import Readers Vocabulary PyFacts.

Lemma existsb_stream (df : DataFrame) :
  has_stream_column df ->
  existsb (fun col => has_column df col) VALID_WEARABLE_STREAMS = true.
Proof.
  intros [col [Hin Hcol]]; apply existsb_exists; exists col; split; assumption.
Qed.

Lemma time_check_passes (df : DataFrame) :
  has_time_column df ->
  (if negb (has_column df "datetime") then
     if negb (has_column df "start") && negb (has_column df "end")
     then Raised AttributeError
     else Returned tt
   else Returned tt) = Returned tt.
Proof.
  intros [H|[H|H]]; rewrite H; simpl; try reflexivity;
    destruct (has_column df "datetime"); simpl; try reflexivity;
    destruct (has_column df "start"); reflexivity.
Qed.

Lemma _validate_columns_accepts (df : DataFrame) :
  has_stream_column df -> has_time_column df ->
  _validate_columns df = Returned tt.
Proof.
  intros Hs Ht; unfold _validate_columns.
  rewrite (time_check_passes Ht), (existsb_stream Hs); reflexivity.
Qed.

(** The column check refuses exactly the other frames. *)
Lemma _validate_columns_refuses (df : DataFrame) :
  _validate_columns df = Returned tt ->
  has_stream_column df /\ has_time_column df.
Proof.
  unfold _validate_columns, has_stream_column, has_time_column.
  destruct (existsb (fun col => has_column df col) VALID_WEARABLE_STREAMS) eqn:He.
  - apply existsb_exists in He; intros H; split; [exact He|].
    destruct (has_column df "datetime"); [left; reflexivity|].
    destruct (has_column df "start"); [right; left; reflexivity|].
    destruct (has_column df "end"); [right; right; reflexivity|].
    discriminate H.
  - destruct (has_column df "datetime"); [discriminate|].
    destruct (has_column df "start"); [discriminate|].
    destruct (has_column df "end"); discriminate.
Qed.

(** On such a frame the accessor is built, and is_valid is left with the
    metadata check. *)
Lemma accessor_accepts (df : DataFrame) :
  has_stream_column df -> has_time_column df ->
  wearable df = Returned (mkWearable df) /\
  is_valid (mkWearable df) = (_validate_metadata (attrs df) ;;; Returned true).
Proof.
  intros Hs Ht; pose proof (_validate_columns_accepts Hs Ht) as Hc.
  unfold wearable, is_valid; simpl; rewrite Hc; split; reflexivity.
Qed.

(** C9.  A frame with a recognized stream column and one of the columns
    datetime, start, end passes the column check, the accessor is built
    on it, and in is_valid only the metadata check is left to decide:
    is_valid answers True as soon as the metadata is accepted. *)
Theorem column_validation_accepts (df : DataFrame) :
  has_stream_column df -> has_time_column df ->
  _validate_columns df = Returned tt /\
  wearable df = Returned (mkWearable df) /\
  is_valid (mkWearable df)
    = (_validate_metadata (attrs df) ;;; Returned true) /\
  (_validate_metadata (attrs df) = Returned tt ->
   is_valid (mkWearable df) = Returned true).
Proof.
  intros Hs Ht.
  destruct (accessor_accepts Hs Ht) as [Hw Hv].
  split; [apply _validate_columns_accepts; assumption|].
  split; [exact Hw|]; split; [exact Hv|].
  intros Hm; rewrite Hv, Hm; reflexivity.
Qed.

(** The two shapes the claim names: a start column with neither end nor
    datetime, and datetime together with start and end. *)
Lemma column_validation_accepts_witness :
  (_validate_columns start_only = Returned tt /\
   wearable start_only = Returned (mkWearable start_only) /\
   is_valid (mkWearable start_only)
     = (_validate_metadata (attrs start_only) ;;; Returned true) /\
   (_validate_metadata (attrs start_only) = Returned tt ->
    is_valid (mkWearable start_only) = Returned true)) /\
  (_validate_columns mixed_shape = Returned tt /\
   wearable mixed_shape = Returned (mkWearable mixed_shape) /\
   is_valid (mkWearable mixed_shape)
     = (_validate_metadata (attrs mixed_shape) ;;; Returned true) /\
   (_validate_metadata (attrs mixed_shape) = Returned tt ->
    is_valid (mkWearable mixed_shape) = Returned true)).
Proof.
  split.
  - apply (@column_validation_accepts start_only).
    + exists "steps"%string; split; [simpl; tauto|reflexivity].
    + right; left; reflexivity.
  - apply (@column_validation_accepts mixed_shape).
    + exists "heartrate"%string; split; [simpl; tauto|reflexivity].
    + left; reflexivity.
Defined.

Lemma start_only_is_valid : is_valid (mkWearable start_only) = Returned true.
Proof. reflexivity. Qed.

Lemma mixed_shape_is_valid : is_valid (mkWearable mixed_shape) = Returned true.
Proof. reflexivity. Qed.

End Validation.

(* ------------------------------------------------------------------ *)
(** ** readers.py: resample_df *)

Module Resample.
Import Readers Vocabulary PyFacts.

(** C3 (the code departs from the claim).  Three steps counts 1, 2, 3
    one minute apart, resampled with sum at one minute and the bounds
    taken from the data: the timestamps are the original ones, the
    values are 3, 5, 3.  The bucket of a grid point is closed at both
    ends, so it also holds the record of the next grid point. *)
Theorem resample_sum_native_step_double_counts :
  resample_df three_minutes "steps" one_minute "sum" None None
    = Returned
        (mkDataFrame
           [("datetime"%string, TimeSeries [minute 0; minute 1; minute 2]);
            ("steps"%string, NumSeries [Fin 3; Fin 5; Fin 3])] []) /\
  lookup "steps"%string (columns three_minutes)
    = Some (NumSeries [Fin 1; Fin 2; Fin 3]) /\
  ~ Float.feq (Fin 3) (Fin 1).
Proof.
  repeat split; vm_compute; congruence.
Qed.

(** The interval branch on the same counts: an interval that only touches
    the upper end of a bucket is weighted by 0, and the values come back
    as they were (followed by an empty bucket at the last bound). *)
Lemma resample_sum_intervals_keeps_values :
  exists vals,
    resample_df three_intervals "steps" one_minute "sum" None None
    = Returned
        (mkDataFrame
           [("datetime"%string,
             TimeSeries [minute 0; minute 1; minute 2; minute 3]);
            ("steps"%string, NumSeries vals)] []) /\
    Forall2 Float.feq vals [Fin 1; Fin 2; Fin 3; Fin 0].
Proof.
  eexists; split; [vm_compute; reflexivity|].
  repeat constructor.
Qed.

End Resample.

(* ------------------------------------------------------------------ *)
(** ** metrics.py: esri *)

Module Esri.
Import Metrics Vocabulary PyFacts.
Local Open Scope Q_scope.

(** *** The numpy functions *)

Lemma Qle_bool_false x y : Qle_bool x y = false <-> y < x.
Proof.
  split; intros H.
  - apply Qnot_le_lt; intros Hle; apply Qle_bool_iff in Hle; congruence.
  - destruct (Qle_bool x y) eqn:E; [|reflexivity].
    apply Qle_bool_iff in E; lra.
Qed.

Lemma Qeq_bool_pos step : 0 < step -> Qeq_bool step 0 = false.
Proof.
  intros H; destruct (Qeq_bool step 0) eqn:E; [|reflexivity].
  apply Qeq_bool_iff in E; lra.
Qed.

Lemma Qceiling_nonpos x : x <= 0 -> (Qceiling x <= 0)%Z.
Proof.
  intros H; apply Qceiling_resp_le in H.
  change (Qceiling 0) with 0%Z in H; exact H.
Qed.

Lemma Qceiling_pos x : 0 < x -> (1 <= Qceiling x)%Z.
Proof.
  intros H; pose proof (Qle_ceiling x) as Hc.
  assert (Hlt : inject_Z 0 < inject_Z (Qceiling x)).
  { apply Qlt_le_trans with x; [exact H|exact Hc]. }
  rewrite <- Zlt_Qlt in Hlt; lia.
Qed.

Lemma Qceiling_unit x : 0 < x -> x <= 1 -> Qceiling x = 1%Z.
Proof.
  intros H0 H1; pose proof (Qceiling_pos H0) as Hp.
  pose proof (Qceiling_lt x) as Hc.
  assert (Hlt : inject_Z (Qceiling x - 1) < inject_Z 1).
  { apply Qlt_le_trans with x; [exact Hc|exact H1]. }
  rewrite <- Zlt_Qlt in Hlt; lia.
Qed.

Lemma arange_forward start stop step :
  0 < step ->
  arange start stop step
    = Returned (map (fun i => start + inject_Z (Z.of_nat i) * step)
                  (seq 0 (Z.to_nat (Qceiling ((stop - start) / step))))).
Proof. intros H; unfold arange; rewrite (Qeq_bool_pos H); reflexivity. Qed.

(** A stop that is not beyond the start leaves nothing. *)
Lemma arange_empty start stop step :
  0 < step -> stop <= start -> arange start stop step = Returned [].
Proof.
  intros Hs Hle; rewrite (arange_forward _ _ Hs).
  assert (Hq : (stop - start) / step <= 0).
  { apply Qle_shift_div_r; [exact Hs|lra]. }
  apply Qceiling_nonpos in Hq.
  replace (Z.to_nat (Qceiling ((stop - start) / step))) with 0%nat by lia.
  reflexivity.
Qed.

(** A stop beyond the start leaves at least the start. *)
Lemma arange_nonempty start stop step :
  0 < step -> start < stop ->
  exists l, arange start stop step = Returned l /\ l <> [].
Proof.
  intros Hs Hlt; rewrite (arange_forward _ _ Hs); eexists; split; [reflexivity|].
  assert (Hq : 0 < (stop - start) / step).
  { apply Qlt_shift_div_l; [exact Hs|lra]. }
  apply Qceiling_pos in Hq.
  destruct (Z.to_nat (Qceiling ((stop - start) / step))) eqn:E; [lia|].
  simpl; discriminate.
Qed.

(** A stop at most one step beyond the start leaves the start alone. *)
Lemma arange_single start stop step :
  0 < step -> start < stop -> stop <= start + step ->
  arange start stop step = Returned [start + inject_Z 0 * step].
Proof.
  intros Hs Hlt Hle; rewrite (arange_forward _ _ Hs).
  assert (Hq0 : 0 < (stop - start) / step).
  { apply Qlt_shift_div_l; [exact Hs|lra]. }
  assert (Hq1 : (stop - start) / step <= 1).
  { apply Qle_shift_div_r; [exact Hs|lra]. }
  rewrite (Qceiling_unit Hq0 Hq1); reflexivity.
Qed.

Lemma interp_length x xp fp l :
  interp x xp fp = Returned l -> List.length l = List.length x.
Proof.
  unfold interp.
  destruct (negb _); [discriminate|].
  destruct xp as [|x0 xp]; [discriminate|].
  destruct fp as [|f0 fp]; [discriminate|].
  intros [= <-]; apply length_map.
Qed.

Lemma interp_returns x xp fp :
  xp <> [] -> List.length xp = List.length fp ->
  exists l, interp x xp fp = Returned l.
Proof.
  intros Hne Hlen; unfold interp.
  rewrite (proj2 (Nat.eqb_eq _ _) Hlen); simpl.
  destruct xp as [|x0 xp]; [congruence|].
  destruct fp as [|f0 fp]; [discriminate|].
  eexists; reflexivity.
Qed.

Lemma last_item_last {A} (a : list A) (d : A) :
  a <> [] -> last_item a = Returned (last a d).
Proof.
  induction a as [|x a IH]; [congruence|]; intros _.
  destruct a as [|y a]; [reflexivity|].
  change (last_item (x :: y :: a)) with (last_item (y :: a)).
  change (last (x :: y :: a) d) with (last (y :: a) d).
  apply IH; discriminate.
Qed.

Lemma diff_cons_inv time d0 ds :
  diff time = d0 :: ds -> exists a b rest, time = a :: b :: rest.
Proof.
  destruct time as [|a [|b rest]]; simpl; try discriminate.
  intros _; exists a, b, rest; reflexivity.
Qed.

(** *** The checks *)

Lemma raise_if_returned cond e : raise_if cond e = Returned tt -> cond = false.
Proof. destruct cond; [discriminate|reflexivity]. Qed.

Lemma validate_inv time light_schedule analysis_days esri_dt initial_amplitude :
  valid_input time light_schedule analysis_days esri_dt initial_amplitude ->
  List.length time = List.length light_schedule /\
  (exists d0 ds, diff time = d0 :: ds /\
                 forallb (fun d => isclose d d0) (diff time) = true) /\
  (1 <= analysis_days)%Z /\ 0 < esri_dt /\ 0 <= initial_amplitude.
Proof.
  unfold valid_input, validate.
  destruct (List.length time =? List.length light_schedule)%nat eqn:Hlen;
    [|discriminate].
  apply Nat.eqb_eq in Hlen; simpl.
  destruct (diff time) as [|d0 ds] eqn:Hd; [discriminate|]; simpl first_item.
  cbv beta iota delta [bind].
  destruct (forallb (fun d => isclose d d0) (d0 :: ds)) eqn:Hu; [|discriminate].
  simpl negb; cbv beta iota delta [raise_if].
  destruct (analysis_days <? 1)%Z eqn:Hdays; [discriminate|].
  apply Z.ltb_ge in Hdays.
  destruct (Qle_bool esri_dt 0) eqn:Hdt; [discriminate|].
  apply Qle_bool_false in Hdt.
  destruct (Qle_bool 0 initial_amplitude) eqn:Hamp; [|discriminate].
  apply Qle_bool_iff in Hamp.
  intros _; repeat split; try assumption.
  exists d0, ds; split; [reflexivity|exact Hu].
Qed.

Lemma validate_intro time light_schedule analysis_days esri_dt initial_amplitude d0 ds :
  List.length time = List.length light_schedule ->
  diff time = d0 :: ds ->
  forallb (fun d => isclose d d0) (diff time) = true ->
  (1 <= analysis_days)%Z -> 0 < esri_dt -> 0 <= initial_amplitude ->
  valid_input time light_schedule analysis_days esri_dt initial_amplitude.
Proof.
  intros Hlen Hd Hu Hdays Hdt Hamp; unfold valid_input, validate.
  rewrite (proj2 (Nat.eqb_eq _ _) Hlen); simpl.
  rewrite Hd in *; simpl first_item; cbv beta iota delta [bind].
  rewrite Hu; simpl negb; cbv beta iota delta [raise_if].
  rewrite (proj2 (Z.ltb_ge _ _) Hdays).
  rewrite (proj2 (Qle_bool_false _ _) Hdt).
  rewrite (proj2 (Qle_bool_iff _ _) Hamp); reflexivity.
Qed.

Lemma isclose_refl d d0 : d == d0 -> isclose d d0 = true.
Proof.
  intros H; unfold isclose; apply Qle_bool_iff.
  setoid_replace (d - d0) with 0 by lra.
  pose proof (Qabs_nonneg d0); unfold atol, rtol.
  change (Qabs 0) with 0; lra.
Qed.

(** An exactly uniform series of the length of its light readings is a
    valid input. *)
Lemma uniform_valid time light_schedule analysis_days esri_dt initial_amplitude :
  uniform_step time ->
  List.length time = List.length light_schedule ->
  (1 <= analysis_days)%Z -> 0 < esri_dt -> 0 <= initial_amplitude ->
  valid_input time light_schedule analysis_days esri_dt initial_amplitude.
Proof.
  intros [d0 [ds [Hd Hall]]] Hlen Hdays Hdt Hamp.
  apply validate_intro with (d0 := d0) (ds := ds); try assumption.
  rewrite Hd; simpl; rewrite isclose_refl by reflexivity; simpl.
  apply forallb_forall; intros d Hin.
  rewrite Forall_forall in Hall; apply isclose_refl, Hall, Hin.
Qed.

(** *** The computation after the checks *)

Lemma esri_valid Hannay19 time light_schedule analysis_days esri_dt
    initial_amplitude phase_at_midnight d0 ds :
  valid_input time light_schedule analysis_days esri_dt initial_amplitude ->
  diff time = d0 :: ds ->
  esri Hannay19 time light_schedule analysis_days esri_dt initial_amplitude
    phase_at_midnight
  = (esri_time <- arange (hd 0 time)
                    (last time 0 - inject_Z (analysis_days * 24)) esri_dt ;;
     esri_array <- mapM (simulate (Hannay19 [("K"%string, 0); ("gamma"%string, 0)])
                           time light_schedule analysis_days d0
                           initial_amplitude phase_at_midnight) esri_time ;;
     Returned (mkResult esri_time (clean_negative esri_array)
                 (if existsb Float.isnan (clean_negative esri_array)
                  then [NaNValues] else []))).
Proof.
  intros Hv Hd; unfold esri; rewrite Hv, Hd.
  destruct (diff_cons_inv _ Hd) as [a [b [rest ->]]].
  rewrite (last_item_last 0) by discriminate.
  reflexivity.
Qed.

(** C10.  On a valid series whose time span is strictly less than
    analysis_days times 24 hours no starting point is left: esri raises
    nothing, issues no warning and returns an empty time array and an
    empty value array, whatever the oscillator. *)
Theorem esri_short_series_empty Hannay19 time light_schedule analysis_days
    esri_dt initial_amplitude phase_at_midnight :
  valid_input time light_schedule analysis_days esri_dt initial_amplitude ->
  span time < inject_Z (analysis_days * 24) ->
  esri Hannay19 time light_schedule analysis_days esri_dt initial_amplitude
    phase_at_midnight
  = Returned (mkResult [] [] []).
Proof.
  intros Hv Hspan.
  destruct (validate_inv Hv) as [_ [[d0 [ds [Hd _]]] [_ [Hdt _]]]].
  rewrite (esri_valid _ _ Hv Hd).
  unfold span in Hspan.
  rewrite arange_empty by (try exact Hdt; lra).
  reflexivity.
Qed.

Lemma esri_short_series_empty_witness :
  esri constant_oscillator (hourly 49) (dark 49) 4 1 (1 # 10)
    default_phase_at_midnight
  = Returned (mkResult [] [] []).
Proof.
  apply (@esri_short_series_empty constant_oscillator (hourly 49) (dark 49)
           4%Z 1 (1 # 10) default_phase_at_midnight);
    vm_compute; reflexivity.
Defined.

(** *** The loop *)

(** Under the oscillator's contract, with time running forward, every
    simulation comes back with an amplitude. *)
Lemma simulate_returns model time light_schedule analysis_days simulation_dt
    initial_amplitude phase_at_midnight t :
  oscillator_contract model ->
  time <> [] -> List.length time = List.length light_schedule ->
  (1 <= analysis_days)%Z -> 0 < simulation_dt ->
  exists v, simulate model time light_schedule analysis_days simulation_dt
              initial_amplitude phase_at_midnight t = Returned v.
Proof.
  intros Hc Hne Hlen Hdays Hdt; unfold simulate.
  assert (Hwin : t < t + inject_Z (analysis_days * 24)).
  { assert (H : inject_Z 0 < inject_Z (analysis_days * 24))
      by (rewrite <- Zlt_Qlt; lia).
    change (inject_Z 0) with 0 in H; lra. }
  destruct (arange_nonempty Hdt Hwin) as [st [-> Hst]]; cbv beta iota delta [bind].
  destruct (@interp_returns st time light_schedule Hne Hlen) as [sl Hsl]; rewrite Hsl; cbv beta iota delta [bind].
  destruct (Hc st (initial_amplitude,
                   phase_at_midnight + mod_ t 24 * np_pi / 12, 0) sl Hst
              (interp_length _ _ _ Hsl)) as [states [-> Hstates]]; cbv beta iota delta [bind].
  unfold final_amplitude.
  assert (Hnil : states <> []).
  { intros ->; destruct st; [congruence|discriminate]. }
  rewrite (@last_item_last State states (NaN, NaN, NaN) Hnil); cbv beta iota delta [bind].
  eexists; reflexivity.
Qed.

Lemma clean_negative_spec v :
  (negative v -> (if Float.ltb0 v then NaN else v) = NaN) /\
  (~ negative v -> (if Float.ltb0 v then NaN else v) = v) /\
  ((if Float.ltb0 v then NaN else v) = NaN \/
   Float.nonneg (if Float.ltb0 v then NaN else v)).
Proof.
  unfold negative; destruct v as [q| | |]; simpl.
  - destruct (Qle_bool 0 q) eqn:E; simpl.
    + repeat split; try congruence.
      right; apply Qle_bool_iff; exact E.
    + repeat split; try congruence; left; reflexivity.
  - repeat split; try congruence; right; exact I.
  - repeat split; try congruence; left; reflexivity.
  - repeat split; try congruence; left; reflexivity.
Qed.

Lemma clean_negative_nonneg raw :
  Forall (fun v => v = NaN \/ Float.nonneg v) (clean_negative raw).
Proof.
  unfold clean_negative; apply Forall_forall; intros v Hin.
  apply in_map_iff in Hin; destruct Hin as [u [<- _]].
  apply clean_negative_spec.
Qed.




Lemma constant_oscillator_contract ps : oscillator_contract (constant_oscillator ps).
Proof.
  intros st [[a p] d] sl _ _; eexists; split; [reflexivity|apply length_map].
Qed.

Lemma sinking_oscillator_contract ps : oscillator_contract (sinking_oscillator ps).
Proof.
  intros st [[a p] d] sl _ _; eexists; split; [reflexivity|apply length_map].
Qed.


Lemma hourly_forward : forward (hourly 99).
Proof.
  exists (1 - 0), (diff (tl (hourly 99))); split; vm_compute; reflexivity.
Qed.

Lemma esri_sinking_example :
  esri sinking_oscillator (hourly 99) (dark 99) 4 1 (1 # 10)
    default_phase_at_midnight
  = Returned (mkResult [0; 1] [Fin (1 # 10); NaN] [NaNValues]).
Proof. vm_compute; reflexivity. Qed.

(** *** The window of analysis_days days *)

Lemma uniform_step_check time :
  uniform_step time ->
  forallb (fun d => Qeq_bool d (hd 0 (diff time))) (tl (diff time)) = true.
Proof.
  intros [d0 [ds [-> Hall]]]; simpl.
  apply forallb_forall; intros d Hin.
  rewrite Forall_forall in Hall; apply Qeq_bool_iff, Hall, Hin.
Qed.

Lemma uniform_step_intro time d0 ds :
  diff time = d0 :: ds ->
  forallb (fun d => Qeq_bool d d0) ds = true ->
  uniform_step time.
Proof.
  intros Hd Hall; exists d0, ds; split; [exact Hd|].
  apply Forall_forall; intros d Hin; apply Qeq_bool_iff.
  revert d Hin; apply forallb_forall; exact Hall.
Qed.

(** C2 (as the claim states it, refuted).  Ninety-seven hourly timepoints
    0, 1, ..., 96 are a valid, evenly spaced series that spans exactly 96
    hours; with analysis_days = 4 and esri_dt = 1 the time array returned
    is empty: it does not hold one starting point. *)
Lemma esri_four_days_no_starting_point :
  valid_input (hourly 97) (dark 97) 4 1 (1 # 10) /\
  uniform_step (hourly 97) /\
  span (hourly 97) == 96 /\
  esri constant_oscillator (hourly 97) (dark 97) 4 1 (1 # 10)
    default_phase_at_midnight = Returned (mkResult [] [] []) /\
  ~ (exists r,
       esri constant_oscillator (hourly 97) (dark 97) 4 1 (1 # 10)
         default_phase_at_midnight = Returned r /\
       esri_time r = [hd 0 (hourly 97)]).
Proof.
  split; [vm_compute; reflexivity|].
  split; [apply uniform_step_intro with (d0 := 1 - 0) (ds := diff (tl (hourly 97)));
          vm_compute; reflexivity|].
  split; [vm_compute; reflexivity|].
  split; [vm_compute; reflexivity|].
  intros [r [Hr Ht]].
  assert (He : esri constant_oscillator (hourly 97) (dark 97) 4 1 (1 # 10)
                 default_phase_at_midnight = Returned (mkResult [] [] []))
    by (vm_compute; reflexivity).
  rewrite He in Hr; injection Hr as <-; discriminate Ht.
Qed.

(** C2 (amended).  With analysis_days = 4 and esri_dt = 1 on a valid
    series: when the series spans exactly 96 hours the time array
    returned is empty, the stop of the range of starting points being the
    start of the series; when it spans more than 96 and at most 97 hours
    (time running forward, the oscillator keeping its contract), the time
    array returned holds exactly one starting point, the first element of
    the input time array. *)
Theorem esri_four_day_window Hannay19 time light_schedule initial_amplitude
    phase_at_midnight :
  valid_input time light_schedule 4 1 initial_amplitude ->
  (span time == 96 ->
   esri Hannay19 time light_schedule 4 1 initial_amplitude phase_at_midnight
   = Returned (mkResult [] [] [])) /\
  (96 < span time -> span time <= 97 ->
   forward time ->
   oscillator_contract (Hannay19 [("K"%string, 0); ("gamma"%string, 0)]) ->
   exists r t,
     esri Hannay19 time light_schedule 4 1 initial_amplitude phase_at_midnight
     = Returned r /\
     esri_time r = [t] /\ t == hd 0 time /\
     List.length (esri_array r) = 1%nat).
Proof.
  intros Hv.
  destruct (validate_inv Hv) as [Hlen [[d0 [ds [Hd _]]] [Hdays [Hdt _]]]].
  destruct (diff_cons_inv _ Hd) as [a [b [rest Htime]]].
  assert (Hne : time <> []) by (rewrite Htime; discriminate).
  rewrite (esri_valid _ _ Hv Hd); unfold span.
  change (inject_Z (4 * 24)) with 96.
  split.
  - intros Hspan; rewrite arange_empty by lra; reflexivity.
  - intros Hlo Hhi [d0' [ds' [Hd' Hd0]]] Hc.
    rewrite Hd in Hd'; injection Hd' as <- <-.
    rewrite arange_single by lra.
    cbv beta iota delta [bind mapM].
    destruct (@simulate_returns (Hannay19 [("K"%string, 0); ("gamma"%string, 0)])
                time light_schedule 4%Z d0 initial_amplitude phase_at_midnight
                (hd 0 time + inject_Z 0 * 1) Hc Hne Hlen Hdays Hd0) as [v ->].
    eexists; eexists; split; [reflexivity|]; simpl.
    split; [reflexivity|]; split; [|reflexivity].
    change (inject_Z 0) with 0; ring.
Qed.

Lemma esri_four_day_window_witness :
  (span (hourly 97) == 96 ->
   esri constant_oscillator (hourly 97) (dark 97) 4 1 (1 # 10)
     default_phase_at_midnight
   = Returned (mkResult [] [] [])) /\
  (96 < span (hourly 97) -> span (hourly 97) <= 97 ->
   forward (hourly 97) ->
   oscillator_contract (constant_oscillator [("K"%string, 0); ("gamma"%string, 0)]) ->
   exists r t,
     esri constant_oscillator (hourly 97) (dark 97) 4 1 (1 # 10)
       default_phase_at_midnight
     = Returned r /\
     esri_time r = [t] /\ t == hd 0 (hourly 97) /\
     List.length (esri_array r) = 1%nat).
Proof.
  apply (@esri_four_day_window constant_oscillator (hourly 97) (dark 97)
           (1 # 10) default_phase_at_midnight).
  vm_compute; reflexivity.
Defined.

(** Ninety-eight hourly timepoints span 97 hours: one starting point. *)
Lemma esri_one_starting_point :
  esri constant_oscillator (hourly 98) (dark 98) 4 1 (1 # 10)
    default_phase_at_midnight
  = Returned (mkResult [0] [Fin (1 # 10)] []).
Proof. vm_compute; reflexivity. Qed.

(** *** Parameter errors *)

(** C7 (as the claim states it, refuted).  The steps of [nearly_hourly]
    are not all the same, the last one being 1 + 2^-20 hours, yet esri
    raises nothing on it: the check of the time step passes within the
    tolerance of [np.isclose], three simulations are run and their
    results returned. *)
Lemma esri_accepts_nearly_uniform_step :
  ~ uniform_step nearly_hourly /\
  esri constant_oscillator nearly_hourly (dark 27) 1 1 (1 # 10)
    default_phase_at_midnight
  = Returned (mkResult [0; 1; 2] [Fin (1 # 10); Fin (1 # 10); Fin (1 # 10)] []) /\
  ~ Py.raises (esri constant_oscillator nearly_hourly (dark 27) 1 1 (1 # 10)
                 default_phase_at_midnight).
Proof.
  assert (He : esri constant_oscillator nearly_hourly (dark 27) 1 1 (1 # 10)
                 default_phase_at_midnight
               = Returned (mkResult [0; 1; 2]
                             [Fin (1 # 10); Fin (1 # 10); Fin (1 # 10)] []))
    by (vm_compute; reflexivity).
  split; [|split; [exact He|apply (returned_not_raises He)]].
  intros Hu; apply uniform_step_check in Hu; vm_compute in Hu; discriminate Hu.
Qed.

Lemma isclose_true a b : isclose a b = true -> Qabs (a - b) <= atol + rtol * Qabs b.
Proof. unfold isclose; apply Qle_bool_iff. Qed.

(** C7 (amended).  Each parameter error -- time and light arrays of
    different lengths, a time step that differs from the first by more
    than the tolerance of [np.isclose], analysis_days below 1, esri_dt not
    above 0, a negative initial amplitude -- makes the checks raise; esri
    then raises that same error whatever the oscillator and the phase: no
    simulation is run, nothing is returned. *)
Theorem esri_parameter_error time light_schedule analysis_days esri_dt
    initial_amplitude :
  parameter_error time light_schedule analysis_days esri_dt initial_amplitude ->
  exists e,
    validate time light_schedule analysis_days esri_dt initial_amplitude
      = Raised e /\
    forall Hannay19 phase_at_midnight,
      esri Hannay19 time light_schedule analysis_days esri_dt initial_amplitude
        phase_at_midnight = Raised e.
Proof.
  intros Herr.
  destruct (validate time light_schedule analysis_days esri_dt initial_amplitude)
    as [[]|e] eqn:Hv.
  - exfalso.
    destruct (validate_inv Hv) as [Hlen [[d0 [ds [Hd Hu]]] [Hdays [Hdt Hamp]]]].
    destruct Herr as [H|[d0' [ds' [d [Hd' [Hin Hfar]]]]]|H|H|H];
      try congruence; try lia; try lra.
    rewrite Hd in Hd'; injection Hd' as <- <-.
    rewrite forallb_forall in Hu; apply Hu, isclose_true in Hin; lra.
  - exists e; split; [reflexivity|].
    intros Hannay19 phase_at_midnight; unfold esri; rewrite Hv; reflexivity.
Qed.

Lemma esri_parameter_error_witness :
  (exists e,
     validate (hourly 98) (dark 97) 4 1 (1 # 10) = Raised e /\
     forall Hannay19 phase_at_midnight,
       esri Hannay19 (hourly 98) (dark 97) 4 1 (1 # 10) phase_at_midnight
       = Raised e) /\
  (exists e,
     validate [0; 1; 3] (dark 3) 4 1 (1 # 10) = Raised e /\
     forall Hannay19 phase_at_midnight,
       esri Hannay19 [0; 1; 3] (dark 3) 4 1 (1 # 10) phase_at_midnight
       = Raised e) /\
  (exists e,
     validate (hourly 98) (dark 98) 0 1 (1 # 10) = Raised e /\
     forall Hannay19 phase_at_midnight,
       esri Hannay19 (hourly 98) (dark 98) 0 1 (1 # 10) phase_at_midnight
       = Raised e) /\
  (exists e,
     validate (hourly 98) (dark 98) 4 0 (1 # 10) = Raised e /\
     forall Hannay19 phase_at_midnight,
       esri Hannay19 (hourly 98) (dark 98) 4 0 (1 # 10) phase_at_midnight
       = Raised e) /\
  (exists e,
     validate (hourly 98) (dark 98) 4 1 (- (1 # 10)) = Raised e /\
     forall Hannay19 phase_at_midnight,
       esri Hannay19 (hourly 98) (dark 98) 4 1 (- (1 # 10)) phase_at_midnight
       = Raised e).
Proof.
  repeat split.
  - apply (@esri_parameter_error (hourly 98) (dark 97) 4%Z 1 (1 # 10)).
    apply LengthMismatch; vm_compute; congruence.
  - apply (@esri_parameter_error [0; 1; 3] (dark 3) 4%Z 1 (1 # 10)).
    apply NonUniformStep; exists (1 - 0), [3 - 1], (3 - 1).
    split; [reflexivity|]; split; [right; left; reflexivity|reflexivity].
  - apply (@esri_parameter_error (hourly 98) (dark 98) 0%Z 1 (1 # 10)).
    apply DaysBelowOne; reflexivity.
  - apply (@esri_parameter_error (hourly 98) (dark 98) 4%Z 0 (1 # 10)).
    apply StepNotPositive; vm_compute; congruence.
  - apply (@esri_parameter_error (hourly 98) (dark 98) 4%Z 1 (- (1 # 10))).
    apply NegativeAmplitude; reflexivity.
Defined.

End Esri.

(* ------------------------------------------------------------------ *)
(** ** readers.py: merging and sorting frames on one grid *)

Module Frames.
Import Readers Vocabulary PyFacts.

(** *** Lists *)

Lemma nth_seq_id {A} (l : list A) (d : A) :
  map (fun i => nth i l d) (seq 0 (List.length l)) = l.
Proof.
  induction l as [|x l IH]; [reflexivity|]; simpl; f_equal.
  rewrite <- seq_shift, map_map; exact IH.
Qed.

Lemma StronglySorted_app_inv {A} (R : A -> A -> Prop) l1 l2 :
  StronglySorted R (l1 ++ l2) -> Forall (fun x => Forall (R x) l2) l1.
Proof.
  induction l1 as [|x l1 IH]; simpl; intros H; [constructor|].
  inversion H as [|? ? Hs Hall]; subst; constructor.
  - apply Forall_app in Hall; tauto.
  - apply IH; exact Hs.
Qed.

Lemma str_in_iff x xs : str_in x xs = true <-> In x xs.
Proof.
  unfold str_in; rewrite existsb_exists; split.
  - intros [y [Hin Heq]]; apply String.eqb_eq in Heq; subst; exact Hin.
  - intros Hin; exists x; split; [exact Hin|apply String.eqb_refl].
Qed.

Lemma str_in_false x xs : ~ In x xs -> str_in x xs = false.
Proof.
  intros H; destruct (str_in x xs) eqn:E; [|reflexivity].
  apply str_in_iff in E; contradiction.
Qed.

Lemma lookup_has_column {A} k (d : list (string * A)) v :
  lookup k d = Some v -> In k (map fst d).
Proof.
  induction d as [|[k' v'] d IH]; simpl; [discriminate|].
  destruct (String.eqb_spec k k') as [->|_]; [left; reflexivity|].
  intros H; right; apply IH; exact H.
Qed.

Lemma lookup_app_r {A} k (d1 d2 : list (string * A)) :
  ~ In k (map fst d1) -> lookup k (d1 ++ d2) = lookup k d2.
Proof.
  induction d1 as [|[k' v'] d1 IH]; simpl; intros H; [reflexivity|].
  destruct (String.eqb_spec k k') as [->|_]; [tauto|].
  apply IH; tauto.
Qed.

Lemma lookup_app_l {A} k (d1 d2 : list (string * A)) v :
  lookup k d1 = Some v -> lookup k (d1 ++ d2) = Some v.
Proof.
  induction d1 as [|[k' v'] d1 IH]; simpl; [discriminate|].
  destruct (String.eqb k k'); [trivial|apply IH].
Qed.

(** *** The grid *)

Lemma map_seq_sorted (F : nat -> Z) a n :
  (forall i j, (i < j)%nat -> F i < F j) ->
  StronglySorted Z.lt (map F (seq a n)).
Proof.
  intros HF; revert a; induction n as [|n IH]; intros a; simpl; constructor.
  - apply IH.
  - apply Forall_forall; intros y Hy.
    apply in_map_iff in Hy; destruct Hy as [j [<- Hj]].
    apply in_seq in Hj; apply HF; lia.
Qed.

Lemma date_range_sorted start stop freq :
  StronglySorted Z.lt (date_range start stop freq).
Proof.
  unfold date_range; apply map_seq_sorted; intros i j Hij; nia.
Qed.

Lemma date_range_bounds start stop freq g :
  In g (date_range start stop freq) -> start <= g <= stop.
Proof.
  unfold date_range; intros H.
  apply in_map_iff in H; destruct H as [k [<- Hk]]; apply in_seq in Hk.
  assert (Hq : Z.of_nat k <= (stop - start) / Z.pos freq) by lia.
  assert (Hm : Z.pos freq * ((stop - start) / Z.pos freq) <= stop - start)
    by (apply Z.mul_div_le; lia).
  nia.
Qed.

Lemma date_range_head start stop freq :
  start <= stop -> hd_error (date_range start stop freq) = Some start.
Proof.
  intros H; unfold date_range.
  assert (Hq : 0 <= (stop - start) / Z.pos freq) by (apply Z.div_pos; lia).
  destruct (Z.to_nat ((stop - start) / Z.pos freq + 1)) as [|n] eqn:E; [lia|].
  simpl; f_equal; lia.
Qed.

(** *** The keys of the outer join *)

Lemma insert_key_last acc k :
  Forall (fun x => x < k) acc -> insert_key k acc = acc ++ [k].
Proof.
  induction acc as [|x acc IH]; intros H; [reflexivity|].
  inversion H as [|? ? Hx Hacc]; subst; simpl.
  destruct (Z.ltb_spec k x) as [Hlt|_]; [lia|].
  destruct (Z.eqb_spec k x) as [Heq|_]; [lia|].
  rewrite IH by exact Hacc; reflexivity.
Qed.

Lemma fold_insert_key_sorted g acc :
  StronglySorted Z.lt (acc ++ g) ->
  fold_left (fun a k => insert_key k a) g acc = acc ++ g.
Proof.
  revert acc; induction g as [|k g IH]; intros acc H; simpl.
  - rewrite app_nil_r; reflexivity.
  - rewrite insert_key_last.
    + rewrite IH; rewrite <- app_assoc; [reflexivity|exact H].
    + apply StronglySorted_app_inv in H.
      apply Forall_impl with (2 := H); intros x Hx.
      inversion Hx; assumption.
Qed.

Lemma insert_key_present acc k :
  StronglySorted Z.lt acc -> In k acc -> insert_key k acc = acc.
Proof.
  induction acc as [|x acc IH]; intros Hs Hin; [destruct Hin|].
  inversion Hs as [|? ? Hs' Hall]; subst; simpl.
  destruct Hin as [->|Hin].
  - rewrite Z.ltb_irrefl, Z.eqb_refl; reflexivity.
  - rewrite Forall_forall in Hall; specialize (Hall k Hin).
    destruct (Z.ltb_spec k x) as [Hlt|_]; [lia|].
    destruct (Z.eqb_spec k x) as [Heq|_]; [lia|].
    rewrite IH by assumption; reflexivity.
Qed.

Lemma fold_insert_key_present g acc :
  StronglySorted Z.lt acc -> incl g acc ->
  fold_left (fun a k => insert_key k a) g acc = acc.
Proof.
  induction g as [|k g IH]; intros Hs Hincl; [reflexivity|]; simpl.
  rewrite insert_key_present.
  - apply IH; [exact Hs|]; intros x Hx; apply Hincl; right; exact Hx.
  - exact Hs.
  - apply Hincl; left; reflexivity.
Qed.

Lemma sorted_keys_twice g :
  StronglySorted Z.lt g -> sorted_keys (g ++ g) = g.
Proof.
  intros Hs; unfold sorted_keys; rewrite fold_left_app.
  rewrite (fold_insert_key_sorted g []) by exact Hs; simpl.
  apply fold_insert_key_present; [exact Hs|apply incl_refl].
Qed.

Lemma StronglySorted_lt_NoDup g : StronglySorted Z.lt g -> NoDup g.
Proof.
  induction 1 as [|x g Hs IH Hall]; constructor; [|exact IH].
  intros Hin; rewrite Forall_forall in Hall; specialize (Hall x Hin); lia.
Qed.

Lemma filter_key_absent k l (idx : list nat) :
  ~ In k l -> filter (fun p : Z * nat => fst p =? k) (combine l idx) = [].
Proof.
  revert idx; induction l as [|x l IH]; intros idx Hn; [reflexivity|].
  destruct idx as [|i idx]; [reflexivity|]; simpl.
  destruct (Z.eqb_spec x k) as [->|_]; [exfalso; apply Hn; left; reflexivity|].
  apply IH; intros Hin; apply Hn; right; exact Hin.
Qed.

Lemma positions_from k l o i :
  NoDup l -> nth_error l i = Some k ->
  map snd (filter (fun p : Z * nat => fst p =? k)
             (combine l (seq o (List.length l)))) = [(o + i)%nat].
Proof.
  revert o i; induction l as [|x l IH]; intros o i Hnd Hi.
  - destruct i; discriminate.
  - inversion Hnd as [|? ? Hx Hnd']; subst; simpl.
    destruct i as [|i]; simpl in Hi.
    + injection Hi as ->; rewrite Z.eqb_refl; simpl.
      rewrite filter_key_absent by exact Hx; simpl; f_equal; lia.
    + destruct (Z.eqb_spec x k) as [->|_].
      * exfalso; apply Hx; apply nth_error_In with (1 := Hi).
      * rewrite (IH (S o) i Hnd' Hi); f_equal; lia.
Qed.

Lemma positions_unique k l i :
  NoDup l -> nth_error l i = Some k -> positions k l = [i].
Proof. intros Hnd Hi; unfold positions; apply (@positions_from k l 0%nat i Hnd Hi). Qed.

Lemma flat_map_singleton {A B} (f : A -> list B) (r : A -> B) l :
  (forall x, In x l -> f x = [r x]) -> flat_map f l = map r l.
Proof.
  induction l as [|x l IH]; intros H; [reflexivity|]; simpl.
  rewrite (H x (or_introl eq_refl)), IH; [reflexivity|].
  intros y Hy; apply H; right; exact Hy.
Qed.

(** Joining a strictly increasing key column with itself pairs every row
    with itself, in order. *)
Lemma join_rows_same g :
  StronglySorted Z.lt g ->
  join_rows g g = map (fun i => (nth i g 0, Some i, Some i)) (seq 0 (List.length g)).
Proof.
  intros Hs; unfold join_rows; rewrite (sorted_keys_twice Hs).
  rewrite <- (nth_seq_id g 0) at 1.
  rewrite flat_map_concat_map, map_map, <- flat_map_concat_map.
  apply flat_map_singleton; intros i Hi; apply in_seq in Hi.
  assert (Hn : nth_error g i = Some (nth i g 0)) by (apply nth_error_nth'; lia).
  rewrite (@positions_unique _ g i (StronglySorted_lt_NoDup Hs) Hn); reflexivity.
Qed.

(** *** merge and sort_values on frames of one grid *)

Lemma take_series_all n vs :
  List.length vs = n ->
  take_series (map Some (seq 0 n)) (NumSeries vs) = Returned (NumSeries vs).
Proof.
  intros <-; unfold take_series; rewrite map_map.
  do 2 f_equal; apply nth_seq_id.
Qed.

Lemma take_left_columns g key names_r cols :
  Forall (aligned g) cols ->
  ~ In "datetime"%string (map fst cols) ->
  (forall c, In c (map fst cols) -> ~ In c names_r) ->
  mapM (fun c : string * Series =>
          if String.eqb (fst c) "datetime"
          then Returned (fst c, key)
          else s <- take_series (map Some (seq 0 (List.length g))) (snd c) ;;
               Returned (suffixed (fst c) names_r "_x", s))
    cols = Returned cols.
Proof.
  induction cols as [|[c s] cols IH]; intros Hal Hkey Hnames; [reflexivity|].
  inversion Hal as [|? ? [vs [Hvs Hlen]] Hal']; subst.
  cbn [map fst snd In] in Hkey, Hnames, Hvs; cbn [mapM fst snd].
  destruct (String.eqb_spec c "datetime") as [->|_]; [tauto|].
  subst s; rewrite (@take_series_all _ vs Hlen); cbn [bind].
  rewrite IH; [|exact Hal'|tauto|intros c' Hc'; apply Hnames; tauto].
  cbn [bind]; unfold suffixed.
  rewrite (str_in_false c names_r) by (apply Hnames; tauto); reflexivity.
Qed.

Lemma non_key_columns cols :
  ~ In "datetime"%string (map fst cols) ->
  filter (fun c : string * Series => negb (String.eqb (fst c) "datetime")) cols
  = cols.
Proof.
  induction cols as [|[c s] cols IH]; intros H; [reflexivity|]; simpl in *.
  destruct (String.eqb_spec c "datetime") as [->|_]; [tauto|]; simpl.
  rewrite IH; [reflexivity|tauto].
Qed.

(** Merging a frame on the grid [g] with a resampled frame on the same
    grid appends the new column and leaves the rows as they are. *)
Lemma merge_aligned g cols name vals :
  StronglySorted Z.lt g ->
  Forall (aligned g) cols ->
  List.length vals = List.length g ->
  name <> "datetime"%string ->
  ~ In "datetime"%string (map fst cols) ->
  ~ In name (map fst cols) ->
  merge (mkDataFrame (("datetime"%string, TimeSeries g) :: cols) [])
        (mkDataFrame [("datetime"%string, TimeSeries g); (name, NumSeries vals)] [])
  = Returned (mkDataFrame
                (("datetime"%string, TimeSeries g) :: cols ++ [(name, NumSeries vals)])
                []).
Proof.
  intros Hs Hal Hlen Hname Hkey Hfresh.
  unfold merge, non_key.
  cbn [columns lookup String.eqb Ascii.eqb Bool.eqb bind].
  rewrite (join_rows_same Hs), !map_map; cbn [fst snd].
  rewrite (nth_seq_id g 0).
  change (map (fun x : nat => Some x) (seq 0 (List.length g)))
    with (map Some (seq 0 (List.length g))).
  cbn [filter fst String.eqb Ascii.eqb Bool.eqb negb mapM bind].
  rewrite (non_key_columns _ Hkey).
  destruct (String.eqb_spec name "datetime") as [->|_]; [congruence|].
  cbn [negb map fst snd mapM bind].
  rewrite take_left_columns; [|exact Hal|exact Hkey|].
  - cbn [bind]; rewrite (@take_series_all _ vals Hlen); cbn [bind].
    unfold suffixed; rewrite (str_in_false name (map fst cols) Hfresh).
    reflexivity.
  - intros c Hc [<-|[]]; contradiction.
Qed.

Lemma insert_row_last acc p :
  Forall (fun q : Z * nat => fst q <= fst p) acc -> insert_row p acc = acc ++ [p].
Proof.
  induction acc as [|q acc IH]; intros H; [reflexivity|].
  inversion H as [|? ? Hq Hacc]; subst; simpl.
  destruct (Z.ltb_spec (fst p) (fst q)) as [Hlt|_]; [lia|].
  rewrite IH by exact Hacc; reflexivity.
Qed.

Lemma fold_insert_row_sorted l acc :
  StronglySorted (fun p q : Z * nat => fst p <= fst q) (acc ++ l) ->
  fold_left (fun a p => insert_row p a) l acc = acc ++ l.
Proof.
  revert acc; induction l as [|p l IH]; intros acc H; simpl.
  - rewrite app_nil_r; reflexivity.
  - rewrite insert_row_last.
    + rewrite IH; rewrite <- app_assoc; [reflexivity|exact H].
    + apply StronglySorted_app_inv in H.
      apply Forall_impl with (2 := H); intros x Hx.
      inversion Hx; assumption.
Qed.

Lemma combine_sorted g (idx : list nat) :
  StronglySorted Z.lt g ->
  StronglySorted (fun p q : Z * nat => fst p <= fst q) (combine g idx).
Proof.
  intros Hs; revert idx; induction Hs as [|x g Hs IH Hall]; intros idx.
  - constructor.
  - destruct idx as [|i idx]; simpl; constructor; [apply IH|].
    apply Forall_forall; intros [y j] Hin; apply in_combine_l in Hin.
    rewrite Forall_forall in Hall; specialize (Hall y Hin); simpl; lia.
Qed.

Lemma map_snd_combine {A B} (l : list A) (l' : list B) :
  List.length l = List.length l' -> map snd (combine l l') = l'.
Proof.
  revert l'; induction l as [|x l IH]; intros [|y l'] H; try discriminate;
    [reflexivity|]; simpl; f_equal; apply IH; injection H; trivial.
Qed.

Lemma sort_perm_sorted g :
  StronglySorted Z.lt g -> sort_perm g = seq 0 (List.length g).
Proof.
  intros Hs; unfold sort_perm.
  rewrite (fold_insert_row_sorted (combine g (seq 0 (List.length g))) [])
    by (apply combine_sorted; exact Hs).
  simpl; apply map_snd_combine; rewrite length_seq; reflexivity.
Qed.

Lemma reorder_columns g (cols : list (string * Series)) :
  Forall (aligned g) cols ->
  map (fun c => (fst c, reorder (seq 0 (List.length g)) (snd c))) cols = cols.
Proof.
  induction 1 as [|[c s] cols [vs [Hvs Hlen]] Hal IH]; [reflexivity|].
  simpl in *; subst s; rewrite IH; simpl.
  rewrite <- Hlen, nth_seq_id; reflexivity.
Qed.

(** Sorting a frame whose key column is increasing changes nothing. *)
Lemma sort_values_sorted g cols a :
  StronglySorted Z.lt g ->
  Forall (aligned g) cols ->
  sort_values (mkDataFrame (("datetime"%string, TimeSeries g) :: cols) a) "datetime"
  = Returned (mkDataFrame (("datetime"%string, TimeSeries g) :: cols) a).
Proof.
  intros Hs Hal; unfold sort_values.
  cbn [columns lookup String.eqb Ascii.eqb Bool.eqb attrs].
  rewrite (sort_perm_sorted Hs); cbn [map fst snd reorder].
  rewrite (nth_seq_id g 0), (reorder_columns Hal); reflexivity.
Qed.

End Frames.

(* ------------------------------------------------------------------ *)
(** ** readers.py: combine_wearable_dataframes *)

Module Combine.
Import Readers Vocabulary PyFacts Validation Frames.

(** *** Valid streams *)

Lemma has_column_lookup df c v :
  lookup c (columns df) = Some v -> has_column df c = true.
Proof.
  intros H; apply str_in_iff; apply (lookup_has_column _ _ H).
Qed.

Lemma time_series_lookup df c ts :
  time_series df c = Some ts -> lookup c (columns df) = Some (TimeSeries ts).
Proof.
  unfold time_series; destruct (lookup c (columns df)) as [[l|l]|];
    try discriminate; intros [= ->]; reflexivity.
Qed.

Lemma stream_shape_view df : shape_view df (stream_shape df).
Proof.
  unfold stream_shape.
  destruct (has_column df "datetime").
  - destruct (has_column df "start") eqn:Hs; [constructor|].
    destruct (has_column df "end") eqn:He; [constructor|]; simpl.
    destruct (time_series df "datetime") as [ds|] eqn:Hd; [|constructor].
    simpl; constructor; [apply time_series_lookup; exact Hd|assumption..].
  - destruct (time_series df "start") as [starts|] eqn:Hs; [|constructor].
    destruct (time_series df "end") as [stops|] eqn:He; [|constructor].
    constructor; apply time_series_lookup; assumption.
Qed.

Lemma valid_stream_accessor name df :
  valid_stream name df ->
  wearable df = Returned (mkWearable df) /\
  is_valid (mkWearable df) = Returned true.
Proof.
  intros [Hname [values Hvalues] Hlower _ Hattrs].
  assert (Hs : has_stream_column df).
  { exists name; split; [exact Hname|apply (has_column_lookup _ _ Hvalues)]. }
  assert (Ht : has_time_column df).
  { unfold lower_times in Hlower.
    destruct (stream_shape_view df) as [ds Hd _ _|starts stops Hstart _|];
      [left|right; left|congruence]; eapply has_column_lookup; eassumption. }
  destruct (accessor_accepts Hs Ht) as [Hw Hv].
  split; [exact Hw|rewrite Hv, Hattrs; reflexivity].
Qed.

(** *** Bounds *)

Lemma fold_min_is_min l x : is_min (fold_left Z.min l x) (x :: l).
Proof.
  revert x; induction l as [|y l IH]; intros x; simpl.
  - split; [left; reflexivity|repeat constructor; lia].
  - destruct (IH (Z.min x y)) as [Hin Hall].
    inversion Hall as [|? ? Hm Hl]; subst; split.
    + destruct Hin as [Hin|Hin]; [|right; right; exact Hin].
      rewrite <- Hin; destruct (Z.min_spec x y) as [[_ ->]|[_ ->]];
        [left|right; left]; reflexivity.
    + constructor; [lia|constructor; [lia|exact Hl]].
Qed.

Lemma fold_max_is_max l x : is_max (fold_left Z.max l x) (x :: l).
Proof.
  revert x; induction l as [|y l IH]; intros x; simpl.
  - split; [left; reflexivity|repeat constructor; lia].
  - destruct (IH (Z.max x y)) as [Hin Hall].
    inversion Hall as [|? ? Hm Hl]; subst; split.
    + destruct Hin as [Hin|Hin]; [|right; right; exact Hin].
      rewrite <- Hin; destruct (Z.max_spec x y) as [[_ ->]|[_ ->]];
        [right; left|left]; reflexivity.
    + constructor; [lia|constructor; [lia|exact Hl]].
Qed.

Lemma least_is_min l : l <> [] -> is_min (least l) l.
Proof. destruct l as [|x l]; [congruence|]; intros _; apply fold_min_is_min. Qed.

Lemma greatest_is_max l : l <> [] -> is_max (greatest l) l.
Proof. destruct l as [|x l]; [congruence|]; intros _; apply fold_max_is_max. Qed.

Lemma series_min_least l : l <> [] -> series_min l = Ts (least l).
Proof. destruct l; [congruence|reflexivity]. Qed.

Lemma series_max_greatest l : l <> [] -> series_max l = Ts (greatest l).
Proof. destruct l; [congruence|reflexivity]. Qed.

Lemma py_min_least l : l <> [] -> py_min (map Ts l) = Returned (Ts (least l)).
Proof.
  destruct l as [|x l]; [congruence|]; intros _; unfold py_min, least; simpl.
  f_equal; revert x; induction l as [|y l IH]; intros x; [reflexivity|]; simpl.
  rewrite <- IH; f_equal; unfold dt_ltb.
  destruct (Z.ltb_spec y x); f_equal; lia.
Qed.

Lemma py_max_greatest l : l <> [] -> py_max (map Ts l) = Returned (Ts (greatest l)).
Proof.
  destruct l as [|x l]; [congruence|]; intros _; unfold py_max, greatest; simpl.
  f_equal; revert x; induction l as [|y l IH]; intros x; [reflexivity|]; simpl.
  rewrite <- IH; f_equal; unfold dt_ltb.
  destruct (Z.ltb_spec x y); f_equal; lia.
Qed.

(** The bounds a valid stream contributes. *)
Lemma stream_bounds_valid name df :
  valid_stream name df ->
  stream_bounds df = Returned (Ts (least (lower_times df)),
                                Ts (greatest (upper_times df))).
Proof.
  intros Hv; destruct (valid_stream_accessor Hv) as [Hw Hi].
  destruct Hv as [_ _ Hlower Hupper _].
  unfold stream_bounds; rewrite Hw; cbn [bind _obj]; rewrite Hi; cbn [bind].
  rewrite <- (series_min_least Hlower), <- (series_max_greatest Hupper).
  unfold lower_times, upper_times in *; unfold time_column.
  destruct (stream_shape_view df) as [ds Hd Hs He|starts stops Hs He|];
    [| |congruence].
  - rewrite Hs, Hd; reflexivity.
  - rewrite (has_column_lookup _ _ Hs), Hs, He; reflexivity.
Qed.

(** The least of the least elements is the least of all. *)
Lemma least_flat_map {A} (f : A -> list Z) (l : list A) :
  l <> [] -> (forall x, In x l -> f x <> []) ->
  is_min (least (map (fun x => least (f x)) l)) (flat_map f l).
Proof.
  intros Hne Hf.
  assert (Hm : map (fun x => least (f x)) l <> [])
    by (destruct l; [congruence|discriminate]).
  destruct (least_is_min Hm) as [Hin Hall]; split.
  - apply in_map_iff in Hin; destruct Hin as [x [<- Hx]].
    apply in_flat_map; exists x; split; [exact Hx|].
    apply (least_is_min (Hf x Hx)).
  - apply Forall_forall; intros t Ht.
    apply in_flat_map in Ht; destruct Ht as [x [Hx Ht]].
    rewrite Forall_forall in Hall.
    assert (H1 : least (map (fun x => least (f x)) l) <= least (f x))
      by (apply Hall, in_map_iff; exists x; split; [reflexivity|exact Hx]).
    destruct (least_is_min (Hf x Hx)) as [_ H2].
    rewrite Forall_forall in H2; specialize (H2 t Ht); lia.
Qed.

Lemma greatest_flat_map {A} (f : A -> list Z) (l : list A) :
  l <> [] -> (forall x, In x l -> f x <> []) ->
  is_max (greatest (map (fun x => greatest (f x)) l)) (flat_map f l).
Proof.
  intros Hne Hf.
  assert (Hm : map (fun x => greatest (f x)) l <> [])
    by (destruct l; [congruence|discriminate]).
  destruct (greatest_is_max Hm) as [Hin Hall]; split.
  - apply in_map_iff in Hin; destruct Hin as [x [<- Hx]].
    apply in_flat_map; exists x; split; [exact Hx|].
    apply (greatest_is_max (Hf x Hx)).
  - apply Forall_forall; intros t Ht.
    apply in_flat_map in Ht; destruct Ht as [x [Hx Ht]].
    rewrite Forall_forall in Hall.
    assert (H1 : greatest (f x) <= greatest (map (fun x => greatest (f x)) l))
      by (apply Hall, in_map_iff; exists x; split; [reflexivity|exact Hx]).
    destruct (greatest_is_max (Hf x Hx)) as [_ H2].
    rewrite Forall_forall in H2; specialize (H2 t Ht); lia.
Qed.

(** *** The buckets *)

Lemma agg_returns method vs :
  str_in method AGG_METHODS = true -> exists v, agg method vs = Returned v.
Proof.
  unfold agg, str_in, AGG_METHODS; simpl.
  destruct (String.eqb method "sum"); [eexists; reflexivity|].
  destruct (String.eqb method "mean"); [eexists; reflexivity|].
  destruct (String.eqb method "max"); [eexists; reflexivity|].
  destruct (String.eqb method "min"); [eexists; reflexivity|].
  discriminate.
Qed.

Lemma resample_method name :
  In name VALID_WEARABLE_STREAMS ->
  exists method,
    lookup name WEARABLE_RESAMPLE_METHOD = Some method /\
    str_in method AGG_METHODS = true.
Proof.
  intros [<-|[<-|[<-|[<-|[<-|[]]]]]]; eexists; split; reflexivity.
Qed.

Lemma valid_name_not_datetime name :
  In name VALID_WEARABLE_STREAMS -> name <> "datetime"%string.
Proof. intros [<-|[<-|[<-|[<-|[<-|[]]]]]]; discriminate. Qed.

Lemma zip_with_map {A B A' B' C} (f : A' -> B' -> C) (a : A -> A') (b : B -> B')
    (xs : list A) (ys : list B) :
  zip_with f (map a xs) (map b ys)
  = map (fun p => f (a (fst p)) (b (snd p))) (combine xs ys).
Proof.
  unfold zip_with; revert ys; induction xs as [|x xs IH]; intros [|y ys];
    try reflexivity; simpl; f_equal; apply IH.
Qed.

Lemma combine_same {A} (l : list A) : combine l l = map (fun x => (x, x)) l.
Proof. induction l as [|x l IH]; [reflexivity|]; simpl; f_equal; exact IH. Qed.

Lemma select_none {A} mask (xs : list A) :
  Forall (fun b => b = false) mask -> select mask xs = [].
Proof.
  intros H; revert xs; induction H as [|b mask -> _ IH]; intros xs.
  - destruct xs; reflexivity.
  - destruct xs; [reflexivity|]; simpl; apply IH.
Qed.

Lemma instant_bucket_returns values ds freq method g :
  str_in method AGG_METHODS = true ->
  exists v, instant_bucket values ds freq method g = Returned v.
Proof.
  intros Hm; unfold instant_bucket.
  destruct (0 <? _)%nat; [apply agg_returns; exact Hm|eexists; reflexivity].
Qed.

Lemma interval_bucket_returns values starts stops freq method g :
  str_in method AGG_METHODS = true ->
  exists v, interval_bucket values starts stops freq method g = Returned v.
Proof.
  intros Hm; unfold interval_bucket, interval_fraction.
  destruct (0 <? _)%nat; [apply agg_returns; exact Hm|eexists; reflexivity].
Qed.

Lemma instant_bucket_empty values ds freq method g :
  Forall (fun d => d < g \/ g + Zpos freq < d) ds ->
  instant_bucket values ds freq method g = Returned Float.zero.
Proof.
  intros H; unfold instant_bucket.
  rewrite zip_with_map, combine_same, map_map; cbn [fst snd].
  rewrite select_none; [reflexivity|].
  apply Forall_map, Forall_impl with (2 := H); intros d Hd.
  destruct (Z.leb_spec d (g + Z.pos freq)); [|reflexivity].
  destruct (Z.geb_spec d g); [lia|reflexivity].
Qed.

Lemma interval_bucket_empty values starts stops freq method g :
  Forall (fun p => g + Zpos freq < fst p \/ snd p <= g) (combine starts stops) ->
  interval_bucket values starts stops freq method g = Returned Float.zero.
Proof.
  intros H; unfold interval_bucket.
  rewrite zip_with_map, select_none; [reflexivity|].
  apply Forall_map, Forall_impl with (2 := H); intros [s e] Hp; simpl in *.
  destruct (Z.leb_spec s (g + Z.pos freq)); [|reflexivity].
  destruct (Z.gtb_spec e g); [lia|reflexivity].
Qed.

Lemma mapM_buckets (f : Timestamp -> outcome fval) df freq g :
  (forall t, exists v, f t = Returned v) ->
  (forall t, bucket_empty df freq t -> f t = Returned Float.zero) ->
  exists vals, mapM f g = Returned vals /\ bucket_values df freq g vals.
Proof.
  intros Hret Hzero.
  destruct (@mapM_returns _ _ f g) as [vals Hvals];
    [intros t _; apply Hret|].
  exists vals; split; [exact Hvals|]; split; [apply (mapM_length _ _ Hvals)|].
  intros i t Hi He.
  destruct (mapM_nth_error _ _ _ Hvals Hi) as [v [Hv Hn]].
  rewrite (Hzero t He) in Hv; injection Hv as <-; exact Hn.
Qed.

(** resample_df on a valid stream, between given bounds. *)
Lemma resample_valid name df freq method lo hi :
  valid_stream name df ->
  str_in method AGG_METHODS = true ->
  exists vals,
    resample_df df name freq method (Some (Ts lo)) (Some (Ts hi))
    = Returned (resampled (date_range lo hi freq) (name, NumSeries vals)) /\
    bucket_values df freq (date_range lo hi freq) vals.
Proof.
  intros Hv Hm; destruct (valid_stream_accessor Hv) as [Hw Hi].
  destruct Hv as [Hname [values Hvalues] Hlower _ _].
  unfold resample_df; rewrite Hw; cbn [bind _obj]; rewrite Hi.
  rewrite (proj2 (str_in_iff _ _) Hname), (has_column_lookup _ _ Hvalues), Hm.
  unfold num_column; rewrite Hvalues.
  cbn [bind negb raise_if bad_bound bound_or date_range_dt].
  unfold lower_times in Hlower; unfold time_column.
  destruct (stream_shape_view df) as [ds Hd Hs He|starts stops Hs He|];
    [| |congruence].
  - rewrite Hs, Hd; cbn [andb bind].
    destruct (@mapM_buckets (instant_bucket values ds freq method) df freq
                (date_range lo hi freq)) as [vals [Hvals Hb]].
    + intros t; apply instant_bucket_returns; exact Hm.
    + unfold bucket_empty; intros t Ht.
      destruct (stream_shape_view df) as [ds' Hd' _ _|? ? Hs' _|]; [| |tauto].
      * rewrite Hd in Hd'; injection Hd' as <-.
        apply instant_bucket_empty; exact Ht.
      * apply has_column_lookup in Hs'; congruence.
    + rewrite Hvals; exists vals; split; [reflexivity|exact Hb].
  - rewrite (has_column_lookup _ _ Hs), (has_column_lookup _ _ He), Hs, He.
    cbn [andb bind].
    destruct (@mapM_buckets (interval_bucket values starts stops freq method)
                df freq (date_range lo hi freq)) as [vals [Hvals Hb]].
    + intros t; apply interval_bucket_returns; exact Hm.
    + unfold bucket_empty; intros t Ht.
      destruct (stream_shape_view df) as [ds' _ Hs' _|starts' stops' Hs' He'|];
        [| |tauto].
      * apply has_column_lookup in Hs; congruence.
      * rewrite Hs in Hs'; rewrite He in He'.
        injection Hs' as <-; injection He' as <-.
        apply interval_bucket_empty; exact Ht.
    + rewrite Hvals; exists vals; split; [reflexivity|exact Hb].
Qed.

(** *** The merge of the resampled frames *)

Lemma mapM_Forall2 {A B C} (f : A -> outcome B) (h : C -> B)
    (R : A -> C -> Prop) xs :
  (forall x, In x xs -> exists y, f x = Returned (h y) /\ R x y) ->
  exists ys, mapM f xs = Returned (map h ys) /\ Forall2 R xs ys.
Proof.
  induction xs as [|x xs IH]; intros H.
  - exists []; split; [reflexivity|constructor].
  - destruct (H x (or_introl eq_refl)) as [y [Hy Hr]].
    destruct IH as [ys [Hys Hrs]]; [intros z Hz; apply H; right; exact Hz|].
    exists (y :: ys); split; [|constructor; assumption].
    simpl; rewrite Hy; cbn [bind]; rewrite Hys; reflexivity.
Qed.

Lemma Forall2_In_l {A B} (R : A -> B -> Prop) xs ys x :
  Forall2 R xs ys -> In x xs -> exists y, In y ys /\ R x y.
Proof.
  induction 1 as [|a b xs ys Hab _ IH]; intros Hin; [destruct Hin|].
  destruct Hin as [->|Hin].
  - exists b; split; [left; reflexivity|exact Hab].
  - destruct (IH Hin) as [y [Hy Hr]]; exists y; split; [right; exact Hy|exact Hr].
Qed.

Lemma lookup_NoDup {A} k (v : A) d :
  NoDup (map fst d) -> In (k, v) d -> lookup k d = Some v.
Proof.
  induction d as [|[k' v'] d IH]; intros Hnd Hin; [destruct Hin|].
  inversion Hnd as [|? ? Hk Hnd']; subst; simpl.
  destruct Hin as [[= -> ->]|Hin]; [rewrite String.eqb_refl; reflexivity|].
  destruct (String.eqb_spec k k') as [->|_]; [|apply IH; assumption].
  exfalso; apply Hk; apply in_map_iff; exists (k', v); split; [reflexivity|exact Hin].
Qed.

Lemma foldM_merge g cols acc :
  StronglySorted Z.lt g ->
  Forall (aligned g) (acc ++ cols) ->
  NoDup (map fst (acc ++ cols)) ->
  ~ In "datetime"%string (map fst (acc ++ cols)) ->
  foldM merge (map (resampled g) cols)
    (mkDataFrame (("datetime"%string, TimeSeries g) :: acc) [])
  = Returned (mkDataFrame (("datetime"%string, TimeSeries g) :: acc ++ cols) []).
Proof.
  intros Hs; revert acc; induction cols as [|[name s] cols IH];
    intros acc Hal Hnd Hkey.
  - simpl; rewrite app_nil_r; reflexivity.
  - cbn [map foldM].
    assert (Hal' := Hal); apply Forall_app in Hal'; destruct Hal' as [Hacc Hcols].
    inversion Hcols as [|? ? [vals [Hvals Hlen]] _]; subst; cbn [snd] in Hvals; subst s.
    rewrite map_app in Hnd, Hkey; cbn [map fst] in Hnd, Hkey.
    unfold resampled at 1; rewrite merge_aligned; try assumption.
    + cbn [bind].
      replace (acc ++ (name, NumSeries vals) :: cols)
        with ((acc ++ [(name, NumSeries vals)]) ++ cols)
        by (rewrite <- app_assoc; reflexivity).
      apply IH; rewrite <- app_assoc; cbn [app]; try assumption;
        rewrite map_app; assumption.
    + intros ->; apply Hkey, in_or_app; right; left; reflexivity.
    + intros Hin; apply Hkey, in_or_app; left; exact Hin.
    + apply NoDup_remove_2 in Hnd; intros Hin; apply Hnd, in_or_app; left; exact Hin.
Qed.

Lemma column_of_names freq g df_dict cols :
  Forall2 (column_of freq g) df_dict cols -> map fst cols = map fst df_dict.
Proof.
  induction 1 as [|kv c df_dict cols [Hn _] _ IH]; [reflexivity|].
  simpl; rewrite Hn, IH; reflexivity.
Qed.

Lemma column_of_aligned freq g df_dict cols :
  Forall2 (column_of freq g) df_dict cols -> Forall (aligned g) cols.
Proof.
  induction 1 as [|kv c df_dict cols [_ [vals [Hv [Hl _]]]] _ IH]; constructor.
  - exists vals; split; assumption.
  - exact IH.
Qed.

(** C6 (amended).  On a non-empty dictionary of valid streams, with
    metadata that is accepted, combine_wearable_dataframes returns a
    table whose datetime column is the grid [date_range lo hi freq], [lo]
    the least lower bound and [hi] the greatest upper bound over all the
    streams: it is ascending with no timestamp twice, starts at [lo] when
    [lo <= hi], and every column has one value per grid point.  The
    column of a stream holds 0 at every grid point whose bucket holds no
    record of that stream. *)
Theorem combine_grid_and_zero_fill df_dict freq metadata :
  df_dict <> [] ->
  NoDup (map fst df_dict) ->
  Forall (fun kv => valid_stream (fst kv) (snd kv)) df_dict ->
  metadata_ok metadata ->
  exists out lo hi,
    combine_wearable_dataframes df_dict freq metadata = Returned out /\
    is_min lo (flat_map (fun kv => lower_times (snd kv)) df_dict) /\
    is_max hi (flat_map (fun kv => upper_times (snd kv)) df_dict) /\
    lookup "datetime"%string (columns out)
      = Some (TimeSeries (date_range lo hi freq)) /\
    StronglySorted Z.lt (date_range lo hi freq) /\
    (lo <= hi -> hd_error (date_range lo hi freq) = Some lo) /\
    map fst (columns out) = "datetime"%string :: map fst df_dict /\
    (forall name df, In (name, df) df_dict ->
       exists vals,
         lookup name (columns out) = Some (NumSeries vals) /\
         bucket_values df freq (date_range lo hi freq) vals).
Proof.
  intros Hne Hnd Hvalid Hmeta; rewrite Forall_forall in Hvalid.
  set (lo := least (map (fun kv : string * DataFrame => least (lower_times (snd kv))) df_dict)).
  set (hi := greatest (map (fun kv : string * DataFrame => greatest (upper_times (snd kv))) df_dict)).
  set (g := date_range lo hi freq).
  assert (Hs : StronglySorted Z.lt g) by apply date_range_sorted.
  unfold combine_wearable_dataframes.
  (* the bounds *)
  rewrite (@mapM_total _ _ (fun kv : string * DataFrame => stream_bounds (snd kv))
             (fun kv => (Ts (least (lower_times (snd kv))),
                         Ts (greatest (upper_times (snd kv))))))
    by (intros kv Hkv; apply stream_bounds_valid with (name := fst kv), Hvalid, Hkv).
  cbn [bind]; rewrite !map_map; cbn [fst snd].
  rewrite <- (map_map (fun kv : string * DataFrame => least (lower_times (snd kv))) Ts).
  rewrite <- (map_map (fun kv : string * DataFrame => greatest (upper_times (snd kv))) Ts).
  rewrite py_min_least, py_max_greatest
    by (destruct df_dict; [congruence|discriminate]).
  cbn [bind]; fold lo hi g.
  (* the resampled frames *)
  destruct (@mapM_Forall2 _ _ _
              (fun kv : string * DataFrame =>
                 method <- match lookup (fst kv) WEARABLE_RESAMPLE_METHOD with
                           | Some m => Returned m
                           | None => Raised KeyError
                           end ;;
                 resample_df (snd kv) (fst kv) freq method (Some (Ts lo)) (Some (Ts hi)))
              (resampled g) (column_of freq g) df_dict) as [cols [Hcols Hof]].
  { intros kv Hkv; specialize (Hvalid kv Hkv).
    destruct (resample_method (valid_name Hvalid)) as [method [-> Hm]]; cbn [bind].
    destruct (@resample_valid (fst kv) (snd kv) freq method lo hi Hvalid Hm)
      as [vals [Hr Hb]].
    exists (fst kv, NumSeries vals); split; [exact Hr|].
    split; [reflexivity|exists vals; split; [reflexivity|exact Hb]]. }
  rewrite Hcols; cbn [bind].
  pose proof (column_of_names Hof) as Hnames.
  pose proof (column_of_aligned Hof) as Hal.
  assert (Hkey : ~ In "datetime"%string (map fst cols)).
  { rewrite Hnames; intros Hin; apply in_map_iff in Hin.
    destruct Hin as [kv [Heq Hkv]].
    apply (valid_name_not_datetime (valid_name (Hvalid kv Hkv))); exact Heq. }
  destruct df_dict as [|kv0 rest]; [congruence|].
  inversion Hof as [|? c0 ? cols' Hc0 Hof']; subst cols; cbn [map].
  change (resampled g c0)
    with (mkDataFrame [("datetime"%string, TimeSeries g); c0] []).
  rewrite (@foldM_merge g cols' [c0] Hs) by (cbn [app]; try assumption;
    rewrite Hnames; assumption).
  cbn [bind app]; rewrite (sort_values_sorted [] Hs Hal); cbn [bind].
  (* the accessor and the metadata *)
  assert (Hw : wearable (mkDataFrame (("datetime"%string, TimeSeries g) :: c0 :: cols') [])
               = Returned (mkWearable
                   (mkDataFrame (("datetime"%string, TimeSeries g) :: c0 :: cols') []))).
  { apply accessor_accepts.
    - exists (fst kv0); split; [apply (valid_name (Hvalid kv0 (or_introl eq_refl)))|].
      apply str_in_iff; right; left; apply (proj1 Hc0).
    - left; reflexivity. }
  rewrite Hw; cbn [bind].
  assert (Hadd : exists a,
            match metadata with
            | Some m =>
                add_metadata
                  (mkWearable (mkDataFrame (("datetime"%string, TimeSeries g) :: c0 :: cols') []))
                  m
            | None =>
                add_metadata
                  (mkWearable (mkDataFrame (("datetime"%string, TimeSeries g) :: c0 :: cols') []))
                  [("data_id"%string, AStr "combined_dataframe")]
            end = Returned (mkDataFrame (("datetime"%string, TimeSeries g) :: c0 :: cols') a)).
  { destruct metadata as [m|]; unfold add_metadata.
    - simpl in Hmeta; rewrite Hmeta; eexists; reflexivity.
    - eexists; reflexivity. }
  destruct Hadd as [a ->].
  eexists; exists lo, hi; split; [reflexivity|]; cbn [columns].
  split; [apply least_flat_map; [congruence|];
          intros kv Hkv; apply (valid_lower (Hvalid kv Hkv))|].
  split; [apply greatest_flat_map; [congruence|];
          intros kv Hkv; apply (valid_upper (Hvalid kv Hkv))|].
  split; [reflexivity|].
  split; [exact Hs|].
  split; [apply date_range_head|].
  split; [cbn [map fst]; f_equal; exact Hnames|].
  intros name df Hin.
  destruct (Forall2_In_l (name, df) Hof Hin) as [[c s] [Hc [Hn [vals [Hv Hb]]]]].
  cbn [fst snd] in Hn, Hv, Hb; subst c s.
  exists vals; split; [|exact Hb].
  cbn [lookup].
  destruct (String.eqb_spec name "datetime") as [->|_].
  - exfalso; apply Hkey; apply in_map_iff.
    exists ("datetime"%string, NumSeries vals); split; [reflexivity|exact Hc].
  - apply (@lookup_NoDup _ name (NumSeries vals) (c0 :: cols')); [|exact Hc].
    rewrite Hnames; exact Hnd.
Qed.

Lemma combine_grid_and_zero_fill_witness :
  exists out lo hi,
    combine_wearable_dataframes two_streams ten_minutes None = Returned out /\
    is_min lo (flat_map (fun kv => lower_times (snd kv)) two_streams) /\
    is_max hi (flat_map (fun kv => upper_times (snd kv)) two_streams) /\
    lookup "datetime"%string (columns out)
      = Some (TimeSeries (date_range lo hi ten_minutes)) /\
    StronglySorted Z.lt (date_range lo hi ten_minutes) /\
    (lo <= hi -> hd_error (date_range lo hi ten_minutes) = Some lo) /\
    map fst (columns out) = "datetime"%string :: map fst two_streams /\
    (forall name df, In (name, df) two_streams ->
       exists vals,
         lookup name (columns out) = Some (NumSeries vals) /\
         bucket_values df ten_minutes (date_range lo hi ten_minutes) vals).
Proof.
  apply (@combine_grid_and_zero_fill two_streams ten_minutes None).
  - discriminate.
  - repeat constructor; simpl; intuition discriminate.
  - repeat constructor; simpl; try tauto; try (eexists; reflexivity);
      vm_compute; discriminate.
  - exact I.
Defined.

(** C6 (as the claim states it, refuted).  Steps at minutes 0 and 10 and
    heart rate at minutes 5 and 20, combined at ten minutes: the grid is
    0, 10, 20 minutes.  The grid point 0 lies before the first heart rate
    record, outside the coverage of that stream, and its heart rate value
    is 7, not 0: the bucket of the grid point reaches the record at minute
    5.  After the last steps record, at the grid point 20, steps is 0. *)
Lemma combine_nonzero_before_coverage :
  combine_wearable_dataframes two_streams ten_minutes None
  = Returned
      (mkDataFrame
         [("datetime"%string, TimeSeries [minute 0; minute 10; minute 20]);
          ("steps"%string, NumSeries [Fin 3; Fin 2; Fin 0]);
          ("heartrate"%string, NumSeries [Fin 7; Fin 9; Fin 9])]
         [("data_id"%string, AStr "combined_dataframe")]) /\
  is_min (minute 5) (lower_times heartrate_stream) /\
  minute 0 < minute 5 /\
  ~ Float.feq (Fin 7) Float.zero.
Proof.
  split; [vm_compute; reflexivity|].
  split; [split; [left; reflexivity|repeat constructor; vm_compute; congruence]|].
  split; [reflexivity|vm_compute; congruence].
Qed.

End Combine.

(* ------------------------------------------------------------------ *)
(** ** readers.py: resample_df with sum at the native step *)

Module NativeStep.
Import Readers Vocabulary PyFacts Validation Frames Combine.

Lemma fold_min_below l x :
  Forall (fun y => x <= y) l -> fold_left Z.min l x = x.
Proof.
  induction 1 as [|y l Hy _ IH]; [reflexivity|]; simpl.
  rewrite Z.min_l by exact Hy; exact IH.
Qed.

Lemma fold_max_uniform t0 step a m :
  fold_left Z.max (map (fun k => t0 + Z.of_nat k * Zpos step) (seq (S a) m))
    (t0 + Z.of_nat a * Zpos step)
  = t0 + Z.of_nat (a + m) * Zpos step.
Proof.
  revert a; induction m as [|m IH]; intros a; simpl.
  - rewrite Nat.add_0_r; reflexivity.
  - rewrite Z.max_r by nia.
    rewrite IH; f_equal; f_equal; lia.
Qed.

Lemma uniform_bounds t0 step n :
  series_min (uniform_times t0 step (S n)) = Ts t0 /\
  series_max (uniform_times t0 step (S n)) = Ts (t0 + Z.of_nat n * Zpos step).
Proof.
  unfold uniform_times; cbn [seq map series_min series_max]; split; f_equal.
  - rewrite fold_min_below; [lia|].
    apply Forall_forall; intros y Hy; apply in_map_iff in Hy.
    destruct Hy as [k [<- _]]; nia.
  - rewrite fold_max_uniform; reflexivity.
Qed.

Lemma date_range_uniform t0 step n :
  date_range t0 (t0 + Z.of_nat n * Zpos step) step = uniform_times t0 step (S n).
Proof.
  unfold date_range, uniform_times.
  replace (t0 + Z.of_nat n * Z.pos step - t0) with (Z.of_nat n * Z.pos step) by lia.
  rewrite Z.div_mul by lia.
  replace (Z.to_nat (Z.of_nat n + 1)) with (S n) by lia; reflexivity.
Qed.

Lemma select_window {A} (P : nat -> bool) i (xs : list A) :
  (forall k, P k = (i <=? k)%nat && (k <=? S i)%nat) ->
  forall a, (a <= i)%nat ->
    select (map P (seq a (List.length xs))) xs = firstn 2 (skipn (i - a) xs).
Proof.
  intros HP; induction xs as [|x xs IH]; intros a Ha.
  - destruct (i - a)%nat; reflexivity.
  - cbn [List.length seq map select]; rewrite (HP a).
    destruct (Nat.leb_spec i a) as [Hia|Hia].
    + assert (a = i) by lia; subst a.
      replace (i <=? S i)%nat with true by (symmetry; apply Nat.leb_le; lia).
      rewrite Nat.sub_diag; cbn [andb skipn firstn]; f_equal.
      destruct xs as [|y xs]; [reflexivity|].
      cbn [List.length seq map select firstn]; rewrite (HP (S i)).
      replace (i <=? S i)%nat with true by (symmetry; apply Nat.leb_le; lia).
      rewrite Nat.leb_refl; cbn [andb]; f_equal.
      apply select_none, Forall_forall; intros b Hb.
      apply in_map_iff in Hb; destruct Hb as [k [<- Hk]]; apply in_seq in Hk.
      rewrite (HP k).
      replace (k <=? S i)%nat with false by (symmetry; apply Nat.leb_gt; lia).
      apply andb_false_r.
    + cbn [andb]; rewrite (IH (S a)) by lia.
      replace (i - a)%nat with (S (i - S a)) by lia; reflexivity.
Qed.

(** The bucket of the grid point [i] of a uniform stream, at the step of
    the stream, holds the records [i] and [i + 1]. *)
Lemma instant_bucket_native t0 step vs i :
  instant_bucket vs (uniform_times t0 step (List.length vs)) step "sum"
    (t0 + Z.of_nat i * Zpos step)
  = Returned (series_sum (firstn 2 (skipn i vs))).
Proof.
  unfold instant_bucket, uniform_times.
  rewrite zip_with_map, combine_same, !map_map; cbn [fst snd].
  rewrite (@select_window _
             (fun k => (t0 + Z.of_nat k * Z.pos step
                          <=? t0 + Z.of_nat i * Z.pos step + Z.pos step)
                       && (t0 + Z.of_nat k * Z.pos step
                             >=? t0 + Z.of_nat i * Z.pos step))
             i vs) by (try lia; intros k;
                       destruct (Z.leb_spec (t0 + Z.of_nat k * Z.pos step)
                                   (t0 + Z.of_nat i * Z.pos step + Z.pos step));
                       destruct (Z.geb_spec (t0 + Z.of_nat k * Z.pos step)
                                   (t0 + Z.of_nat i * Z.pos step));
                       destruct (Nat.leb_spec i k);
                       destruct (Nat.leb_spec k (S i)); try reflexivity; nia).
  rewrite Nat.sub_0_r.
  destruct (firstn 2 (skipn i vs)); reflexivity.
Qed.

(** Where the claim of C3 fails, in general: resampled with sum at its own
    step and the bounds taken from the data, a uniform stream keeps its
    timestamps, and its value at the grid point [i] becomes the sum of the
    records [i] and [i + 1]. *)
Lemma resample_sum_native_step t0 step vs :
  vs <> [] ->
  resample_df (uniform_stream t0 step vs) "steps" step "sum" None None
  = Returned
      (mkDataFrame
         [("datetime"%string, TimeSeries (uniform_times t0 step (List.length vs)));
          ("steps"%string,
           NumSeries (map (fun i => series_sum (firstn 2 (skipn i vs)))
                        (seq 0 (List.length vs))))] []).
Proof.
  intros Hne; destruct vs as [|v vs]; [congruence|]; clear Hne.
  set (values := v :: vs).
  assert (Hacc : wearable (uniform_stream t0 step values)
                 = Returned (mkWearable (uniform_stream t0 step values)) /\
                 is_valid (mkWearable (uniform_stream t0 step values))
                 = Returned true).
  { destruct (@accessor_accepts (uniform_stream t0 step values)) as [Hw Hv].
    - exists "steps"%string; split; [simpl; tauto|reflexivity].
    - left; reflexivity.
    - split; [exact Hw|exact Hv]. }
  destruct Hacc as [Hw Hv].
  unfold resample_df; rewrite Hw; cbn [bind _obj]; rewrite Hv.
  change (has_column (uniform_stream t0 step values) "steps") with true.
  change (has_column (uniform_stream t0 step values) "start") with false.
  change (num_column (uniform_stream t0 step values) "steps")
    with (@Returned (list fval) values).
  change (time_column (uniform_stream t0 step values) "datetime")
    with (@Returned (list Z) (uniform_times t0 step (List.length values))).
  cbn [bind negb raise_if str_in existsb String.eqb Ascii.eqb Bool.eqb orb andb
       VALID_WEARABLE_STREAMS AGG_METHODS bad_bound bound_or].
  change (List.length values) with (S (List.length vs)).
  destruct (uniform_bounds t0 step (List.length vs)) as [-> ->].
  cbn [date_range_dt bind]; rewrite date_range_uniform.
  change (S (List.length vs)) with (List.length values).
  unfold uniform_times at 2.
  rewrite (@mapM_total _ _ _
             (fun t => series_sum
                         (firstn 2 (skipn (Z.to_nat ((t - t0) / Z.pos step)) values)))).
  - cbn [bind]; rewrite map_map; do 6 f_equal.
    apply map_ext; intros i.
    replace (t0 + Z.of_nat i * Z.pos step - t0) with (Z.of_nat i * Z.pos step) by lia.
    rewrite Z.div_mul by lia; rewrite Nat2Z.id; reflexivity.
  - intros t Ht; apply in_map_iff in Ht; destruct Ht as [i [<- _]].
    rewrite (instant_bucket_native t0 step values i).
    replace (t0 + Z.of_nat i * Z.pos step - t0) with (Z.of_nat i * Z.pos step) by lia.
    rewrite Z.div_mul by lia; rewrite Nat2Z.id; reflexivity.
Qed.

End NativeStep.

(* ------------------------------------------------------------------ *)
(** ** readers.py: metadata *)

Module MetadataFacts.
Import Readers Vocabulary PyFacts Validation Frames.

Lemma validate_metadata_iff m :
  _validate_metadata m = Returned tt <-> acceptable_metadata m.
Proof.
  unfold _validate_metadata, acceptable_metadata.
  destruct m as [|kv m]; [split; auto|].
  set (d := kv :: m).
  destruct (existsb _ (map fst d)) eqn:Hk; cbn [negb].
  - apply existsb_exists in Hk; destruct Hk as [key [Hin Hid]].
    apply str_in_iff in Hid.
    destruct (forallb is_str (map snd d)) eqn:Hv; cbn [negb].
    + split; [intros _; right; split|reflexivity].
      * exists key; split; assumption.
      * apply Forall_forall; rewrite forallb_forall in Hv; exact Hv.
    + split; [discriminate|].
      intros [Hd|[_ Hall]]; [discriminate Hd|].
      rewrite Forall_forall in Hall.
      assert (Ht : forallb is_str (map snd d) = true)
        by (apply forallb_forall; exact Hall).
      congruence.
  - split; [discriminate|].
    intros [Hd|[[key [Hin Hid]] _]]; [discriminate Hd|].
    assert (Ht : existsb (fun key => str_in key ["data_id"; "subject_id"]%string)
                   (map fst d) = true).
    { apply existsb_exists; exists key; split; [exact Hin|apply str_in_iff; exact Hid]. }
    congruence.
Qed.

Lemma validate_metadata_outcomes m :
  _validate_metadata m = Returned tt \/ _validate_metadata m = Raised AttributeError.
Proof.
  unfold _validate_metadata; destruct m; [left; reflexivity|].
  destruct (negb _); [right; reflexivity|].
  destruct (negb _); [right|left]; reflexivity.
Qed.

(** *** The dict of attrs *)

Lemma lookup_dict_set_same {A} k (v : A) d : lookup k (dict_set k v d) = Some v.
Proof.
  induction d as [|[k' v'] d IH]; simpl; [rewrite String.eqb_refl; reflexivity|].
  destruct (String.eqb_spec k k') as [->|Hne]; simpl.
  - rewrite String.eqb_refl; reflexivity.
  - destruct (String.eqb_spec k k'); [contradiction|exact IH].
Qed.

Lemma lookup_dict_set_other {A} k k' (v : A) d :
  k' <> k -> lookup k' (dict_set k v d) = lookup k' d.
Proof.
  intros Hne; induction d as [|[k0 v0] d IH]; simpl.
  - destruct (String.eqb_spec k' k); [contradiction|reflexivity].
  - destruct (String.eqb_spec k k0) as [->|Hk]; simpl.
    + destruct (String.eqb_spec k' k0); [contradiction|reflexivity].
    + destruct (String.eqb k' k0); [reflexivity|exact IH].
Qed.

Lemma dict_set_keys {A} k (v : A) d k' :
  In k' (map fst (dict_set k v d)) <-> k' = k \/ In k' (map fst d).
Proof.
  induction d as [|[k0 v0] d IH]; simpl; [intuition|].
  destruct (String.eqb_spec k k0) as [->|Hk]; simpl; [intuition|].
  rewrite IH; intuition.
Qed.

Lemma dict_set_values {A} k (v : A) d x :
  In x (map snd (dict_set k v d)) -> x = v \/ In x (map snd d).
Proof.
  induction d as [|[k0 v0] d IH]; simpl; [intuition|].
  destruct (String.eqb_spec k k0) as [->|Hk]; simpl; intuition.
Qed.

Lemma dict_set_NoDup {A} k (v : A) d :
  NoDup (map fst d) -> NoDup (map fst (dict_set k v d)).
Proof.
  induction d as [|[k0 v0] d IH]; intros Hnd; simpl.
  - constructor; [intros []|constructor].
  - inversion Hnd as [|? ? Hk0 Hd]; subst.
    destruct (String.eqb_spec k k0) as [->|Hk]; simpl; [exact Hnd|].
    constructor; [|apply IH; exact Hd].
    rewrite dict_set_keys; intros [Heq|Hin]; [congruence|contradiction].
Qed.

Lemma updated_cons k v m a :
  updated ((k, v) :: m) a = updated m (dict_set k v a).
Proof. reflexivity. Qed.

Lemma lookup_updated_absent m a k :
  ~ In k (map fst m) -> lookup k (updated m a) = lookup k a.
Proof.
  revert a; induction m as [|[k0 v0] m IH]; intros a Hk; [reflexivity|].
  cbn [map fst In] in Hk; rewrite updated_cons, IH by tauto.
  apply lookup_dict_set_other; intros ->; tauto.
Qed.

Lemma lookup_updated_present m a k v :
  NoDup (map fst m) -> In (k, v) m -> lookup k (updated m a) = Some v.
Proof.
  revert a; induction m as [|[k0 v0] m IH]; intros a Hnd Hin; [destruct Hin|].
  inversion Hnd as [|? ? Hk0 Hm]; subst; rewrite updated_cons.
  destruct Hin as [[= -> ->]|Hin]; [|apply IH; assumption].
  rewrite (@lookup_updated_absent m (dict_set k v a) k Hk0).
  apply lookup_dict_set_same.
Qed.

Lemma updated_keys m a k :
  In k (map fst (updated m a)) <-> In k (map fst m) \/ In k (map fst a).
Proof.
  revert a; induction m as [|[k0 v0] m IH]; intros a; [simpl; intuition|].
  rewrite updated_cons, IH, dict_set_keys; simpl; intuition.
Qed.

Lemma updated_values m a x :
  In x (map snd (updated m a)) -> In x (map snd m) \/ In x (map snd a).
Proof.
  revert a; induction m as [|[k0 v0] m IH]; intros a; [simpl; intuition|].
  rewrite updated_cons; intros H; apply IH in H; destruct H as [H|H];
    [simpl; tauto|].
  apply dict_set_values in H; simpl; intuition.
Qed.

Lemma updated_NoDup m a :
  NoDup (map fst a) -> NoDup (map fst (updated m a)).
Proof.
  revert a; induction m as [|[k0 v0] m IH]; intros a Hnd; [exact Hnd|].
  rewrite updated_cons; apply IH, dict_set_NoDup; exact Hnd.
Qed.

Lemma updated_acceptable m a :
  acceptable_metadata m -> acceptable_metadata a -> acceptable_metadata (updated m a).
Proof.
  intros [->|[[key [Hin Hid]] Hm]] Ha; [exact Ha|].
  right; split.
  - exists key; split; [apply updated_keys; left; exact Hin|exact Hid].
  - apply Forall_forall; intros x Hx; apply updated_values in Hx.
    rewrite Forall_forall in Hm; destruct Hx as [Hx|Hx]; [apply Hm; exact Hx|].
    destruct Ha as [->|[_ Ha]]; [destruct Hx|].
    rewrite Forall_forall in Ha; apply Ha; exact Hx.
Qed.

(** X1.  add_metadata on accepted metadata writes every item into the
    attrs and touches nothing else: each key of the metadata then reads
    its new value, every other key reads what it read before, the keys
    stay distinct and the columns are the ones of the frame.  Metadata
    that is not accepted raises AttributeError. *)
Theorem add_metadata_lookup (w : WearableData) (m : Metadata) :
  NoDup (map fst m) ->
  (acceptable_metadata m ->
   exists df',
     add_metadata w m = Returned df' /\
     columns df' = columns (_obj w) /\
     (forall k v, In (k, v) m -> lookup k (attrs df') = Some v) /\
     (forall k, ~ In k (map fst m) ->
                lookup k (attrs df') = lookup k (attrs (_obj w))) /\
     (NoDup (map fst (attrs (_obj w))) -> NoDup (map fst (attrs df')))) /\
  (~ acceptable_metadata m -> add_metadata w m = Raised AttributeError).
Proof.
  intros Hnd; unfold add_metadata; split.
  - intros Hm; rewrite (proj2 (validate_metadata_iff m) Hm); cbn [bind].
    eexists; split; [reflexivity|]; cbn [columns attrs].
    split; [reflexivity|].
    split; [intros k v Hin; apply (@lookup_updated_present m _ k v Hnd Hin)|].
    split; [intros k Hk; apply (@lookup_updated_absent m _ k Hk)|].
    apply updated_NoDup.
  - intros Hm; destruct (validate_metadata_outcomes m) as [H|H]; [|rewrite H; reflexivity].
    apply validate_metadata_iff in H; contradiction.
Qed.

Lemma add_metadata_lookup_witness :
  (acceptable_metadata subject_7 ->
   exists df',
     add_metadata (mkWearable three_minutes) subject_7 = Returned df' /\
     columns df' = columns three_minutes /\
     (forall k v, In (k, v) subject_7 -> lookup k (attrs df') = Some v) /\
     (forall k, ~ In k (map fst subject_7) ->
                lookup k (attrs df') = lookup k (attrs three_minutes)) /\
     (NoDup (map fst (attrs three_minutes)) -> NoDup (map fst (attrs df')))) /\
  (~ acceptable_metadata subject_7 ->
   add_metadata (mkWearable three_minutes) subject_7 = Raised AttributeError).
Proof.
  apply (@add_metadata_lookup (mkWearable three_minutes) subject_7).
  repeat constructor; simpl; intuition discriminate.
Defined.

(** X2.  add_metadata keeps a frame valid: when is_valid holds of the
    frame and add_metadata returns, the accessor is built on the frame
    returned and is_valid holds of it. *)
Theorem add_metadata_keeps_valid (w : WearableData) (m : Metadata) (df' : DataFrame) :
  is_valid w = Returned true ->
  add_metadata w m = Returned df' ->
  wearable df' = Returned (mkWearable df') /\
  is_valid (mkWearable df') = Returned true.
Proof.
  unfold is_valid, add_metadata, wearable; intros Hv Ha.
  destruct (_validate_columns (_obj w)) as [[]|] eqn:Hc; [|discriminate].
  cbn [bind] in Hv.
  destruct (_validate_metadata (attrs (_obj w))) as [[]|] eqn:Hold; [|discriminate].
  destruct (_validate_metadata m) as [[]|] eqn:Hnew; [|discriminate].
  cbn [bind] in Ha; injection Ha as <-; cbn [_obj attrs].
  change (_validate_columns {| columns := columns (_obj w); attrs := _ |})
    with (_validate_columns (_obj w)).
  rewrite Hc; cbn [bind].
  fold (updated m (attrs (_obj w))).
  rewrite (proj2 (validate_metadata_iff _)); [split; reflexivity|].
  apply updated_acceptable; apply validate_metadata_iff; assumption.
Qed.

Lemma add_metadata_keeps_valid_witness :
  wearable (mkDataFrame (columns three_minutes) (updated subject_7 []))
    = Returned (mkWearable (mkDataFrame (columns three_minutes) (updated subject_7 []))) /\
  is_valid (mkWearable (mkDataFrame (columns three_minutes) (updated subject_7 [])))
    = Returned true.
Proof.
  apply (@add_metadata_keeps_valid (mkWearable three_minutes) subject_7
           (mkDataFrame (columns three_minutes) (updated subject_7 [])));
    reflexivity.
Defined.

End MetadataFacts.

(* ------------------------------------------------------------------ *)
(** ** readers.py: interval_fraction on the intervals resample_df passes *)

Module FractionFacts.
Import Readers Vocabulary PyFacts IntervalFraction.

Lemma int_truediv_self a : 0 < a -> Float.feq (Float.int_truediv a a) (Fin 1).
Proof.
  intros Ha; unfold Float.int_truediv.
  destruct (Z.eqb_spec a 0) as [->|_]; [lia|]; simpl.
  apply Qmult_inv_r; unfold Qeq; simpl; lia.
Qed.

Lemma int_truediv_of_zero b : 0 < b -> Float.feq (Float.int_truediv 0 b) (Fin 0).
Proof.
  intros Hb; unfold Float.int_truediv.
  destruct (Z.eqb_spec b 0) as [->|_]; [lia|]; simpl.
  unfold Qdiv; rewrite Qmult_0_l; reflexivity.
Qed.

(** X3.  For a source interval that lasts at least a second and less than
    a day and that meets the reference interval (every interval
    resample_df passes meets its bucket), interval_fraction returns the
    whole seconds of the overlap over the whole seconds of the interval:
    a value in [0, 1], which is 1 when the interval is contained in the
    reference interval and 0 when it only touches it. *)
Theorem interval_fraction_sound starts stops ref_start ref_stop i s e :
  nth_error starts i = Some s -> nth_error stops i = Some e ->
  sec 1 <= e - s < day 1 ->
  ref_start < ref_stop -> s <= ref_stop -> ref_start <= e ->
  exists l v,
    interval_fraction starts stops ref_start ref_stop = Returned l /\
    nth_error l i = Some v /\
    v = Float.int_truediv
          ((Z.min e ref_stop - Z.max s ref_start) / NS_PER_SECOND)
          ((e - s) / NS_PER_SECOND) /\
    Float.in_unit v /\
    (contained s e ref_start ref_stop -> Float.feq v (Fin 1)) /\
    (disjoint s e ref_start ref_stop -> Float.feq v (Fin 0)).
Proof.
  intros Hs He Hd Href H1 H2.
  destruct (interval_fraction_nth starts stops ref_start ref_stop i Hs He)
    as [l [Hl Hi]].
  exists l; eexists; split; [exact Hl|]; split; [exact Hi|].
  assert (Hpos : 0 < e - s) by (unfold sec, NS_PER_SECOND in Hd; lia).
  assert (Hc : 0 <= Z.min e ref_stop - Z.max s ref_start <= e - s) by lia.
  assert (Hfull : 0 <= e - s < day 1) by lia.
  assert (Hpart : 0 <= Z.min e ref_stop - Z.max s ref_start < day 1) by lia.
  rewrite (seconds_below_day Hfull), (seconds_below_day Hpart).
  assert (Hsec : 0 < (e - s) / NS_PER_SECOND).
  { unfold sec, NS_PER_SECOND in *.
    apply Z.lt_le_trans with (1 := Z.lt_0_1).
    apply Z.div_le_lower_bound; lia. }
  split; [reflexivity|]; split; [|split].
  - apply int_truediv_unit; [|exact Hsec].
    split; [apply Z.div_pos; [lia|reflexivity]|].
    apply Z.div_le_mono; [reflexivity|lia].
  - intros [Ha Hb].
    replace (Z.min e ref_stop - Z.max s ref_start) with (e - s) by lia.
    apply int_truediv_self; exact Hsec.
  - intros Hdis.
    replace (Z.min e ref_stop - Z.max s ref_start) with 0
      by (destruct Hdis; lia).
    apply int_truediv_of_zero; exact Hsec.
Qed.

Lemma interval_fraction_sound_witness :
  exists l v,
    interval_fraction [minute 0; minute 4] [minute 2; minute 9]
      (minute 1) (minute 6) = Returned l /\
    nth_error l 1 = Some v /\
    v = Float.int_truediv
          ((Z.min (minute 9) (minute 6) - Z.max (minute 4) (minute 1)) / NS_PER_SECOND)
          ((minute 9 - minute 4) / NS_PER_SECOND) /\
    Float.in_unit v /\
    (contained (minute 4) (minute 9) (minute 1) (minute 6) -> Float.feq v (Fin 1)) /\
    (disjoint (minute 4) (minute 9) (minute 1) (minute 6) -> Float.feq v (Fin 0)).
Proof.
  apply (@interval_fraction_sound [minute 0; minute 4] [minute 2; minute 9]
           (minute 1) (minute 6) 1%nat (minute 4) (minute 9));
    try reflexivity; vm_compute; intuition congruence.
Defined.

End FractionFacts.

(* ------------------------------------------------------------------ *)
(** ** readers.py: rename_columns *)

Module RenameFacts.
Import Readers Vocabulary PyFacts Frames.

Lemma standard_char c :
  let c' := (if Ascii.eqb (lower_char c) " " then "_"%char else lower_char c) in
  c' <> " "%char /\ is_upper c' = false /\
  lower_char c' = c' /\ Ascii.eqb c' " " = false.
Proof.
  destruct c as [[] [] [] [] [] [] [] []]; vm_compute; repeat split; congruence.
Qed.

Lemma replace_space_lower s :
  replace_space (lower s)
  = string_map (fun c => if Ascii.eqb (lower_char c) " " then "_"%char
                         else lower_char c) s.
Proof.
  unfold replace_space, lower; induction s as [|c s IH]; [reflexivity|].
  simpl; rewrite IH; reflexivity.
Qed.

Lemma renamed_standard s : standard_name (replace_space (lower s)).
Proof.
  rewrite replace_space_lower; induction s as [|c s IH]; [exact I|].
  simpl; destruct (standard_char c) as [H1 [H2 _]]; auto.
Qed.

Lemma renamed_fixed s :
  replace_space (lower (replace_space (lower s))) = replace_space (lower s).
Proof.
  rewrite !replace_space_lower; induction s as [|c s IH]; [reflexivity|].
  cbn [string_map]; rewrite IH; f_equal.
  destruct (standard_char c) as [_ [_ [H3 H4]]]; cbv zeta in H3, H4.
  rewrite H3, H4; reflexivity.
Qed.

Lemma map_fst_combine {A B} (l : list A) (l' : list B) :
  List.length l = List.length l' -> map fst (combine l l') = l.
Proof.
  revert l'; induction l as [|x l IH]; intros [|y l'] H; try discriminate;
    [reflexivity|]; simpl; f_equal; apply IH; injection H; trivial.
Qed.

Lemma renamed_names df :
  column_names (rename_columns df)
  = map (fun col => replace_space (lower col)) (column_names df).
Proof.
  unfold rename_columns, column_names; cbn [columns].
  apply map_fst_combine; rewrite !length_map; reflexivity.
Qed.

Lemma renamed_data df :
  map snd (columns (rename_columns df)) = map snd (columns df).
Proof.
  unfold rename_columns, column_names; cbn [columns].
  apply map_snd_combine; rewrite !length_map; reflexivity.
Qed.

(** X4.  rename_columns brings every column name to a standard form, with
    no space and no capital letter, and changes nothing else: the data of
    the columns, their order and number, and the attrs are kept.  On a
    frame whose names are already standard it is the identity on names,
    so renaming twice is renaming once. *)
Theorem rename_columns_standard df :
  Forall standard_name (column_names (rename_columns df)) /\
  map snd (columns (rename_columns df)) = map snd (columns df) /\
  attrs (rename_columns df) = attrs df /\
  rename_columns (rename_columns df) = rename_columns df.
Proof.
  split; [|split; [apply renamed_data|split; [reflexivity|]]].
  - rewrite renamed_names; apply Forall_forall; intros n Hn.
    apply in_map_iff in Hn; destruct Hn as [col [<- _]]; apply renamed_standard.
  - unfold rename_columns at 1; rewrite renamed_names, renamed_data, map_map.
    unfold rename_columns; f_equal; f_equal.
    apply map_ext; intros col; apply renamed_fixed.
Qed.

(** The names of a device export, renamed. *)
Lemma rename_actiwatch_like :
  column_names (rename_columns actiwatch_like)
  = ["date_time"; "white_light"; "activity"]%string.
Proof. reflexivity. Qed.

End RenameFacts.

(* ------------------------------------------------------------------ *)
(** ** readers.py: what resample_df refuses and what it returns *)

Module ResampleFacts.
Import Readers Vocabulary PyFacts Validation Frames Combine MetadataFacts.

Lemma validate_columns_outcomes df :
  _validate_columns df = Returned tt \/ _validate_columns df = Raised AttributeError.
Proof.
  unfold _validate_columns.
  destruct (negb (has_column df "datetime"));
    [destruct (negb (has_column df "start") && negb (has_column df "end"))|];
    cbn [bind]; try (right; reflexivity);
    destruct (negb (existsb _ _)); [right|left|right|left]; reflexivity.
Qed.

Lemma lookup_absent {A} k (d : list (string * A)) :
  str_in k (map fst d) = false -> lookup k d = None.
Proof.
  induction d as [|[k' v] d IH]; [reflexivity|]; unfold str_in; simpl.
  destruct (String.eqb k k'); [discriminate|exact IH].
Qed.

Lemma lookup_present {A} k (d : list (string * A)) :
  str_in k (map fst d) = true -> exists v, lookup k d = Some v.
Proof.
  induction d as [|[k' v] d IH]; [discriminate|]; unfold str_in; simpl.
  destruct (String.eqb k k'); [intros _; exists v; reflexivity|exact IH].
Qed.

(** X5.  Every argument resample_df refuses is refused with
    AttributeError, before a grid is built or a value aggregated: a frame
    without a stream column or without any of datetime, start, end; attrs
    that are not accepted; a name that is not a stream name or not a
    column of the frame; an aggregation other than sum, mean, max, min; a
    bound that is NaT. *)
Theorem resample_df_refuses df name freq agg_method initial_datetime final_datetime :
  refused df name agg_method initial_datetime final_datetime ->
  resample_df df name freq agg_method initial_datetime final_datetime
  = Raised AttributeError.
Proof.
  intros Href; unfold resample_df, wearable, is_valid.
  destruct (validate_columns_outcomes df) as [Hc|Hc]; rewrite Hc; [|reflexivity].
  cbn [bind _obj]; rewrite Hc; cbn [bind].
  destruct (validate_metadata_outcomes (attrs df)) as [Hm|Hm]; rewrite Hm;
    [|reflexivity].
  cbn [bind negb raise_if].
  destruct (str_in name VALID_WEARABLE_STREAMS) eqn:Hn; [|reflexivity].
  destruct (has_column df name) eqn:Hcol; [|reflexivity].
  destruct (str_in agg_method AGG_METHODS) eqn:Ha; [|reflexivity].
  destruct (bad_bound initial_datetime) eqn:Hi; [reflexivity|].
  destruct (bad_bound final_datetime) eqn:Hf; [reflexivity|].
  exfalso; destruct Href as [H|H|H|H|H|[H|H]].
  - apply H, _validate_columns_refuses, Hc.
  - apply H, validate_metadata_iff, Hm.
  - apply H, str_in_iff, Hn.
  - congruence.
  - apply H, str_in_iff, Ha.
  - subst; discriminate Hi.
  - subst; discriminate Hf.
Qed.

Lemma resample_df_refuses_witness :
  resample_df three_minutes "steps" one_minute "median" None None
  = Raised AttributeError /\
  resample_df three_minutes "heartrate" one_minute "mean" None None
  = Raised AttributeError /\
  resample_df three_minutes "steps" one_minute "sum" (Some NaT) None
  = Raised AttributeError.
Proof.
  split; [|split].
  - apply (@resample_df_refuses three_minutes "steps" one_minute "median" None None).
    apply UnknownAggregation; simpl; intuition discriminate.
  - apply (@resample_df_refuses three_minutes "heartrate" one_minute "mean" None None).
    apply NoSuchColumn; reflexivity.
  - apply (@resample_df_refuses three_minutes "steps" one_minute "sum" (Some NaT) None).
    apply NaTBound; left; reflexivity.
Defined.

Lemma date_range_dt_inv a b freq g :
  date_range_dt a b freq = Returned g ->
  exists lo hi, a = Ts lo /\ b = Ts hi /\ g = date_range lo hi freq.
Proof.
  destruct a as [|lo], b as [|hi]; simpl; try discriminate.
  intros [= <-]; exists lo, hi; auto.
Qed.

Lemma resample_df_shape df name freq agg_method initial_datetime final_datetime out :
  resample_df df name freq agg_method initial_datetime final_datetime = Returned out ->
  exists lo hi vals,
    out = resampled (date_range lo hi freq) (name, NumSeries vals) /\
    List.length vals = List.length (date_range lo hi freq) /\
    StronglySorted Z.lt (date_range lo hi freq) /\
    (forall t, initial_datetime = Some (Ts t) -> lo = t) /\
    (forall t, final_datetime = Some (Ts t) -> hi = t) /\
    attrs out = [] /\
    wearable out = Returned (mkWearable out) /\
    is_valid (mkWearable out) = Returned true.
Proof.
  unfold resample_df; intros H.
  destruct (wearable df) as [w|]; [|discriminate]; cbn [bind] in H.
  destruct (is_valid w) as [ok|]; [|discriminate]; cbn [bind] in H.
  destruct (raise_if (negb ok) _); [|discriminate]; cbn [bind] in H.
  destruct (str_in name VALID_WEARABLE_STREAMS) eqn:Hn; [|discriminate].
  cbn [negb raise_if bind] in H.
  do 4 (destruct (raise_if _ _); [|discriminate]; cbn [bind] in H).
  destruct (num_column df name) as [values|]; [|discriminate]; cbn [bind] in H.
  assert (Hshape : forall g vals,
            List.length vals = List.length g ->
            wearable (resampled g (name, NumSeries vals))
              = Returned (mkWearable (resampled g (name, NumSeries vals))) /\
            is_valid (mkWearable (resampled g (name, NumSeries vals))) = Returned true).
  { intros g vals _.
    destruct (@accessor_accepts (resampled g (name, NumSeries vals))) as [Hw Hv].
    - exists name; split; [apply str_in_iff; exact Hn|].
      apply str_in_iff; right; left; reflexivity.
    - left; reflexivity.
    - split; [exact Hw|rewrite Hv; reflexivity]. }
  assert (Hbound : forall b d lo t, bound_or b d = Ts lo -> b = Some (Ts t) -> lo = t).
  { intros b d lo t Hb ->; simpl in Hb; congruence. }
  destruct (has_column df "start" && has_column df "end").
  - destruct (time_column df "start") as [starts|]; [|discriminate].
    destruct (time_column df "end") as [stops|]; [|discriminate].
    cbn [bind] in H.
    destruct (date_range_dt _ _ freq) as [g|] eqn:Hg; [|discriminate].
    cbn [bind] in H.
    destruct (mapM _ g) as [vals|] eqn:Hvals; [|discriminate].
    cbn [bind] in H; injection H as <-.
    destruct (date_range_dt_inv _ _ _ Hg) as [lo [hi [Hlo [Hhi ->]]]].
    pose proof (mapM_length _ _ Hvals) as Hlen.
    exists lo, hi, vals; repeat split; try apply (Hshape _ _ Hlen); try assumption.
    + apply date_range_sorted.
    + intros t; apply (Hbound _ _ _ _ Hlo).
    + intros t; apply (Hbound _ _ _ _ Hhi).
  - destruct (time_column df "datetime") as [ds|]; [|discriminate].
    cbn [bind] in H.
    destruct (date_range_dt _ _ freq) as [g|] eqn:Hg; [|discriminate].
    cbn [bind] in H.
    destruct (mapM _ g) as [vals|] eqn:Hvals; [|discriminate].
    cbn [bind] in H; injection H as <-.
    destruct (date_range_dt_inv _ _ _ Hg) as [lo [hi [Hlo [Hhi ->]]]].
    pose proof (mapM_length _ _ Hvals) as Hlen.
    exists lo, hi, vals; repeat split; try apply (Hshape _ _ Hlen); try assumption.
    + apply date_range_sorted.
    + intros t; apply (Hbound _ _ _ _ Hlo).
    + intros t; apply (Hbound _ _ _ _ Hhi).
Qed.

Lemma time_column_inv df c ts :
  time_column df c = Returned ts -> lookup c (columns df) = Some (TimeSeries ts).
Proof.
  unfold time_column; destruct (lookup c (columns df)) as [[l|l]|];
    try discriminate; intros [= ->]; reflexivity.
Qed.

Lemma series_min_inv l m : series_min l = Ts m -> is_min m l.
Proof.
  destruct l as [|x l]; [discriminate|]; intros H.
  rewrite (@series_min_least (x :: l)) in H by discriminate.
  injection H as <-; apply least_is_min; discriminate.
Qed.

Lemma series_max_inv l m : series_max l = Ts m -> is_max m l.
Proof.
  destruct l as [|x l]; [discriminate|]; intros H.
  rewrite (@series_max_greatest (x :: l)) in H by discriminate.
  injection H as <-; apply greatest_is_max; discriminate.
Qed.

(** X6.  Whatever resample_df returns is a frame of exactly two columns,
    datetime and the stream resampled, with no attrs: the datetime column
    is the grid [date_range lo hi freq], ascending without repetition,
    where [lo] is the initial datetime given, or else the least start (or
    timestamp) of the data, and [hi] the final datetime given, or else the
    greatest end (or timestamp) of the data; the stream column has one
    value per grid point.  The frame returned is a valid wearable frame
    again: the metadata of the input is not carried over. *)
Theorem resample_df_returns df name freq agg_method initial_datetime final_datetime out :
  resample_df df name freq agg_method initial_datetime final_datetime = Returned out ->
  exists lower upper lo hi vals,
    bounding_times df lower upper /\
    out = resampled (date_range lo hi freq) (name, NumSeries vals) /\
    List.length vals = List.length (date_range lo hi freq) /\
    StronglySorted Z.lt (date_range lo hi freq) /\
    (forall t, initial_datetime = Some (Ts t) -> lo = t) /\
    (initial_datetime = None -> is_min lo lower) /\
    (forall t, final_datetime = Some (Ts t) -> hi = t) /\
    (final_datetime = None -> is_max hi upper) /\
    attrs out = [] /\
    wearable out = Returned (mkWearable out) /\
    is_valid (mkWearable out) = Returned true.
Proof.
  intros H.
  destruct (resample_df_shape _ _ _ _ _ _ H)
    as [_ [_ [_ [_ [_ [_ [_ [_ [Hattrs [Hw Hv]]]]]]]]]].
  unfold resample_df in H.
  destruct (wearable df) as [w|]; [|discriminate]; cbn [bind] in H.
  destruct (is_valid w) as [ok|]; [|discriminate]; cbn [bind] in H.
  do 6 (destruct (raise_if _ _); [|discriminate]; cbn [bind] in H).
  destruct (num_column df name) as [values|]; [|discriminate]; cbn [bind] in H.
  assert (Hgiven : forall b d lo t, bound_or b d = Ts lo -> b = Some (Ts t) -> lo = t).
  { intros b d lo t Hb ->; simpl in Hb; congruence. }
  destruct (has_column df "start" && has_column df "end") eqn:Hboth.
  - destruct (time_column df "start") as [starts|] eqn:Hs; [|discriminate].
    destruct (time_column df "end") as [stops|] eqn:He; [|discriminate].
    cbn [bind] in H.
    destruct (date_range_dt _ _ freq) as [g|] eqn:Hg; [|discriminate].
    cbn [bind] in H.
    destruct (mapM _ g) as [vals|] eqn:Hvals; [|discriminate].
    cbn [bind] in H; injection H as <-.
    destruct (date_range_dt_inv _ _ _ Hg) as [lo [hi [Hlo [Hhi ->]]]].
    exists starts, stops, lo, hi, vals.
    split; [apply BoundedByIntervals; apply time_column_inv; assumption|].
    split; [reflexivity|].
    split; [apply (mapM_length _ _ Hvals)|].
    split; [apply date_range_sorted|].
    split; [intros t; apply (Hgiven _ _ _ _ Hlo)|].
    split; [intros ->; apply series_min_inv; exact Hlo|].
    split; [intros t; apply (Hgiven _ _ _ _ Hhi)|].
    split; [intros ->; apply series_max_inv; exact Hhi|].
    split; [exact Hattrs|split; [exact Hw|exact Hv]].
  - destruct (time_column df "datetime") as [ds|] eqn:Hd; [|discriminate].
    cbn [bind] in H.
    destruct (date_range_dt _ _ freq) as [g|] eqn:Hg; [|discriminate].
    cbn [bind] in H.
    destruct (mapM _ g) as [vals|] eqn:Hvals; [|discriminate].
    cbn [bind] in H; injection H as <-.
    destruct (date_range_dt_inv _ _ _ Hg) as [lo [hi [Hlo [Hhi ->]]]].
    exists ds, ds, lo, hi, vals.
    split; [apply BoundedByInstants;
            [apply andb_false_iff; exact Hboth|apply time_column_inv; exact Hd]|].
    split; [reflexivity|].
    split; [apply (mapM_length _ _ Hvals)|].
    split; [apply date_range_sorted|].
    split; [intros t; apply (Hgiven _ _ _ _ Hlo)|].
    split; [intros ->; apply series_min_inv; exact Hlo|].
    split; [intros t; apply (Hgiven _ _ _ _ Hhi)|].
    split; [intros ->; apply series_max_inv; exact Hhi|].
    split; [exact Hattrs|split; [exact Hw|exact Hv]].
Qed.

Lemma resample_df_returns_witness :
  exists lower upper lo hi vals,
    bounding_times three_minutes lower upper /\
    mkDataFrame [("datetime"%string, TimeSeries [minute 0; minute 1; minute 2]);
                 ("steps"%string, NumSeries [Fin 3; Fin 5; Fin 3])] []
    = resampled (date_range lo hi one_minute) ("steps"%string, NumSeries vals) /\
    List.length vals = List.length (date_range lo hi one_minute) /\
    StronglySorted Z.lt (date_range lo hi one_minute) /\
    (forall t, @None datetime = Some (Ts t) -> lo = t) /\
    (@None datetime = None -> is_min lo lower) /\
    (forall t, @None datetime = Some (Ts t) -> hi = t) /\
    (@None datetime = None -> is_max hi upper) /\
    attrs (mkDataFrame [("datetime"%string, TimeSeries [minute 0; minute 1; minute 2]);
                        ("steps"%string, NumSeries [Fin 3; Fin 5; Fin 3])] []) = [] /\
    wearable (mkDataFrame [("datetime"%string, TimeSeries [minute 0; minute 1; minute 2]);
                           ("steps"%string, NumSeries [Fin 3; Fin 5; Fin 3])] [])
    = Returned (mkWearable
                  (mkDataFrame [("datetime"%string, TimeSeries [minute 0; minute 1; minute 2]);
                                ("steps"%string, NumSeries [Fin 3; Fin 5; Fin 3])] [])) /\
    is_valid (mkWearable
                (mkDataFrame [("datetime"%string, TimeSeries [minute 0; minute 1; minute 2]);
                              ("steps"%string, NumSeries [Fin 3; Fin 5; Fin 3])] []))
    = Returned true.
Proof.
  apply (@resample_df_returns three_minutes "steps" one_minute "sum" None None).
  vm_compute; reflexivity.
Defined.

(** *** resample_df on a frame of one shape *)

Lemma stream_frame_accessor name df :
  stream_frame name df ->
  wearable df = Returned (mkWearable df) /\
  is_valid (mkWearable df) = Returned true.
Proof.
  intros [Hname [values Hvalues] Hshape Hattrs].
  destruct (@accessor_accepts df) as [Hw Hv].
  - exists name; split; [exact Hname|apply (has_column_lookup _ _ Hvalues)].
  - destruct (stream_shape_view df) as [ds Hd _ _|starts stops Hstart _|];
      [left|right; left|congruence]; eapply has_column_lookup; eassumption.
  - split; [exact Hw|rewrite Hv, Hattrs; reflexivity].
Qed.

Lemma shape_instant df ds :
  stream_shape df = Some (Instant ds) ->
  lookup "datetime"%string (columns df) = Some (TimeSeries ds) /\
  has_column df "start" = false /\ has_column df "end" = false.
Proof.
  intros H; pose proof (stream_shape_view df) as V; rewrite H in V.
  inversion V; subst; auto.
Qed.

Lemma shape_interval df starts stops :
  stream_shape df = Some (Interval starts stops) ->
  lookup "start"%string (columns df) = Some (TimeSeries starts) /\
  lookup "end"%string (columns df) = Some (TimeSeries stops).
Proof.
  intros H; pose proof (stream_shape_view df) as V; rewrite H in V.
  inversion V; subst; auto.
Qed.

Lemma resample_head name df agg_method initial_datetime final_datetime values :
  stream_frame name df ->
  lookup name (columns df) = Some (NumSeries values) ->
  str_in agg_method AGG_METHODS = true ->
  bad_bound initial_datetime = false -> bad_bound final_datetime = false ->
  forall k,
    (w <- wearable df ;;
     ok <- is_valid w ;;
     raise_if (negb ok) AttributeError ;;;
     raise_if (negb (str_in name VALID_WEARABLE_STREAMS)) AttributeError ;;;
     raise_if (negb (has_column df name)) AttributeError ;;;
     raise_if (negb (str_in agg_method AGG_METHODS)) AttributeError ;;;
     raise_if (bad_bound initial_datetime) AttributeError ;;;
     raise_if (bad_bound final_datetime) AttributeError ;;;
     values <- num_column df name ;; k values)
    = (k values : outcome DataFrame).
Proof.
  intros Hf Hvalues Hm Hi Hfin k.
  destruct (stream_frame_accessor Hf) as [Hw Hv].
  rewrite Hw; cbn [bind]; rewrite Hv.
  rewrite (proj2 (str_in_iff _ _) (frame_name Hf)), (has_column_lookup _ _ Hvalues).
  rewrite Hm, Hi, Hfin; unfold num_column; rewrite Hvalues; reflexivity.
Qed.

Lemma resample_instant name df freq agg_method initial_datetime final_datetime values ds :
  stream_frame name df ->
  lookup name (columns df) = Some (NumSeries values) ->
  stream_shape df = Some (Instant ds) ->
  str_in agg_method AGG_METHODS = true ->
  bad_bound initial_datetime = false -> bad_bound final_datetime = false ->
  resample_df df name freq agg_method initial_datetime final_datetime
  = (g <- date_range_dt (bound_or initial_datetime (series_min ds))
            (bound_or final_datetime (series_max ds)) freq ;;
     vals <- mapM (instant_bucket values ds freq agg_method) g ;;
     Returned (resampled g (name, NumSeries vals))).
Proof.
  intros Hf Hvalues Hshape Hm Hi Hfin.
  destruct (shape_instant _ Hshape) as [Hd [Hs He]].
  unfold resample_df.
  rewrite (@resample_head name df agg_method initial_datetime final_datetime
             values Hf Hvalues Hm Hi Hfin).
  unfold time_column; rewrite Hs, Hd; reflexivity.
Qed.

Lemma resample_interval name df freq agg_method initial_datetime final_datetime
    values starts stops :
  stream_frame name df ->
  lookup name (columns df) = Some (NumSeries values) ->
  stream_shape df = Some (Interval starts stops) ->
  str_in agg_method AGG_METHODS = true ->
  bad_bound initial_datetime = false -> bad_bound final_datetime = false ->
  resample_df df name freq agg_method initial_datetime final_datetime
  = (g <- date_range_dt (bound_or initial_datetime (series_min starts))
            (bound_or final_datetime (series_max stops)) freq ;;
     vals <- mapM (interval_bucket values starts stops freq agg_method) g ;;
     Returned (resampled g (name, NumSeries vals))).
Proof.
  intros Hf Hvalues Hshape Hm Hi Hfin.
  destruct (shape_interval _ Hshape) as [Hs He].
  unfold resample_df.
  rewrite (@resample_head name df agg_method initial_datetime final_datetime
             values Hf Hvalues Hm Hi Hfin).
  unfold time_column.
  rewrite (has_column_lookup _ _ Hs), (has_column_lookup _ _ He), Hs, He.
  reflexivity.
Qed.

(** X7.  A frame without rows has no bounds of its own: resample_df with
    the bounds left to the data raises ValueError on a stream frame whose
    time column (for intervals: start or end column) is empty. *)
Theorem resample_df_no_rows name df freq agg_method :
  stream_frame name df ->
  In agg_method AGG_METHODS ->
  lower_times df = [] \/ upper_times df = [] ->
  resample_df df name freq agg_method None None = Raised ValueError.
Proof.
  intros Hf Hm Hempty; apply str_in_iff in Hm.
  destruct (frame_values Hf) as [values Hvalues].
  unfold lower_times, upper_times in Hempty.
  destruct (stream_shape df) as [[ds|starts stops]|] eqn:Hshape;
    [| |destruct (frame_shape Hf); exact Hshape].
  - rewrite (@resample_instant name df freq agg_method None None values ds)
      by (try assumption; reflexivity).
    assert (ds = []) by tauto; subst ds; reflexivity.
  - rewrite (@resample_interval name df freq agg_method None None values starts stops)
      by (try assumption; reflexivity).
    destruct Hempty as [->| ->]; [reflexivity|].
    destruct starts; reflexivity.
Qed.

Lemma resample_df_no_rows_witness :
  resample_df no_rows "steps" one_minute "sum" None None = Raised ValueError.
Proof.
  apply (@resample_df_no_rows "steps"%string no_rows one_minute "sum"%string).
  - constructor; [simpl; tauto|eexists; reflexivity|discriminate|reflexivity].
  - simpl; tauto.
  - left; reflexivity.
Defined.

Lemma select_all {A} (mask : list bool) (xs : list A) :
  Forall (fun b => b = true) mask -> List.length mask = List.length xs ->
  select mask xs = xs.
Proof.
  intros H; revert xs; induction H as [|b mask -> _ IH]; intros [|x xs] Hlen;
    try discriminate; [reflexivity|].
  simpl; f_equal; apply IH; injection Hlen; trivial.
Qed.

Lemma date_range_single lo hi freq :
  lo <= hi -> hi - lo < Zpos freq -> date_range lo hi freq = [lo].
Proof.
  intros H1 H2; unfold date_range.
  rewrite Z.div_small by lia; simpl; f_equal; lia.
Qed.

(** X8.  When the frequency is longer than the span of the data, an
    instant-indexed stream resampled between its own bounds comes back as
    one row: the first timestamp, with the aggregate of all the values of
    the stream. *)
Theorem resample_df_single_bucket name df freq agg_method values ds :
  stream_frame name df ->
  lookup name (columns df) = Some (NumSeries values) ->
  stream_shape df = Some (Instant ds) ->
  In agg_method AGG_METHODS ->
  ds <> [] -> List.length values = List.length ds ->
  greatest ds - least ds < Zpos freq ->
  exists v,
    agg agg_method values = Returned v /\
    resample_df df name freq agg_method None None
    = Returned (resampled [least ds] (name, NumSeries [v])).
Proof.
  intros Hf Hvalues Hshape Hm Hne Hlen Hspan; apply str_in_iff in Hm.
  destruct (agg_returns agg_method values Hm) as [v Hv].
  exists v; split; [exact Hv|].
  rewrite (@resample_instant name df freq agg_method None None values ds)
    by (try assumption; reflexivity).
  cbn [bound_or]; rewrite (series_min_least Hne), (series_max_greatest Hne).
  destruct (least_is_min Hne) as [Hin Hmin].
  destruct (greatest_is_max Hne) as [_ Hmax].
  rewrite Forall_forall in Hmin, Hmax.
  assert (Hle : least ds <= greatest ds) by (apply Hmax; exact Hin).
  cbn [date_range_dt bind]; rewrite (@date_range_single _ _ freq Hle Hspan).
  cbn [mapM bind]; unfold instant_bucket.
  rewrite zip_with_map, combine_same, map_map; cbn [fst snd].
  rewrite select_all.
  - destruct values as [|x values]; [destruct ds; [congruence|discriminate]|].
    cbn [List.length Nat.ltb Nat.leb]; rewrite Hv; reflexivity.
  - apply Forall_map, Forall_forall; intros d Hd.
    specialize (Hmin d Hd); specialize (Hmax d Hd).
    destruct (Z.leb_spec d (least ds + Z.pos freq)); [|lia].
    destruct (Z.geb_spec d (least ds)); [reflexivity|lia].
  - rewrite length_map; symmetry; exact Hlen.
Qed.

Lemma resample_df_single_bucket_witness :
  exists v,
    agg "mean" [Fin 7; Fin 9] = Returned v /\
    resample_df heartrate_stream "heartrate" 3600000000000 "mean" None None
    = Returned (resampled [least [minute 5; minute 20]]
                  ("heartrate"%string, NumSeries [v])).
Proof.
  apply (@resample_df_single_bucket "heartrate"%string heartrate_stream
           3600000000000%positive "mean"%string [Fin 7; Fin 9]
           [minute 5; minute 20]).
  - constructor; [simpl; tauto|eexists; reflexivity|discriminate|reflexivity].
  - reflexivity.
  - reflexivity.
  - simpl; tauto.
  - discriminate.
  - reflexivity.
  - reflexivity.
Defined.

(** X9.  A frame with neither a datetime column nor an end column is
    never resampled: resample_df raises AttributeError on it, also when
    its start column and its stream column let it pass is_valid. *)
Theorem resample_df_needs_datetime_or_end df name freq agg_method
    initial_datetime final_datetime :
  has_column df "datetime" = false -> has_column df "end" = false ->
  (forall ts, lookup name (columns df) <> Some (TimeSeries ts)) ->
  resample_df df name freq agg_method initial_datetime final_datetime
  = Raised AttributeError.
Proof.
  intros Hd He Hnum; unfold resample_df, wearable, is_valid.
  destruct (validate_columns_outcomes df) as [Hc|Hc]; rewrite Hc; [|reflexivity].
  cbn [bind _obj]; rewrite Hc; cbn [bind].
  destruct (validate_metadata_outcomes (attrs df)) as [Hm|Hm]; rewrite Hm;
    [|reflexivity].
  cbn [bind negb raise_if].
  destruct (str_in name VALID_WEARABLE_STREAMS); [|reflexivity].
  destruct (has_column df name) eqn:Hcol; [|reflexivity].
  destruct (str_in agg_method AGG_METHODS); [|reflexivity].
  destruct (bad_bound initial_datetime); [reflexivity|].
  destruct (bad_bound final_datetime); [reflexivity|].
  cbn [negb raise_if bind]; unfold num_column.
  destruct (lookup_present name (columns df) Hcol) as [[ts|vs] Hl];
    [destruct (Hnum ts Hl)|].
  rewrite Hl, He, andb_false_r; cbn [bind]; unfold time_column.
  rewrite (lookup_absent "datetime" (columns df) Hd); reflexivity.
Qed.

Lemma resample_df_needs_datetime_or_end_witness :
  is_valid (mkWearable start_only) = Returned true /\
  resample_df start_only "steps" one_minute "sum" None None = Raised AttributeError.
Proof.
  split; [reflexivity|].
  apply (@resample_df_needs_datetime_or_end start_only "steps" one_minute "sum"
           None None); [reflexivity|reflexivity|].
  intros ts; discriminate.
Defined.

End ResampleFacts.

(* ------------------------------------------------------------------ *)
(** ** readers.py: what combine_wearable_dataframes returns and refuses *)

Module CombineFacts.
Import Readers Vocabulary PyFacts Validation Frames Combine MetadataFacts ResampleFacts.

Lemma bind_returned {A B} (m : outcome A) (k : A -> outcome B) b :
  Py.bind m k = Returned b -> exists a, m = Returned a /\ k a = Returned b.
Proof. destruct m as [a|]; [intros H; exists a; auto|discriminate]. Qed.

Lemma mapM_In {A B} (f : A -> outcome B) xs ys x :
  mapM f xs = Returned ys -> In x xs -> exists y, f x = Returned y.
Proof.
  intros H Hin; apply In_nth_error in Hin; destruct Hin as [i Hi].
  destruct (mapM_nth_error _ _ _ H Hi) as [y [Hy _]]; exists y; exact Hy.
Qed.

Lemma mapM_raises_at {A B} (f : A -> outcome B) pre x post e :
  (forall p, In p pre -> exists y, f p = Returned y) ->
  f x = Raised e ->
  mapM f (pre ++ x :: post) = Raised e.
Proof.
  induction pre as [|p pre IH]; intros Hpre Hx; simpl.
  - rewrite Hx; reflexivity.
  - destruct (Hpre p (or_introl eq_refl)) as [y ->]; cbn [bind].
    rewrite IH; [reflexivity| |exact Hx].
    intros q Hq; apply Hpre; right; exact Hq.
Qed.

Lemma merge_attrs left right d : merge left right = Returned d -> attrs d = [].
Proof.
  unfold merge; intros H.
  apply bind_returned in H; destruct H as [keys_l [_ H]].
  apply bind_returned in H; destruct H as [keys_r [_ H]].
  apply bind_returned in H; destruct H as [cols_l [_ H]].
  apply bind_returned in H; destruct H as [cols_r [_ H]].
  injection H as <-; reflexivity.
Qed.

Lemma foldM_merge_attrs rest acc d :
  foldM merge rest acc = Returned d -> attrs d = [] \/ d = acc.
Proof.
  revert acc; induction rest as [|x rest IH]; intros acc H; simpl in H.
  - injection H as <-; right; reflexivity.
  - apply bind_returned in H; destruct H as [acc' [Hm H]].
    destruct (IH _ H) as [Hd| ->]; [left; exact Hd|].
    left; apply (merge_attrs _ _ Hm).
Qed.

Lemma sort_values_keeps d by_ d' :
  sort_values d by_ = Returned d' ->
  attrs d' = attrs d /\ column_names d' = column_names d.
Proof.
  unfold sort_values; destruct (lookup by_ (columns d)) as [[keys|vs]|];
    try discriminate.
  intros [= <-]; split; [reflexivity|].
  unfold column_names; cbn [columns]; rewrite map_map; reflexivity.
Qed.

Lemma sort_values_has_key d by_ d' :
  sort_values d by_ = Returned d' -> has_column d by_ = true.
Proof.
  unfold sort_values; destruct (lookup by_ (columns d)) as [s|] eqn:Hl;
    [|discriminate].
  intros _; apply (has_column_lookup _ _ Hl).
Qed.

Lemma method_of_stream name method :
  lookup name WEARABLE_RESAMPLE_METHOD = Some method -> In name VALID_WEARABLE_STREAMS.
Proof.
  unfold WEARABLE_RESAMPLE_METHOD, VALID_WEARABLE_STREAMS; cbn [lookup].
  destruct (String.eqb_spec name "steps") as [->|_]; [simpl; tauto|].
  destruct (String.eqb_spec name "wake") as [->|_]; [simpl; tauto|].
  destruct (String.eqb_spec name "heartrate") as [->|_]; [simpl; tauto|].
  destruct (String.eqb_spec name "light_estimate") as [->|_]; [simpl; tauto|].
  destruct (String.eqb_spec name "activity") as [->|_]; [simpl; tauto|].
  discriminate.
Qed.

(** X10.  Whatever combine_wearable_dataframes returns, for any
    dictionary and any metadata, is a valid wearable frame with a datetime
    column whose attrs are exactly the metadata given, or data_id =
    combined_dataframe when none is given: the metadata of the streams is
    not carried over.  It returns only on a non-empty dictionary whose
    keys are all stream names. *)
Theorem combine_returns_valid df_dict freq metadata out :
  combine_wearable_dataframes df_dict freq metadata = Returned out ->
  attrs out = updated (combined_metadata metadata) [] /\
  wearable out = Returned (mkWearable out) /\
  is_valid (mkWearable out) = Returned true /\
  has_column out "datetime" = true /\
  df_dict <> [] /\
  Forall (fun kv => In (fst kv) VALID_WEARABLE_STREAMS) df_dict.
Proof.
  unfold combine_wearable_dataframes; intros H.
  apply bind_returned in H; destruct H as [bounds [_ H]].
  apply bind_returned in H; destruct H as [lo [_ H]].
  apply bind_returned in H; destruct H as [hi [_ H]].
  apply bind_returned in H; destruct H as [df_list [Hlist H]].
  destruct df_list as [|df0 rest]; [discriminate|].
  apply bind_returned in H; destruct H as [merged [Hmerged H]].
  apply bind_returned in H; destruct H as [sorted [Hsorted H]].
  apply bind_returned in H; destruct H as [w [Hw H]].
  (* the frame before the metadata is attached has no attrs *)
  assert (Hdf0 : attrs df0 = []).
  { destruct df_dict as [|kv0 rest0]; [discriminate|].
    simpl in Hlist.
    apply bind_returned in Hlist; destruct Hlist as [d [Hd Hlist]].
    apply bind_returned in Hlist; destruct Hlist as [ds [_ Hlist]].
    injection Hlist as -> _.
    apply bind_returned in Hd; destruct Hd as [method [_ Hd]].
    destruct (resample_df_shape _ _ _ _ _ _ Hd) as [? [? [? [_ [_ [_ [_ [_ [Ha _]]]]]]]]].
    exact Ha. }
  assert (Hattrs : attrs sorted = []).
  { destruct (sort_values_keeps _ _ Hsorted) as [-> _].
    destruct (foldM_merge_attrs _ _ Hmerged) as [Hm| ->]; assumption. }
  unfold wearable in Hw.
  apply bind_returned in Hw; destruct Hw as [[] [Hc Hw]]; injection Hw as <-.
  assert (Hform : exists m, combined_metadata metadata = m /\
                            add_metadata (mkWearable sorted) m = Returned out).
  { exists (combined_metadata metadata); split; [reflexivity|].
    destruct metadata; exact H. }
  destruct Hform as [m [Hm Hadd]]; rewrite Hm.
  unfold add_metadata in Hadd.
  apply bind_returned in Hadd; destruct Hadd as [[] [Hok Hadd]].
  injection Hadd as <-; cbn [_obj attrs] in *.
  rewrite Hattrs; fold (updated m []).
  assert (Hcols : _validate_columns (mkDataFrame (columns sorted) (updated m []))
                  = Returned tt) by exact Hc.
  split; [reflexivity|].
  split; [unfold wearable; rewrite Hcols; reflexivity|].
  split.
  { unfold is_valid; cbn [_obj attrs]; rewrite Hcols; cbn [bind].
    rewrite (proj2 (validate_metadata_iff _)); [reflexivity|].
    apply updated_acceptable; [apply validate_metadata_iff; exact Hok|left; reflexivity]. }
  split.
  { change (has_column sorted "datetime" = true).
    unfold has_column; rewrite (proj2 (sort_values_keeps _ _ Hsorted)).
    apply (sort_values_has_key _ _ Hsorted). }
  split; [intros ->; discriminate Hlist|].
  apply Forall_forall; intros kv Hkv.
  destruct (mapM_In _ _ kv Hlist Hkv) as [y Hy].
  apply bind_returned in Hy; destruct Hy as [method [Hmethod _]].
  destruct (lookup (fst kv) WEARABLE_RESAMPLE_METHOD) as [m'|] eqn:Hl;
    [|discriminate].
  apply (method_of_stream _ Hl).
Qed.

Lemma combine_returns_valid_witness :
  attrs (mkDataFrame
           [("datetime"%string, TimeSeries [minute 0; minute 10; minute 20]);
            ("steps"%string, NumSeries [Fin 3; Fin 2; Fin 0]);
            ("heartrate"%string, NumSeries [Fin 7; Fin 9; Fin 9])]
           [("data_id"%string, AStr "combined_dataframe")])
  = updated (combined_metadata None) [] /\
  wearable (mkDataFrame
              [("datetime"%string, TimeSeries [minute 0; minute 10; minute 20]);
               ("steps"%string, NumSeries [Fin 3; Fin 2; Fin 0]);
               ("heartrate"%string, NumSeries [Fin 7; Fin 9; Fin 9])]
              [("data_id"%string, AStr "combined_dataframe")])
  = Returned (mkWearable
                (mkDataFrame
                   [("datetime"%string, TimeSeries [minute 0; minute 10; minute 20]);
                    ("steps"%string, NumSeries [Fin 3; Fin 2; Fin 0]);
                    ("heartrate"%string, NumSeries [Fin 7; Fin 9; Fin 9])]
                   [("data_id"%string, AStr "combined_dataframe")])) /\
  is_valid (mkWearable
              (mkDataFrame
                 [("datetime"%string, TimeSeries [minute 0; minute 10; minute 20]);
                  ("steps"%string, NumSeries [Fin 3; Fin 2; Fin 0]);
                  ("heartrate"%string, NumSeries [Fin 7; Fin 9; Fin 9])]
                 [("data_id"%string, AStr "combined_dataframe")]))
  = Returned true /\
  has_column (mkDataFrame
                [("datetime"%string, TimeSeries [minute 0; minute 10; minute 20]);
                 ("steps"%string, NumSeries [Fin 3; Fin 2; Fin 0]);
                 ("heartrate"%string, NumSeries [Fin 7; Fin 9; Fin 9])]
                [("data_id"%string, AStr "combined_dataframe")]) "datetime" = true /\
  two_streams <> [] /\
  Forall (fun kv => In (fst kv) VALID_WEARABLE_STREAMS) two_streams.
Proof.
  apply (@combine_returns_valid two_streams ten_minutes None).
  vm_compute; reflexivity.
Defined.

Lemma no_method name :
  ~ In name VALID_WEARABLE_STREAMS -> lookup name WEARABLE_RESAMPLE_METHOD = None.
Proof.
  intros H; destruct (lookup name WEARABLE_RESAMPLE_METHOD) as [m|] eqn:Hl;
    [|reflexivity].
  destruct H; apply (method_of_stream _ Hl).
Qed.

Lemma py_min_returns x xs : exists m, py_min (x :: xs) = Returned m.
Proof. eexists; reflexivity. Qed.

Lemma py_max_returns x xs : exists m, py_max (x :: xs) = Returned m.
Proof. eexists; reflexivity. Qed.

(** X11.  What combine_wearable_dataframes raises: ValueError on an empty
    dictionary; KeyError when the first key is not a stream name (the
    frames having bounds); AttributeError on a frame with a start column
    and no end column, although such a frame passes validation. *)
Theorem combine_raises freq metadata :
  combine_wearable_dataframes [] freq metadata = Raised ValueError /\
  (forall k df rest,
     (exists bounds,
        mapM (fun kv : string * DataFrame => stream_bounds (snd kv)) ((k, df) :: rest)
        = Returned bounds) ->
     ~ In k VALID_WEARABLE_STREAMS ->
     combine_wearable_dataframes ((k, df) :: rest) freq metadata = Raised KeyError) /\
  (forall pre k df post,
     (forall kv, In kv pre -> exists b, stream_bounds (snd kv) = Returned b) ->
     has_stream_column df -> acceptable_metadata (attrs df) ->
     time_series df "start" <> None -> has_column df "end" = false ->
     is_valid (mkWearable df) = Returned true /\
     combine_wearable_dataframes (pre ++ (k, df) :: post) freq metadata
     = Raised AttributeError).
Proof.
  split; [reflexivity|split].
  - intros k df rest [bounds Hb] Hk; unfold combine_wearable_dataframes.
    rewrite Hb; cbn [bind].
    assert (Hne : exists b bs, bounds = b :: bs).
    { destruct bounds as [|b bs]; [|exists b, bs; reflexivity].
      apply mapM_length in Hb; discriminate Hb. }
    destruct Hne as [b [bs ->]]; cbn [map py_min py_max bind mapM fst snd].
    rewrite (@no_method k Hk); reflexivity.
  - intros pre k df post Hpre Hs Hm Hstart Hend.
    assert (Hl : exists starts, lookup "start"%string (columns df) = Some (TimeSeries starts)).
    { unfold time_series in Hstart.
      destruct (lookup "start"%string (columns df)) as [[ts|vs]|]; try congruence.
      exists ts; reflexivity. }
    destruct Hl as [starts Hl].
    assert (Ht : has_time_column df)
      by (right; left; apply (has_column_lookup _ _ Hl)).
    destruct (accessor_accepts Hs Ht) as [Hw Hv].
    apply validate_metadata_iff in Hm; rewrite Hm in Hv; cbn [bind] in Hv.
    split; [exact Hv|].
    unfold combine_wearable_dataframes.
    rewrite (@mapM_raises_at _ _ (fun kv : string * DataFrame => stream_bounds (snd kv))
               pre (k, df) post AttributeError); [reflexivity|exact Hpre|].
    cbn [snd]; unfold stream_bounds; rewrite Hw; cbn [bind]; rewrite Hv; cbn [bind].
    rewrite (has_column_lookup _ _ Hl); unfold time_column; rewrite Hl; cbn [bind].
    rewrite (lookup_absent "end" (columns df) Hend); reflexivity.
Qed.

Lemma combine_raises_witness :
  combine_wearable_dataframes [("hr"%string, heartrate_stream)] ten_minutes None
  = Raised KeyError /\
  (is_valid (mkWearable start_only) = Returned true /\
   combine_wearable_dataframes
     ([("heartrate"%string, heartrate_stream)] ++ ("steps"%string, start_only) :: [])
     ten_minutes None
   = Raised AttributeError).
Proof.
  destruct (combine_raises ten_minutes None) as [_ [Hkey Hend]]; split.
  - apply (Hkey "hr"%string heartrate_stream []).
    + eexists; reflexivity.
    + simpl; intuition discriminate.
  - apply (Hend [("heartrate"%string, heartrate_stream)] "steps"%string start_only []).
    + intros kv [<-|[]]; eexists; reflexivity.
    + exists "steps"%string; split; [simpl; tauto|reflexivity].
    + left; reflexivity.
    + discriminate.
    + reflexivity.
Defined.

(** *** One stream *)

Lemma valid_stream_frame name df : valid_stream name df -> stream_frame name df.
Proof.
  intros [Hname Hvalues Hlower _ Hattrs]; constructor; try assumption.
  unfold lower_times in Hlower; destruct (stream_shape df); congruence.
Qed.

Lemma resample_default_bounds name df freq agg_method :
  valid_stream name df ->
  str_in agg_method AGG_METHODS = true ->
  resample_df df name freq agg_method None None
  = resample_df df name freq agg_method
      (Some (Ts (least (lower_times df)))) (Some (Ts (greatest (upper_times df)))).
Proof.
  intros Hv Hm; pose proof (valid_stream_frame Hv) as Hf.
  destruct (frame_values Hf) as [values Hvalues].
  pose proof (valid_lower Hv) as Hlo; pose proof (valid_upper Hv) as Hhi.
  unfold lower_times, upper_times in *.
  destruct (stream_shape df) as [[ds|starts stops]|] eqn:Hshape; [| |congruence].
  - rewrite !(@resample_instant name df freq agg_method _ _ values ds)
      by (try assumption; reflexivity).
    cbn [bound_or]; rewrite (series_min_least Hlo), (series_max_greatest Hhi).
    reflexivity.
  - rewrite !(@resample_interval name df freq agg_method _ _ values starts stops)
      by (try assumption; reflexivity).
    cbn [bound_or]; rewrite (series_min_least Hlo), (series_max_greatest Hhi).
    reflexivity.
Qed.

(** X12.  Combining one valid stream is resampling it between its own
    bounds with the aggregation of its name, and relabelling: the table
    returned has the columns resample_df returns with the bounds left to
    the data, and the metadata given (or data_id = combined_dataframe) as
    its attrs. *)
Theorem combine_single_stream name df freq metadata :
  valid_stream name df ->
  metadata_ok metadata ->
  exists method out,
    lookup name WEARABLE_RESAMPLE_METHOD = Some method /\
    resample_df df name freq method None None = Returned out /\
    combine_wearable_dataframes [(name, df)] freq metadata
    = Returned (mkDataFrame (columns out) (updated (combined_metadata metadata) [])).
Proof.
  intros Hv Hmeta.
  destruct (resample_method (valid_name Hv)) as [method [Hl Hm]].
  set (lo := least (lower_times df)); set (hi := greatest (upper_times df)).
  destruct (@resample_valid name df freq method lo hi Hv Hm) as [vals [Hr [Hlen _]]].
  exists method; eexists; split; [exact Hl|].
  split; [rewrite (@resample_default_bounds name df freq method Hv Hm); exact Hr|].
  unfold combine_wearable_dataframes; cbn [mapM snd fst].
  rewrite (stream_bounds_valid Hv); cbn [bind map fst snd py_min py_max fold_left].
  rewrite Hl; cbn [bind]; fold lo hi; rewrite Hr; cbn [bind foldM].
  unfold resampled.
  assert (Hal : Forall (aligned (date_range lo hi freq)) [(name, NumSeries vals)]).
  { repeat constructor; exists vals; split; [reflexivity|exact Hlen]. }
  rewrite (@sort_values_sorted _ _ [] (date_range_sorted lo hi freq) Hal); cbn [bind].
  destruct (@accessor_accepts
              (mkDataFrame [("datetime"%string, TimeSeries (date_range lo hi freq));
                            (name, NumSeries vals)] [])) as [Hw _].
  { exists name; split; [exact (valid_name Hv)|].
    apply str_in_iff; right; left; reflexivity. }
  { left; reflexivity. }
  rewrite Hw; cbn [bind]; unfold add_metadata.
  destruct metadata as [m|]; cbn [combined_metadata].
  - simpl in Hmeta; rewrite Hmeta; reflexivity.
  - reflexivity.
Qed.

Lemma combine_single_stream_witness :
  exists method out,
    lookup "heartrate"%string WEARABLE_RESAMPLE_METHOD = Some method /\
    resample_df heartrate_stream "heartrate" ten_minutes method None None
    = Returned out /\
    combine_wearable_dataframes [("heartrate"%string, heartrate_stream)]
      ten_minutes (Some subject_7)
    = Returned (mkDataFrame (columns out)
                  (updated (combined_metadata (Some subject_7)) [])).
Proof.
  apply (@combine_single_stream "heartrate"%string heartrate_stream ten_minutes
           (Some subject_7)).
  - constructor; [simpl; tauto|eexists; reflexivity|discriminate|discriminate|reflexivity].
  - reflexivity.
Defined.

End CombineFacts.

(* ------------------------------------------------------------------ *)
(** ** metrics.py: the starting points and the windows of esri *)

Module EsriFacts.
Import Metrics Vocabulary PyFacts Esri.
Local Open Scope Q_scope.

(** The points of a forward range lie from its start up to, not at, its
    stop. *)
Lemma arange_points start stop step i :
  0 < step ->
  (i < Z.to_nat (Qceiling ((stop - start) / step)))%nat ->
  start <= start + inject_Z (Z.of_nat i) * step /\
  start + inject_Z (Z.of_nat i) * step < stop.
Proof.
  intros Hs Hi; set (q := (stop - start) / step) in *.
  assert (Hle : inject_Z (Z.of_nat i) <= inject_Z (Qceiling q - 1))
    by (rewrite <- Zle_Qle; lia).
  pose proof (Qceiling_lt q) as Hc.
  assert (Hlt : inject_Z (Z.of_nat i) < q) by (eapply Qle_lt_trans; eassumption).
  assert (H0 : 0 <= inject_Z (Z.of_nat i)) by (unfold Qle; simpl; lia).
  assert (Hq : q * step == stop - start) by (unfold q; field; lra).
  pose proof (Qmult_le_0_compat _ _ H0 (Qlt_le_weak _ _ Hs)) as Hp.
  apply (Qmult_lt_r _ _ step Hs) in Hlt; rewrite Hq in Hlt.
  split; lra.
Qed.

Lemma arange_forward_points start stop step l :
  0 < step -> arange start stop step = Returned l ->
  l = map (fun i => start + inject_Z (Z.of_nat i) * step) (seq 0 (List.length l)) /\
  Forall (fun t => start <= t /\ t < stop) l.
Proof.
  intros Hs; rewrite (arange_forward _ _ Hs); intros [= <-].
  rewrite length_map, length_seq; split; [reflexivity|].
  apply Forall_forall; intros t Ht; apply in_map_iff in Ht.
  destruct Ht as [i [<- Hi]]; apply in_seq in Hi.
  apply arange_points; [exact Hs|lia].
Qed.

(** What a call of esri that returns went through. *)
Lemma esri_returned Hannay19 time light_schedule analysis_days esri_dt
    initial_amplitude phase_at_midnight r :
  esri Hannay19 time light_schedule analysis_days esri_dt initial_amplitude
    phase_at_midnight = Returned r ->
  valid_input time light_schedule analysis_days esri_dt initial_amplitude /\
  exists d0 ds raw,
    diff time = d0 :: ds /\
    arange (hd 0 time) (last time 0 - inject_Z (analysis_days * 24)) esri_dt
      = Returned (esri_time r) /\
    mapM (simulate (Hannay19 [("K"%string, 0); ("gamma"%string, 0)])
            time light_schedule analysis_days d0 initial_amplitude
            phase_at_midnight) (esri_time r) = Returned raw /\
    esri_array r = clean_negative raw /\
    warnings r = (if existsb Float.isnan (esri_array r) then [NaNValues] else []).
Proof.
  intros H.
  assert (Hv : valid_input time light_schedule analysis_days esri_dt initial_amplitude).
  { unfold valid_input; unfold esri in H.
    destruct (validate _ _ _ _ _) as [[]|]; [reflexivity|discriminate]. }
  split; [exact Hv|].
  destruct (validate_inv Hv) as [_ [[d0 [ds [Hd _]]] _]].
  rewrite (esri_valid _ _ Hv Hd) in H.
  destruct (arange _ _ esri_dt) as [ts|]; [|discriminate]; cbn [bind] in H.
  destruct (mapM _ ts) as [raw|] eqn:Hraw; [|discriminate]; cbn [bind] in H.
  injection H as <-; exists d0, ds, raw; cbn [esri_time esri_array warnings].
  repeat split; try reflexivity; assumption.
Qed.

Lemma last_In {A} (l : list A) (d : A) : l <> [] -> In (last l d) l.
Proof.
  induction l as [|x l IH]; [congruence|]; intros _.
  destruct l as [|y l]; [left; reflexivity|].
  right; apply IH; discriminate.
Qed.

Lemma whole_between a b x z :
  whole a -> whole b -> x == inject_Z z -> a <= x -> x <= b -> whole x.
Proof.
  intros [za [Ha Hza]] [zb [Hb Hzb]] Hx Hax Hxb.
  exists z; split; [exact Hx|].
  rewrite Ha, Hx in Hax; rewrite Hx, Hb in Hxb.
  rewrite <- Zle_Qle in Hax, Hxb; lia.
Qed.

(** The points of a range that starts at a whole number and advances by a
    whole number are whole numbers. *)
Lemma arange_point_integer start step i zs zd :
  start == inject_Z zs -> step == inject_Z zd ->
  start + inject_Z (Z.of_nat i) * step == inject_Z (zs + Z.of_nat i * zd).
Proof.
  intros -> ->; rewrite inject_Z_plus, inject_Z_mult; reflexivity.
Qed.

Lemma arange_whole lo hi start stop step l :
  whole lo -> whole hi -> whole start -> whole step ->
  lo <= start -> stop <= hi ->
  0 < step -> arange start stop step = Returned l ->
  Forall whole l.
Proof.
  intros Hlo Hhi [zs [Hs _]] [zd [Hd _]] Hle Hge Hpos Hl.
  destruct (@arange_forward_points _ _ _ _ Hpos Hl) as [Heq Hall].
  rewrite Forall_forall in Hall; apply Forall_forall; intros t Ht.
  destruct (Hall t Ht) as [H1 H2].
  rewrite Heq in Ht; apply in_map_iff in Ht; destruct Ht as [i [Hi _]].
  apply (@whole_between lo hi t (zs + Z.of_nat i * zd) Hlo Hhi); [|lra|lra].
  rewrite <- Hi; apply arange_point_integer; assumption.
Qed.

Lemma whole_ends time :
  Forall whole time -> time <> [] -> whole (hd 0 time) /\ whole (last time 0).
Proof.
  intros Hall Hne; rewrite Forall_forall in Hall; split; apply Hall.
  - destruct time; [congruence|left; reflexivity].
  - apply last_In; exact Hne.
Qed.

Lemma window_positive analysis_days :
  (1 <= analysis_days)%Z -> 0 < inject_Z (analysis_days * 24).
Proof.
  intros H; assert (Hz : inject_Z 0 < inject_Z (analysis_days * 24))
    by (rewrite <- Zlt_Qlt; lia).
  exact Hz.
Qed.

(** X13.  On a series of whole hours with a whole number of hours as
    esri_dt, the starting points esri returns are the first time of the
    series and the multiples of esri_dt after it, as long as a window of
    analysis_days days that starts there ends before the last time of the
    series; they are whole hours again, and esri returns one value for
    each. *)
Theorem esri_starting_points Hannay19 time light_schedule analysis_days esri_dt
    initial_amplitude phase_at_midnight r :
  Forall whole time -> whole esri_dt -> whole (inject_Z (analysis_days * 24)) ->
  esri Hannay19 time light_schedule analysis_days esri_dt initial_amplitude
    phase_at_midnight = Returned r ->
  esri_time r
    = map (fun i => hd 0 time + inject_Z (Z.of_nat i) * esri_dt)
        (seq 0 (Z.to_nat (Qceiling ((span time - inject_Z (analysis_days * 24))
                                      / esri_dt)))) /\
  Forall (fun t => hd 0 time <= t /\ t + inject_Z (analysis_days * 24) < last time 0)
    (esri_time r) /\
  Forall whole (esri_time r) /\
  List.length (esri_array r) = List.length (esri_time r).
Proof.
  intros Hwhole Hstep _ H; destruct (esri_returned _ _ _ _ _ _ _ H)
    as [Hv [d0 [ds [raw [Hd [Hts [Hraw [Harr _]]]]]]]].
  destruct (validate_inv Hv) as [_ [_ [Hdays [Hdt _]]]].
  destruct (diff_cons_inv _ Hd) as [a [b [rest Htime]]].
  assert (Hne : time <> []) by (rewrite Htime; discriminate).
  destruct (whole_ends Hwhole Hne) as [Hfirst Hlast].
  pose proof (window_positive Hdays) as Hwin.
  assert (Hw : Forall whole (esri_time r)).
  { apply (@arange_whole (hd 0 time) (last time 0) (hd 0 time)
             (last time 0 - inject_Z (analysis_days * 24)) esri_dt);
      try assumption; lra. }
  destruct (@arange_forward_points _ _ _ _ Hdt Hts) as [_ Hall].
  rewrite (arange_forward _ _ Hdt) in Hts; injection Hts as Hts.
  split; [|split; [|split]].
  - rewrite <- Hts; f_equal; f_equal; f_equal.
    apply Qceiling_comp; unfold span; field; lra.
  - apply Forall_impl with (2 := Hall); intros t [H1 H2]; split; lra.
  - exact Hw.
  - rewrite Harr; unfold clean_negative; rewrite length_map.
    apply (mapM_length _ _ Hraw).
Qed.

Lemma hourly_whole : Forall whole (hourly 99).
Proof.
  apply Forall_forall; intros x Hx; apply in_map_iff in Hx.
  destruct Hx as [i [<- Hi]]; apply in_seq in Hi.
  exists (Z.of_nat i); split; [reflexivity|lia].
Qed.

Lemma whole_small z : (Z.abs z <= 16777216)%Z -> whole (inject_Z z).
Proof. intros H; exists z; split; [reflexivity|exact H]. Qed.

Lemma esri_starting_points_witness :
  esri_time (mkResult [0; 1] [Fin (1 # 10); NaN] [NaNValues])
    = map (fun i => hd 0 (hourly 99) + inject_Z (Z.of_nat i) * 1)
        (seq 0 (Z.to_nat (Qceiling ((span (hourly 99) - inject_Z (4 * 24)) / 1)))) /\
  Forall (fun t => hd 0 (hourly 99) <= t /\
                   t + inject_Z (4 * 24) < last (hourly 99) 0)
    (esri_time (mkResult [0; 1] [Fin (1 # 10); NaN] [NaNValues])) /\
  Forall whole (esri_time (mkResult [0; 1] [Fin (1 # 10); NaN] [NaNValues])) /\
  List.length (esri_array (mkResult [0; 1] [Fin (1 # 10); NaN] [NaNValues]))
  = List.length (esri_time (mkResult [0; 1] [Fin (1 # 10); NaN] [NaNValues])).
Proof.
  apply (@esri_starting_points sinking_oscillator (hourly 99) (dark 99) 4%Z 1
           (1 # 10) default_phase_at_midnight).
  - apply hourly_whole.
  - apply (whole_small 1); simpl; lia.
  - apply (whole_small (4 * 24)); simpl; lia.
  - vm_compute; reflexivity.
Defined.

(** X14.  esri issues its warning exactly when a value it returns is
    NaN; without a warning every value returned is a non-negative
    number. *)
Theorem esri_warning_iff_nan Hannay19 time light_schedule analysis_days esri_dt
    initial_amplitude phase_at_midnight r :
  esri Hannay19 time light_schedule analysis_days esri_dt initial_amplitude
    phase_at_midnight = Returned r ->
  (warnings r = [NaNValues] <-> Exists (fun v => v = NaN) (esri_array r)) /\
  (warnings r = [] <-> Forall Float.nonneg (esri_array r)).
Proof.
  intros H; destruct (esri_returned _ _ _ _ _ _ _ H)
    as [_ [d0 [ds [raw [_ [_ [_ [Harr Hw]]]]]]]].
  assert (Hnan : existsb Float.isnan (esri_array r) = true
                 <-> Exists (fun v => v = NaN) (esri_array r)).
  { rewrite existsb_exists, Exists_exists; split; intros [v [Hin Hv]];
      exists v; (split; [exact Hin|]); destruct v; try discriminate; reflexivity. }
  assert (Hpos : existsb Float.isnan (esri_array r) = false
                 <-> Forall Float.nonneg (esri_array r)).
  { pose proof (clean_negative_nonneg raw) as Hc; rewrite <- Harr in Hc.
    rewrite Forall_forall in Hc; rewrite Forall_forall; split.
    - intros Hf v Hin; destruct (Hc v Hin) as [->|Hv]; [|exact Hv].
      assert (Ht : existsb Float.isnan (esri_array r) = true)
        by (apply existsb_exists; exists NaN; split; [exact Hin|reflexivity]).
      congruence.
    - intros Hall; destruct (existsb Float.isnan (esri_array r)) eqn:E; [|reflexivity].
      apply existsb_exists in E; destruct E as [v [Hin Hv]].
      specialize (Hall v Hin); destruct v; try discriminate; destruct Hall. }
  rewrite Hw, <- Hnan, <- Hpos.
  destruct (existsb Float.isnan (esri_array r)); split; split; congruence.
Qed.

Lemma esri_warning_iff_nan_witness :
  (warnings (mkResult [0; 1] [Fin (1 # 10); NaN] [NaNValues]) = [NaNValues]
   <-> Exists (fun v => v = NaN)
         (esri_array (mkResult [0; 1] [Fin (1 # 10); NaN] [NaNValues]))) /\
  (warnings (mkResult [0; 1] [Fin (1 # 10); NaN] [NaNValues]) = []
   <-> Forall Float.nonneg
         (esri_array (mkResult [0; 1] [Fin (1 # 10); NaN] [NaNValues]))).
Proof.
  apply (@esri_warning_iff_nan sinking_oscillator (hourly 99) (dark 99) 4%Z 1
           (1 # 10) default_phase_at_midnight).
  vm_compute; reflexivity.
Defined.

Lemma diff_short time : (List.length time < 2)%nat -> diff time = [].
Proof. destruct time as [|a [|b rest]]; simpl; [reflexivity|reflexivity|lia]. Qed.

(** X15.  The first two checks of esri: arrays of different lengths raise
    ValueError whatever else is wrong; arrays of one length with fewer
    than two timepoints raise IndexError, there being no time step to
    read, whatever the other arguments and the oscillator. *)
Theorem esri_first_checks Hannay19 time light_schedule analysis_days esri_dt
    initial_amplitude phase_at_midnight :
  (List.length time <> List.length light_schedule ->
   esri Hannay19 time light_schedule analysis_days esri_dt initial_amplitude
     phase_at_midnight = Raised ValueError) /\
  (List.length time = List.length light_schedule ->
   (List.length time < 2)%nat ->
   esri Hannay19 time light_schedule analysis_days esri_dt initial_amplitude
     phase_at_midnight = Raised IndexError).
Proof.
  unfold esri, validate; split.
  - intros H; apply Nat.eqb_neq in H; rewrite H; reflexivity.
  - intros H Hshort; apply Nat.eqb_eq in H; rewrite H.
    rewrite (diff_short _ Hshort); reflexivity.
Qed.

Lemma esri_first_checks_witness :
  esri constant_oscillator [5] [0; 0] 4 1 (1 # 10) default_phase_at_midnight
  = Raised ValueError /\
  esri constant_oscillator [5] [0] 4 1 (1 # 10) default_phase_at_midnight
  = Raised IndexError.
Proof.
  split.
  - apply (@esri_first_checks constant_oscillator [5] [0; 0] 4%Z 1 (1 # 10)
             default_phase_at_midnight).
    simpl; lia.
  - apply (@esri_first_checks constant_oscillator [5] [0] 4%Z 1 (1 # 10)
             default_phase_at_midnight); [reflexivity|simpl; lia].
Defined.

Lemma first_step_whole time d0 ds :
  Forall whole time -> diff time = d0 :: ds ->
  exists z, d0 == inject_Z z.
Proof.
  intros Hall Hd; destruct time as [|a [|b rest]]; try discriminate.
  injection Hd as <- _.
  inversion Hall as [|? ? [za [Ha _]] Hall']; subst.
  inversion Hall' as [|? ? [zb [Hb _]] _]; subst.
  exists (zb - za)%Z; rewrite Ha, Hb; unfold Zminus.
  rewrite inject_Z_plus, inject_Z_opp; reflexivity.
Qed.

(** X16.  On a series of whole hours that runs forward, with a whole
    number of hours as esri_dt, every simulation esri runs stays inside
    the series: started at a starting point [t] of esri, the simulation
    times run from [t] in steps of the time step of the series, all of
    them whole hours from the first time of the series up to, not at, its
    last time, and the oscillator is given one interpolated light value
    per simulation time. *)
Theorem esri_windows_within_series Hannay19 time light_schedule analysis_days
    esri_dt initial_amplitude phase_at_midnight r t :
  Forall whole time -> whole esri_dt -> whole (inject_Z (analysis_days * 24)) ->
  esri Hannay19 time light_schedule analysis_days esri_dt initial_amplitude
    phase_at_midnight = Returned r ->
  forward time ->
  In t (esri_time r) ->
  exists simulation_time simulation_light,
    arange t (t + inject_Z (analysis_days * 24)) (hd 0 (diff time))
      = Returned simulation_time /\
    interp simulation_time time light_schedule = Returned simulation_light /\
    simulation_time <> [] /\
    List.length simulation_light = List.length simulation_time /\
    Forall (fun x => hd 0 time <= x /\ x < last time 0) simulation_time /\
    Forall whole simulation_time /\
    simulate (Hannay19 [("K"%string, 0); ("gamma"%string, 0)]) time light_schedule
      analysis_days (hd 0 (diff time)) initial_amplitude phase_at_midnight t
    = (trajectory <- Hannay19 [("K"%string, 0); ("gamma"%string, 0)]
                       simulation_time
                       (initial_amplitude,
                        phase_at_midnight + mod_ t 24 * np_pi / 12, 0)
                       simulation_light ;;
       final_amplitude trajectory).
Proof.
  intros Hwhole Hstep _ H [d0 [ds [Hd Hd0]]] Hin.
  destruct (esri_returned _ _ _ _ _ _ _ H)
    as [Hv [d0' [ds' [raw [Hd' [Hts _]]]]]].
  destruct (validate_inv Hv) as [Hlen [_ [Hdays [Hdt _]]]].
  destruct (@arange_forward_points _ _ _ _ Hdt Hts) as [_ Hall].
  rewrite Forall_forall in Hall; destruct (Hall t Hin) as [Ht0 Ht1].
  destruct (first_step_whole Hwhole Hd) as [zd Hzd].
  rewrite Hd; cbn [hd].
  destruct (diff_cons_inv _ Hd) as [a [b [rest Htime]]].
  assert (Hne : time <> []) by (rewrite Htime; discriminate).
  destruct (whole_ends Hwhole Hne) as [Hfirst Hlast].
  pose proof (window_positive Hdays) as Hwin.
  assert (Hpoints : Forall whole (esri_time r)).
  { apply (@arange_whole (hd 0 time) (last time 0) (hd 0 time)
             (last time 0 - inject_Z (analysis_days * 24)) esri_dt);
      try assumption; lra. }
  rewrite Forall_forall in Hpoints; destruct (Hpoints t Hin) as [zt [Hzt _]].
  assert (Hlater : t < t + inject_Z (analysis_days * 24)) by lra.
  destruct (arange_nonempty Hd0 Hlater) as [st [Hst Hstne]].
  destruct (@interp_returns st time light_schedule Hne Hlen) as [sl Hsl].
  destruct (@arange_forward_points _ _ _ _ Hd0 Hst) as [Heq Hin_st].
  exists st, sl; split; [exact Hst|]; split; [exact Hsl|].
  split; [exact Hstne|]; split; [apply (interp_length _ _ _ Hsl)|].
  split; [|split].
  - apply Forall_impl with (2 := Hin_st); intros x [Hx0 Hx1]; split; lra.
  - rewrite Forall_forall in Hin_st; apply Forall_forall; intros x Hx.
    destruct (Hin_st x Hx) as [Hx0 Hx1].
    rewrite Heq in Hx; apply in_map_iff in Hx; destruct Hx as [j [Hj _]].
    apply (@whole_between (hd 0 time) (last time 0) x (zt + Z.of_nat j * zd)
             Hfirst Hlast); [|lra|lra].
    rewrite <- Hj; apply arange_point_integer; assumption.
  - unfold simulate; rewrite Hst; cbn [bind]; rewrite Hsl; reflexivity.
Qed.

Lemma esri_windows_within_series_witness :
  exists simulation_time simulation_light,
    arange 1 (1 + inject_Z (4 * 24)) (hd 0 (diff (hourly 99)))
      = Returned simulation_time /\
    interp simulation_time (hourly 99) (dark 99) = Returned simulation_light /\
    simulation_time <> [] /\
    List.length simulation_light = List.length simulation_time /\
    Forall (fun x => hd 0 (hourly 99) <= x /\ x < last (hourly 99) 0)
      simulation_time /\
    Forall whole simulation_time /\
    simulate (sinking_oscillator [("K"%string, 0); ("gamma"%string, 0)])
      (hourly 99) (dark 99) 4 (hd 0 (diff (hourly 99))) (1 # 10)
      default_phase_at_midnight 1
    = (trajectory <- sinking_oscillator [("K"%string, 0); ("gamma"%string, 0)]
                       simulation_time
                       (1 # 10, default_phase_at_midnight + mod_ 1 24 * np_pi / 12, 0)
                       simulation_light ;;
       final_amplitude trajectory).
Proof.
  apply (@esri_windows_within_series sinking_oscillator (hourly 99) (dark 99)
           4%Z 1 (1 # 10) default_phase_at_midnight
           (mkResult [0; 1] [Fin (1 # 10); NaN] [NaNValues]) 1).
  - apply hourly_whole.
  - apply (whole_small 1); simpl; lia.
  - apply (whole_small (4 * 24)); simpl; lia.
  - vm_compute; reflexivity.
  - apply hourly_forward.
  - right; left; reflexivity.
Defined.

End EsriFacts.

(* ------------------------------------------------------------------ *)
(** ** readers.py: which bucket reads which record *)

Module BucketFacts.
Import Readers Vocabulary PyFacts Frames Combine.

Lemma bucket_mask_nth ds freq g j d :
  nth_error ds j = Some d ->
  nth_error (bucket_mask ds freq g) j
  = Some ((d <=? g + Zpos freq) && (d >=? g)).
Proof.
  intros H; unfold bucket_mask; apply nth_error_zip_with.
  - apply map_nth_error with (f := fun d => d <=? g + Z.pos freq); exact H.
  - apply map_nth_error with (f := fun d => d >=? g); exact H.
Qed.

Lemma date_range_nth lo hi freq k g :
  nth_error (date_range lo hi freq) k = Some g <->
  (Z.of_nat k <= (hi - lo) / Zpos freq /\ g = lo + Z.of_nat k * Zpos freq).
Proof.
  unfold date_range; set (n := Z.to_nat ((hi - lo) / Z.pos freq + 1)); split.
  - intros H.
    assert (Hk : (k < n)%nat).
    { assert (Hs : nth_error (map (fun k : nat => lo + Z.of_nat k * Z.pos freq)
                                (seq 0 n)) k <> None) by (rewrite H; discriminate).
      apply nth_error_Some in Hs; rewrite length_map, length_seq in Hs; exact Hs. }
    rewrite (map_nth_error _ _ (seq 0 n) (d := k)) in H
      by (rewrite nth_error_nth' with (d := 0%nat) by (rewrite length_seq; exact Hk);
          rewrite seq_nth by exact Hk; reflexivity).
    injection H as <-; split; [lia|reflexivity].
  - intros [Hk ->].
    assert (Hn : (k < n)%nat) by lia.
    rewrite (map_nth_error _ _ (seq 0 n) (d := k)); [reflexivity|].
    rewrite nth_error_nth' with (d := 0%nat) by (rewrite length_seq; exact Hn).
    rewrite seq_nth by exact Hn; reflexivity.
Qed.

Lemma bucket_cell f x k :
  0 < f -> 0 <= x -> 0 <= k ->
  (k * f <= x /\ x <= k * f + f) <->
  (k = x / f \/ (x mod f = 0 /\ k = x / f - 1)).
Proof.
  intros Hf Hx Hk.
  pose proof (Z.div_mod x f ltac:(lia)) as Hdm.
  pose proof (Z.mod_pos_bound x f Hf) as Hr.
  set (q := x / f) in *; set (r := x mod f) in *; split.
  - intros [H1 H2].
    assert (Hle : k <= q) by nia.
    assert (Hge : q - 1 <= k) by nia.
    destruct (Z.eq_dec k q) as [->|Hne]; [left; reflexivity|].
    right; assert (k = q - 1) by lia; subst k; split; [nia|reflexivity].
  - intros [->|[H0 ->]]; nia.
Qed.

(** X18.  Which buckets read a record of an instant-indexed stream, the
    grid running from the least timestamp [lo] in steps of [freq]: the
    bucket of the grid cell the timestamp falls in, which is on the grid,
    and, for a timestamp that lies on a grid point, the bucket before it
    as well; no other bucket.  A record on a grid point after the first
    is thus aggregated twice, every other record once. *)
Theorem instant_buckets_read_records values ds freq agg_method :
  ds <> [] ->
  forall j d, nth_error ds j = Some d ->
    (exists g, nth_error (date_range (least ds) (greatest ds) freq)
                 (Z.to_nat ((d - least ds) / Zpos freq)) = Some g) /\
    (forall k g,
       nth_error (date_range (least ds) (greatest ds) freq) k = Some g ->
       instant_bucket values ds freq agg_method g
       = (if (0 <? List.length (select (bucket_mask ds freq g) values))%nat
          then agg agg_method (select (bucket_mask ds freq g) values)
          else Returned Float.zero) /\
       (nth_error (bucket_mask ds freq g) j = Some true <->
        (Z.of_nat k = (d - least ds) / Zpos freq \/
         ((d - least ds) mod Zpos freq = 0 /\
          Z.of_nat k = (d - least ds) / Zpos freq - 1)))).
Proof.
  intros Hne j d Hd.
  destruct (least_is_min Hne) as [_ Hmin]; destruct (greatest_is_max Hne) as [_ Hmax].
  rewrite Forall_forall in Hmin, Hmax.
  pose proof (Hmin d (nth_error_In _ _ Hd)) as Hlo.
  pose proof (Hmax d (nth_error_In _ _ Hd)) as Hhi.
  assert (Hq : 0 <= (d - least ds) / Z.pos freq) by (apply Z.div_pos; lia).
  split.
  - eexists; apply date_range_nth; split; [|reflexivity].
    rewrite Z2Nat.id by exact Hq.
    apply Z.div_le_mono; lia.
  - intros k g Hg; split; [reflexivity|].
    apply date_range_nth in Hg; destruct Hg as [_ ->].
    rewrite (bucket_mask_nth _ _ _ _ Hd).
    rewrite <- (@bucket_cell (Z.pos freq) (d - least ds) (Z.of_nat k)) by lia.
    split.
    + intros [= H]; apply andb_prop in H; destruct H as [H1 H2].
      apply Z.leb_le in H1; apply Z.geb_le in H2; lia.
    + intros [H1 H2]; f_equal; apply andb_true_intro; split;
        [apply Z.leb_le|apply Z.geb_le]; lia.
Qed.

Lemma instant_buckets_read_records_witness :
  (exists g, nth_error (date_range (least [minute 5; minute 20])
                          (greatest [minute 5; minute 20]) ten_minutes)
               (Z.to_nat ((minute 20 - least [minute 5; minute 20])
                          / Zpos ten_minutes)) = Some g) /\
  (forall k g,
     nth_error (date_range (least [minute 5; minute 20])
                  (greatest [minute 5; minute 20]) ten_minutes) k = Some g ->
     instant_bucket [Fin 7; Fin 9] [minute 5; minute 20] ten_minutes "mean" g
     = (if (0 <? List.length
                   (select (bucket_mask [minute 5; minute 20] ten_minutes g)
                      [Fin 7; Fin 9]))%nat
        then agg "mean" (select (bucket_mask [minute 5; minute 20] ten_minutes g)
                           [Fin 7; Fin 9])
        else Returned Float.zero) /\
     (nth_error (bucket_mask [minute 5; minute 20] ten_minutes g) 1 = Some true <->
      (Z.of_nat k = (minute 20 - least [minute 5; minute 20]) / Zpos ten_minutes \/
       ((minute 20 - least [minute 5; minute 20]) mod Zpos ten_minutes = 0 /\
        Z.of_nat k
        = (minute 20 - least [minute 5; minute 20]) / Zpos ten_minutes - 1)))).
Proof.
  apply (@instant_buckets_read_records [Fin 7; Fin 9] [minute 5; minute 20]
           ten_minutes "mean"%string); [discriminate|reflexivity].
Defined.

(** X17.  Resampled with sum at its own step and the bounds taken from
    the data, a uniform stream with at least one record keeps its
    timestamps, and its value at the grid point [i] is the sum of the
    records [i] and [i + 1]: the last value alone is a record's own. *)
Theorem sum_at_own_step_adds_next_record t0 step vs :
  vs <> [] ->
  resample_df (uniform_stream t0 step vs) "steps" step "sum" None None
  = Returned
      (mkDataFrame
         [("datetime"%string, TimeSeries (uniform_times t0 step (List.length vs)));
          ("steps"%string,
           NumSeries (map (fun i => series_sum (firstn 2 (skipn i vs)))
                        (seq 0 (List.length vs))))] []).
Proof.
  intros Hne; exact (@NativeStep.resample_sum_native_step t0 step vs Hne).
Qed.

Lemma sum_at_own_step_adds_next_record_witness :
  resample_df (uniform_stream (minute 3) one_minute [Fin 1; Fin 2; Fin 3])
    "steps" one_minute "sum" None None
  = Returned
      (mkDataFrame
         [("datetime"%string,
           TimeSeries (uniform_times (minute 3) one_minute
                         (List.length [Fin 1; Fin 2; Fin 3])));
          ("steps"%string,
           NumSeries (map (fun i => series_sum (firstn 2 (skipn i [Fin 1; Fin 2; Fin 3])))
                        (seq 0 (List.length [Fin 1; Fin 2; Fin 3]))))] []).
Proof.
  apply (@sum_at_own_step_adds_next_record (minute 3) one_minute
           [Fin 1; Fin 2; Fin 3]).
  discriminate.
Defined.

End BucketFacts.
